(** * Fit Buddy API: field resolution, derived aggregates and upsert coordination

    A shallow embedding of the normalisation and persistence code of
    [app.py] and [database.py], with the credential and token checks of
    [auth.py] and [utils.py]; the properties of it that the specification
    states, and further properties read off the code.

    Conventions of the embedding.
    - A provider payload is an untyped JSON document: [json].  Python's [None]
      is [JNull]; a Python [bool] is an [int] for [isinstance] and for
      arithmetic, as in Python.
    - A Python [float] is represented by the rational number it denotes
      ([JFloat q]); comparisons are exact, as Python's are, and arithmetic is
      exact rational arithmetic (binary rounding of [float] operations is not
      modelled).  [round(x, 2)] is rounding to hundredths, ties to even.
    - A computation that can raise returns [result]; a block that mutates the
      session or the report before raising is a state transformer returning
      the state reached together with the [result]. *)

From Stdlib Require Import ZArith QArith Qround Qminmax List String Ascii Bool Lia.
From Stdlib Require Import Sorted Permutation.
Import ListNotations.
Local Open Scope string_scope.
Local Open Scope Z_scope.

Set Implicit Arguments.

(* ================================================================== *)
(** * Python values                                                    *)
(* ================================================================== *)

#[warnings="-register-all"]
Inductive json : Type :=
| JNull
| JBool (b : bool)
| JInt (n : Z)
| JFloat (q : Q)
| JStr (s : string)
| JList (l : list json)
| JDict (d : list (string * json)).

(** The exceptions the modelled code can meet: Python's own, the provider
    client's ([GarthError] stands for [GarthHTTPError] and [GarthException])
    and the storage engine's. *)
Inductive exn : Type :=
| TypeError
| AttributeError
| KeyError
| IndexError
| ValueError
| ZeroDivisionError
| UnboundLocalError
| GarminConnectAuthenticationError (msg : string)
| GarminConnectConnectionError (msg : string)
| GarminConnectTooManyRequestsError (msg : string)
| GarthError (msg : string)
| StorageError (msg : string).

Inductive result (A : Type) : Type :=
| Ok (a : A)
| Raise (e : exn).
Arguments Ok {A} a.
Arguments Raise {A} e.

Definition rbind {A B} (r : result A) (k : A -> result B) : result B :=
  match r with
  | Ok a => k a
  | Raise e => Raise e
  end.

Declare Scope py_scope.
Delimit Scope py_scope with py.
Notation "'let*' x ':=' c1 'in' c2" := (rbind c1 (fun x => c2))
  (at level 61, x name, c1 at next level, right associativity) : py_scope.
Local Open Scope py_scope.

(** [bool(x)]: Python truthiness. *)
Definition truthy (j : json) : bool :=
  match j with
  | JNull => false
  | JBool b => b
  | JInt n => negb (n =? 0)
  | JFloat q => negb (Qeq_bool q 0)
  | JStr s => negb (String.eqb s "")
  | JList l => match l with [] => false | _ => true end
  | JDict d => match d with [] => false | _ => true end
  end.

(** [a or b] on values already evaluated. *)
Definition py_or (a b : json) : json := if truthy a then a else b.

Definition is_none (j : json) : bool :=
  match j with JNull => true | _ => false end.
Definition is_dict (j : json) : bool :=
  match j with JDict _ => true | _ => false end.
Definition is_list (j : json) : bool :=
  match j with JList _ => true | _ => false end.
(** [isinstance(x, float)] *)
Definition is_float (j : json) : bool :=
  match j with JFloat _ => true | _ => false end.
(** [isinstance(x, (int, float))]; [bool] is a subclass of [int]. *)
Definition is_number (j : json) : bool :=
  match j with JBool _ | JInt _ | JFloat _ => true | _ => false end.

(** Python numbers: [bool], [int] and [float]. *)
Inductive num : Type :=
| NBool (b : bool)
| NInt (n : Z)
| NFloat (q : Q).

Definition as_num (j : json) : option num :=
  match j with
  | JBool b => Some (NBool b)
  | JInt n => Some (NInt n)
  | JFloat q => Some (NFloat q)
  | _ => None
  end.

Definition of_num (x : num) : json :=
  match x with
  | NBool b => JBool b
  | NInt n => JInt n
  | NFloat q => JFloat q
  end.

(** The rational value of a number. *)
Definition num_q (x : num) : Q :=
  match x with
  | NBool b => inject_Z (Z.b2z b)
  | NInt n => inject_Z n
  | NFloat q => q
  end.

(** The integer value of an [int] (or [bool]). *)
Definition num_int (x : num) : option Z :=
  match x with
  | NBool b => Some (Z.b2z b)
  | NInt n => Some n
  | NFloat _ => None
  end.

Fixpoint assoc (k : string) (d : list (string * json)) : option json :=
  match d with
  | [] => None
  | (k', v) :: d' => if String.eqb k k' then Some v else assoc k d'
  end.

(** [k in o] for a dict. *)
Definition dict_has (d : list (string * json)) (k : string) : bool :=
  match assoc k d with Some _ => true | None => false end.

(** [o.get(k, dflt)]: only a dict has [get]. *)
Definition py_get_default (o : json) (k : string) (dflt : json) : result json :=
  match o with
  | JDict d => Ok (match assoc k d with Some v => v | None => dflt end)
  | _ => Raise AttributeError
  end.

(** [o.get(k)] *)
Definition py_get (o : json) (k : string) : result json :=
  py_get_default o k JNull.

Fixpoint chars (s : string) : list json :=
  match s with
  | EmptyString => []
  | String c s' => JStr (String c EmptyString) :: chars s'
  end.

(** [for v in o]: the elements a [for] loop visits. *)
Definition py_iter (o : json) : result (list json) :=
  match o with
  | JList l => Ok l
  | JDict d => Ok (map (fun kv => JStr (fst kv)) d)
  | JStr s => Ok (chars s)
  | _ => Raise TypeError
  end.

(** [len(o)] *)
Definition py_len (o : json) : result Z :=
  match o with
  | JList l => Ok (Z.of_nat (List.length l))
  | JDict d => Ok (Z.of_nat (List.length d))
  | JStr s => Ok (Z.of_nat (String.length s))
  | _ => Raise TypeError
  end.

(** [o[0]]: a dict decoded from JSON has string keys only. *)
Definition py_first (o : json) : result json :=
  match o with
  | JList (x :: _) => Ok x
  | JList [] => Raise IndexError
  | JStr (String c _) => Ok (JStr (String c EmptyString))
  | JStr EmptyString => Raise IndexError
  | JDict _ => Raise KeyError
  | _ => Raise TypeError
  end.

Definition Qltb (x y : Q) : bool := negb (Qle_bool y x).

Definition num_le (x y : num) : bool := Qle_bool (num_q x) (num_q y).
Definition num_lt (x y : num) : bool := Qltb (num_q x) (num_q y).

(** Arithmetic: [int] with [int] stays [int], a [float] operand gives a
    [float]. *)
Definition num_arith (fz : Z -> Z -> Z) (fq : Q -> Q -> Q) (x y : num) : num :=
  match num_int x, num_int y with
  | Some a, Some b => NInt (fz a b)
  | _, _ => NFloat (Qred (fq (num_q x) (num_q y)))
  end.

Definition num_add := num_arith Z.add Qplus.
Definition num_sub := num_arith Z.sub Qminus.
Definition num_mul := num_arith Z.mul Qmult.

(** [max(x, y)]: the first of the largest, so [y] only when [y > x]. *)
Definition num_max (x y : num) : num := if num_lt x y then y else x.

(** Operators on untyped values: anything but two numbers raises (the code
    modelled here always has a number on one side). *)
Definition py_num2 {A} (f : num -> num -> A) (a b : json) : result A :=
  match as_num a, as_num b with
  | Some x, Some y => Ok (f x y)
  | _, _ => Raise TypeError
  end.

Definition py_le := py_num2 num_le.
Definition py_lt := py_num2 num_lt.
Definition py_ge (a b : json) := py_le b a.
Definition py_gt (a b : json) := py_lt b a.
Definition py_add := py_num2 (fun x y => of_num (num_add x y)).
Definition py_sub := py_num2 (fun x y => of_num (num_sub x y)).
Definition py_mul := py_num2 (fun x y => of_num (num_mul x y)).
Definition py_max := py_num2 (fun x y => of_num (num_max x y)).

(** [a / b]: true division, always a [float]. *)
Definition py_truediv (a b : json) : result json :=
  match as_num a, as_num b with
  | Some x, Some y =>
      if Qeq_bool (num_q y) 0 then Raise ZeroDivisionError
      else Ok (JFloat (Qred (num_q x / num_q y)))
  | _, _ => Raise TypeError
  end.

(** [a // b]: floor division; [Z.div] rounds towards minus infinity for a
    positive divisor and gives the remainder the divisor's sign, as Python
    does. *)
Definition py_floordiv (a b : json) : result json :=
  match as_num a, as_num b with
  | Some x, Some y =>
      match num_int x, num_int y with
      | Some m, Some n =>
          if n =? 0 then Raise ZeroDivisionError else Ok (JInt (m / n))
      | _, _ =>
          if Qeq_bool (num_q y) 0 then Raise ZeroDivisionError
          else Ok (JFloat (inject_Z (Qfloor (num_q x / num_q y))))
      end
  | _, _ => Raise TypeError
  end.

(** Rounding to the nearest integer, ties to even. *)
Definition round_half_even (q : Q) : Z :=
  let f := Qfloor q in
  let r := (q - inject_Z f)%Q in
  match Qcompare r (1 # 2) with
  | Lt => f
  | Gt => f + 1
  | Eq => if Z.even f then f else f + 1
  end.

Definition round2 (q : Q) : Q := Qred (inject_Z (round_half_even (q * 100)) / 100).

(** [round(x, 2)] *)
Definition py_round2 (a : json) : result json :=
  match a with
  | JBool b => Ok (JInt (Z.b2z b))
  | JInt n => Ok (JInt n)
  | JFloat q => Ok (JFloat (round2 q))
  | _ => Raise TypeError
  end.

(** [round(x)] *)
Definition py_round (a : json) : result json :=
  match a with
  | JBool b => Ok (JInt (Z.b2z b))
  | JInt n => Ok (JInt n)
  | JFloat q => Ok (JInt (round_half_even q))
  | _ => Raise TypeError
  end.

(** [int(x)] of a number: truncation towards zero. *)
Definition py_int (a : json) : result json :=
  match a with
  | JBool b => Ok (JInt (Z.b2z b))
  | JInt n => Ok (JInt n)
  | JFloat q => Ok (JInt (Qnum q ÷ Zpos (Qden q)))
  | _ => Raise TypeError
  end.

(* ================================================================== *)
(** * StressHistogramCalculator ([get_stress])                         *)
(* ================================================================== *)

(** The loop's variables: [stress_levels], [total_stress_minutes],
    [stress_sum], [max_stress]. *)
Record stress_acc : Type := mkStressAcc {
  lv_rest : Z;
  lv_low : Z;
  lv_medium : Z;
  lv_high : Z;
  acc_total_stress_minutes : Z;
  acc_stress_sum : num;
  acc_max_stress : num
}.

Definition stress_acc0 : stress_acc := mkStressAcc 0 0 0 0 0 (NInt 0) (NInt 0).

Definition duration_minutes : Z := 3.

Inductive bucket : Type := Rest | Low | Medium | High.

(** The [if]/[elif] chain: the bucket a level falls in, if any. *)
Definition stress_bucket (stress : num) : option bucket :=
  if num_le (NInt 0) stress && num_le stress (NInt 25) then Some Rest
  else if num_le (NInt 26) stress && num_le stress (NInt 50) then Some Low
  else if num_le (NInt 51) stress && num_le stress (NInt 75) then Some Medium
  else if num_lt (NInt 75) stress then Some High
  else None.

Definition add_bucket (b : option bucket) (a : stress_acc) : stress_acc :=
  match b with
  | Some Rest =>
      mkStressAcc (lv_rest a + duration_minutes) (lv_low a) (lv_medium a) (lv_high a)
        (acc_total_stress_minutes a) (acc_stress_sum a) (acc_max_stress a)
  | Some Low =>
      mkStressAcc (lv_rest a) (lv_low a + duration_minutes) (lv_medium a) (lv_high a)
        (acc_total_stress_minutes a) (acc_stress_sum a) (acc_max_stress a)
  | Some Medium =>
      mkStressAcc (lv_rest a) (lv_low a) (lv_medium a + duration_minutes) (lv_high a)
        (acc_total_stress_minutes a) (acc_stress_sum a) (acc_max_stress a)
  | Some High =>
      mkStressAcc (lv_rest a) (lv_low a) (lv_medium a) (lv_high a + duration_minutes)
        (acc_total_stress_minutes a) (acc_stress_sum a) (acc_max_stress a)
  | None => a
  end.

(** [value[1] if isinstance(value[1], (int, float)) else 0] for a [value]
    that passes [isinstance(value, list) and len(value) >= 2]; [None] for an
    entry the loop skips. *)
Definition sample_level (value : json) : option num :=
  match value with
  | JList (_ :: v1 :: _) =>
      Some (match as_num v1 with Some x => x | None => NInt 0 end)
  | _ => None
  end.

(** One iteration of the loop body. *)
Definition stress_step (a : stress_acc) (value : json) : stress_acc :=
  match sample_level value with
  | None => a
  | Some stress =>
      let a1 := add_bucket (stress_bucket stress) a in
      if num_lt (NInt 0) stress then
        mkStressAcc (lv_rest a1) (lv_low a1) (lv_medium a1) (lv_high a1)
          (acc_total_stress_minutes a1 + duration_minutes)
          (num_add (acc_stress_sum a1) (num_mul stress (NInt duration_minutes)))
          (num_max (acc_max_stress a1) stress)
      else a1
  end.

Definition stress_loop (values : list json) : stress_acc :=
  fold_left stress_step values stress_acc0.

(** What the response and the stored row report. *)
Record stress_stats : Type := mkStressStats {
  rest_minutes : Z;
  low_stress_minutes : Z;
  medium_stress_minutes : Z;
  high_stress_minutes : Z;
  average_stress : json;
  max_stress : json;
  total_stress_minutes : Z;
  hourly_stress : json
}.

(** The statements after the loop: the upstream average overrides the
    computed one, and the upstream maximum can only raise the observed
    one.  Returns [average_stress] and [max_stress]. *)
Definition stress_resolve (stress_data : json) (a : stress_acc)
  : result (json * json) :=
  let* avg_stress_from_api := py_get stress_data "avgStressLevel" in
  let* average_stress :=
    if negb (is_none avg_stress_from_api) then Ok avg_stress_from_api
    else if 0 <? acc_total_stress_minutes a
         then py_truediv (of_num (acc_stress_sum a))
                         (JInt (acc_total_stress_minutes a))
         else Ok (JInt 0) in
  let* max_stress_from_api := py_get stress_data "maxStressLevel" in
  let* max_stress :=
    if is_none max_stress_from_api then Ok (of_num (acc_max_stress a))
    else
      let* gt := py_gt max_stress_from_api (of_num (acc_max_stress a)) in
      Ok (if gt then max_stress_from_api else of_num (acc_max_stress a)) in
  Ok (average_stress, max_stress).

(** The average is rounded where the response and the row are built. *)
Definition stress_summary (stress_data stress_values : json) (a : stress_acc)
  : result stress_stats :=
  let* am := stress_resolve stress_data a in
  let* rounded := py_round2 (fst am) in
  Ok (mkStressStats (lv_rest a) (lv_low a) (lv_medium a) (lv_high a)
        rounded (snd am) (acc_total_stress_minutes a) stress_values).

(** [get_stress]: from the provider's payload to the response's statistics.
    A [Raise] here is caught by the endpoint's outer handlers and becomes an
    error response. *)
Definition get_stress_data (stress_data_raw : json) : result json :=
  match stress_data_raw with
  | JList _ =>
      if truthy stress_data_raw then py_first stress_data_raw else Ok (JDict [])
  | JDict _ => Ok stress_data_raw
  | _ => Ok (JDict [])
  end.

Definition get_stress_stats (stress_data_raw : json) : result stress_stats :=
  let* stress_data := get_stress_data stress_data_raw in
  let* stress_values := py_get_default stress_data "stressValuesArray" (JList []) in
  let* values := py_iter stress_values in
  stress_summary stress_data stress_values (stress_loop values).

(** The status codes of the outer handlers of [get_stress] (and of
    [get_heartrate] and [get_sleep]). *)
Definition error_code (e : exn) : Z :=
  match e with
  | GarminConnectAuthenticationError _ => 401
  | GarminConnectConnectionError _ => 503
  | _ => 500
  end.

(** The status code [get_stress] answers with. *)
Definition get_stress_status (fetched : result json) : Z :=
  match rbind fetched get_stress_stats with
  | Ok _ => 200
  | Raise e => error_code e
  end.

(** The same computation in [sync_date_to_database], which guards the shape
    of the payload and of the sample array with [isinstance]. *)
Definition sync_stress_data (stress_data_raw : json) : json :=
  match stress_data_raw with
  | JList (JDict d :: _) => JDict d
  | JList _ => JDict []
  | JDict _ => stress_data_raw
  | _ => JDict []
  end.

Definition sync_stress_stats (stress_data_raw : json) : result stress_stats :=
  let stress_data := sync_stress_data stress_data_raw in
  let* stress_values := py_get_default stress_data "stressValuesArray" (JList []) in
  let values := match stress_values with JList l => l | _ => [] end in
  stress_summary stress_data stress_values (stress_loop values).

(** ** The specification's reading of the histogram

    The inclusive ranges of the four buckets as the specification lists
    them, and the counts of samples they select; the code's [if]/[elif]
    chain is compared with these. *)

Definition level_in (lo hi : Z) (s : num) : bool :=
  Qle_bool (inject_Z lo) (num_q s) && Qle_bool (num_q s) (inject_Z hi).

Definition level_from (lo : Z) (s : num) : bool :=
  Qle_bool (inject_Z lo) (num_q s).

(** The number of samples of the array whose level satisfies [p]. *)
Definition count_levels (p : num -> bool) (values : list json) : Z :=
  Z.of_nat (List.length
    (filter (fun value => match sample_level value with
                          | Some s => p s
                          | None => false
                          end) values)).

(** A level with an integer value ([int], [bool], or a [float] such as
    [30.0]). *)
Definition integral (s : num) : bool :=
  Qeq_bool (num_q s) (inject_Z (Qfloor (num_q s))).

Definition integral_sample (value : json) : bool :=
  match sample_level value with
  | Some s => integral s
  | None => true
  end.

(** An entry the loop skips: not a list, or a list of fewer than two
    elements. *)
Definition skipped (value : json) : bool :=
  match sample_level value with
  | Some _ => false
  | None => true
  end.

Definition bucket_sum (r : stress_stats) : Z :=
  rest_minutes r + low_stress_minutes r + medium_stress_minutes r
  + high_stress_minutes r.

Definition bucket_eqb (b1 b2 : bucket) : bool :=
  match b1, b2 with
  | Rest, Rest | Low, Low | Medium, Medium | High, High => true
  | _, _ => false
  end.

(** The level falls in bucket [b] by the code's chain. *)
Definition bucket_is (b : bucket) (s : num) : bool :=
  match stress_bucket s with
  | Some b' => bucket_eqb b b'
  | None => false
  end.

Definition lv (b : bucket) (a : stress_acc) : Z :=
  match b with
  | Rest => lv_rest a
  | Low => lv_low a
  | Medium => lv_medium a
  | High => lv_high a
  end.

Definition has_bucket (s : num) : bool :=
  match stress_bucket s with
  | Some _ => true
  | None => false
  end.

(** Sample payloads used to exercise the histogram. *)
Definition stress_payload (samples : list json) : json :=
  JDict [("stressValuesArray", JList samples)].

Definition sample (t : Z) (level : json) : json := JList [JInt t; level].

(** The specification's example: one sample in each bucket. *)
Definition four_samples : list json :=
  [sample 0 (JInt 10); sample 180000 (JInt 40);
   sample 360000 (JInt 60); sample 540000 (JInt 90)].

Definition four_samples_stats : stress_stats :=
  mkStressStats 3 3 3 3 (JFloat 50) (JInt 90) 12 (JList four_samples).

(** A single sample at the sentinel-free level 0. *)
Definition zero_sample : list json := [sample 0 (JInt 0)].

(** A single sample whose level lies between two ranges. *)
Definition gap_sample : list json := [sample 0 (JFloat (51 # 2))].

(** A single pair whose level is not a number. *)
Definition null_level_sample : list json := [sample 0 JNull].

(** Entries that are not pairs at all. *)
Definition malformed_entries : list json :=
  [JNull; JInt 7; JStr "x"; JList []; JList [JInt 0]; JDict [("a", JInt 1)]].

(* ================================================================== *)
(** * FloorsAggregator                                                 *)
(* ================================================================== *)

(** [entry[2] if isinstance(entry[2], (int, float)) else 0] for an [entry]
    that passes [isinstance(entry, list) and len(entry) > 2]. *)
Definition floors_ascended (entry : json) : option num :=
  match entry with
  | JList (_ :: _ :: e2 :: _) =>
      Some (match as_num e2 with Some x => x | None => NInt 0 end)
  | _ => None
  end.

Definition floors_step (total_floors : num) (entry : json) : num :=
  match floors_ascended entry with
  | Some f => num_add total_floors f
  | None => total_floors
  end.

Definition total_floors (floor_array : list json) : num :=
  fold_left floors_step floor_array (NInt 0).

(** [total_floors if total_floors > 0 else None] *)
Definition positive_or_none (total : num) : json :=
  if num_lt (NInt 0) total then of_num total else JNull.

(** The floors value of [get_health_metrics] and of the health block of
    [sync_date_to_database] (the two texts are the same). *)
Definition floors_climbed (floors_data : json) : json :=
  if truthy floors_data && is_dict floors_data then
    match py_get_default floors_data "floorValuesArray" (JList []) with
    | Ok (JList (e :: es)) => positive_or_none (total_floors (e :: es))
    | _ => JNull
    end
  else if truthy floors_data && is_number floors_data then floors_data
  else JNull.

(** The floors value of [get_live_data]: the array is iterated whatever it
    is. *)
Definition live_floors_climbed (floors : json) : result json :=
  if truthy floors && is_dict floors then
    let* floor_array := py_get_default floors "floorValuesArray" (JList []) in
    let* entries := py_iter floor_array in
    Ok (positive_or_none (total_floors entries))
  else Ok (positive_or_none (NInt 0)).

(** The floors value of [get_all_data]: a generator expression under [sum],
    with no test of the sum. *)
Definition all_data_sum_step (total : num) (entry : json) : num :=
  match entry with
  | JList (_ :: _ :: e2 :: _) =>
      match as_num e2 with
      | Some x => num_add total x
      | None => total
      end
  | _ => total
  end.

Definition all_data_floors_climbed (floors_data : json) : result json :=
  if truthy floors_data && is_dict floors_data then
    let* probe := py_get floors_data "floorValuesArray" in
    if truthy probe then
      let* floor_array := py_get_default floors_data "floorValuesArray" (JList []) in
      let* entries := py_iter floor_array in
      Ok (of_num (fold_left all_data_sum_step entries (NInt 0)))
    else Ok JNull
  else Ok JNull.

(** ** The specification's reading of the aggregate

    The sum of the third element over the well-formed entries, written as a
    sum over the list of those elements. *)
Definition ascended_values (floor_array : list json) : list num :=
  flat_map (fun entry => match floors_ascended entry with
                         | Some f => [f]
                         | None => []
                         end) floor_array.

Definition floors_sum (floor_array : list json) : Q :=
  fold_right (fun f acc => (num_q f + acc)%Q) 0%Q (ascended_values floor_array).

Definition floors_payload (entries : list json) : json :=
  JDict [("floorValuesArray", JList entries)].

Definition floor_entry (t0 t1 up down : Z) : json :=
  JList [JInt t0; JInt t1; JInt up; JInt down].

(** The specification's two examples. *)
Definition floors_five : list json :=
  [floor_entry 0 900000 5 2; floor_entry 900000 1800000 0 1].
Definition floors_zero : list json := [floor_entry 0 900000 0 0].

(* ================================================================== *)
(** * State and exceptions                                             *)
(* ================================================================== *)

(** A statement sequence over a mutable state [T] that may raise: the state
    reached is returned also when it raises, since what a [try] body did
    before raising stays done. *)
Definition SR (T A : Type) : Type := T -> T * result A.

Definition sret {T A} (a : A) : SR T A := fun s => (s, Ok a).

Definition sbind {T A B} (c : SR T A) (k : A -> SR T B) : SR T B :=
  fun s =>
    match c s with
    | (s', Ok a) => k a s'
    | (s', Raise e) => (s', Raise e)
    end.

(** A computation that does not touch the state. *)
Definition lift {T A} (r : result A) : SR T A := fun s => (s, r).

(** A state update that cannot raise. *)
Definition modify {T} (f : T -> T) : SR T unit := fun s => (f s, Ok tt).

(** [try: body except Exception as e: handler e] *)
Definition try_except {T A} (body : SR T A) (handler : exn -> SR T A) : SR T A :=
  fun s =>
    match body s with
    | (s', Ok a) => (s', Ok a)
    | (s', Raise e) => handler e s'
    end.

Declare Scope sr_scope.
Delimit Scope sr_scope with sr.
Notation "x <- c ;; k" := (sbind c (fun x => k))
  (at level 100, c at next level, right associativity) : sr_scope.
Notation "c ;; k" := (sbind c (fun _ => k))
  (at level 100, right associativity) : sr_scope.

(** [for x in xs: body x] *)
Fixpoint for_each {T A} (xs : list A) (body : A -> SR T unit) : SR T unit :=
  match xs with
  | [] => sret tt
  | x :: xs' => sbind (body x) (fun _ => for_each xs' body)
  end.

(** [a or b], where [b] is evaluated only when [a] is falsy. *)
Definition por (a b : result json) : result json :=
  let* x := a in if truthy x then Ok x else b.

(* ================================================================== *)
(** * The data model ([database.py])                                   *)
(* ================================================================== *)

Inductive table : Type :=
| StepsData | HeartRateData | SleepData | StressData
| BodyBatteryData | ActivityData | HealthMetricsData.

Definition table_eqb (t1 t2 : table) : bool :=
  match t1, t2 with
  | StepsData, StepsData | HeartRateData, HeartRateData
  | SleepData, SleepData | StressData, StressData
  | BodyBatteryData, BodyBatteryData | ActivityData, ActivityData
  | HealthMetricsData, HealthMetricsData => true
  | _, _ => false
  end.

Record date : Type := mkDate { year : Z; month : Z; day : Z }.

Definition date_eqb (d1 d2 : date) : bool :=
  (year d1 =? year d2) && (month d1 =? month d2) && (day d1 =? day d2).

(** A row of any of the seven tables: the surrogate key [id] (absent on an
    object not yet inserted), the columns of the natural key, and the other
    columns by name.  [activity_id] is present in [ActivityData] only.  The
    columns [created_at] and [updated_at] hold the wall-clock time and are
    left out. *)
Record row : Type := mkRow {
  row_id : option Z;
  row_email : string;
  row_date : date;
  row_activity_id : option string;
  row_cols : list (string * json)
}.

(** [Model(email=..., date=..., c1=v1, ...)] *)
Definition new_row (email : string) (d : date) (cols : list (string * json)) : row :=
  mkRow None email d None cols.

(** [ActivityData(email=..., activity_id=..., date=..., c1=v1, ...)] *)
Definition new_activity (email activity_id : string) (d : date)
  (cols : list (string * json)) : row :=
  mkRow None email d (Some activity_id) cols.

(** The value of a column; a column never assigned is NULL. *)
Definition col (c : string) (r : row) : json :=
  match assoc c (row_cols r) with
  | Some v => v
  | None => JNull
  end.

(** [obj.c = v] *)
Fixpoint set_key (c : string) (v : json) (cols : list (string * json))
  : list (string * json) :=
  match cols with
  | [] => [(c, v)]
  | (c', v') :: cols' =>
      if String.eqb c c' then (c, v) :: cols' else (c', v') :: set_key c v cols'
  end.

(** A run of attribute assignments, in order. *)
Definition set_cols (assignments : list (string * json)) (r : row) : row :=
  mkRow (row_id r) (row_email r) (row_date r) (row_activity_id r)
    (fold_left (fun cols cv => set_key (fst cv) (snd cv) cols)
       assignments (row_cols r)).

Definition set_date (d : date) (r : row) : row :=
  mkRow (row_id r) (row_email r) d (row_activity_id r) (row_cols r).

(** The storage collaborator, as the code calls it.  A query or a merge can
    flush pending changes and so can raise; [add] and attribute assignment
    only mark the session. *)
Class Storage (S : Type) : Type := {
  (** [Model.query.filter_by(email=email, date=date).first()] *)
  query_first : table -> string -> date -> SR S (option row);
  (** [Model.query.filter_by(email=email, date=date).all()] *)
  query_all : table -> string -> date -> SR S (list row);
  (** [ActivityData.query.filter_by(email=email, activity_id=aid).first()] *)
  query_activity : string -> string -> SR S (option row);
  (** attribute assignments on a loaded object: the object before, and with
      its new attribute values *)
  session_update : table -> row -> row -> S -> S;
  (** [db.session.add(obj)] *)
  session_add : table -> row -> S -> S;
  (** [db.session.merge(obj)] *)
  session_merge : table -> row -> SR S unit;
  (** [db.session.commit()] *)
  session_commit : SR S unit;
  (** [db.session.rollback()] *)
  session_rollback : S -> S
}.

(** Column expressions, in the order they are written.  An attribute
    assignment whose right-hand side raises leaves the earlier assignments
    done; a constructor call whose argument raises constructs nothing. *)
Definition col_exprs : Type := list (string * result json).

Fixpoint assign_cols (cols : col_exprs) (r : row) : row * result unit :=
  match cols with
  | [] => (r, Ok tt)
  | (c, Ok v) :: cols' => assign_cols cols' (set_cols [(c, v)] r)
  | (_, Raise e) :: _ => (r, Raise e)
  end.

Fixpoint eval_cols (cols : col_exprs) : result (list (string * json)) :=
  match cols with
  | [] => Ok []
  | (c, Ok v) :: cols' => let* cs := eval_cols cols' in Ok ((c, v) :: cs)
  | (_, Raise e) :: _ => Raise e
  end.

(** Column values computed beforehand. *)
Definition evaluated (cs : list (string * json)) : col_exprs :=
  map (fun cv => (fst cv, Ok (snd cv))) cs.

Section Upsert.
Context {S : Type} `{Storage S}.
Local Open Scope sr_scope.

(** The idiom the endpoints repeat for each entity keyed by (email, date):
    look the row up by its natural key; assign the columns on the row
    found, or add a new row with them. *)
Definition upsert (t : table) (email : string) (d : date) (cols : col_exprs)
  : SR S unit :=
  existing <- query_first t email d ;;
  match existing with
  | Some r =>
      fun s => let (r', res) := assign_cols cols r in
               (session_update t r r' s, res)
  | None =>
      cs <- lift (eval_cols cols) ;;
      modify (session_add t (new_row email d cs))
  end.

(** The storing step of the read endpoints ([get_steps], [get_heartrate],
    ...): upsert and commit; a storage error is logged and rolled back,
    and does not fail the request. *)
Definition store (t : table) (email : string) (d : date) (cols : col_exprs)
  : SR S unit :=
  try_except
    (upsert t email d cols ;; session_commit)
    (fun _ => modify session_rollback).
End Upsert.

(* ================================================================== *)
(** * SyncOrchestrator ([sync_date_to_database])                       *)
(* ================================================================== *)

(** The provider client for the date being synced: what each call returns
    or raises. *)
Record garmin : Type := mkGarmin {
  get_steps_data : result json;
  get_user_summary : result json;
  get_heart_rates : result json;
  get_rhr_day : result json;
  get_sleep_data : result json;
  get_all_day_stress : result json;
  get_body_battery : result json;
  get_activities_by_date : result json;
  get_activities_fordate : result json;
  get_activity : string -> result json;
  get_max_metrics : result json;
  get_hrv_data : result json;
  get_training_readiness : result json;
  get_training_status : result json;
  get_hydration_data : result json;
  get_intensity_minutes_data : result json;
  get_floors : result json;
  get_spo2_data : result json;
  get_respiration_data : result json;
  get_fitnessage_data : result json
}.

(** An entry of [sync_results['sync_status']]: ['success'], ['no_data'] or
    [f'error: {str(e)}']. *)
Inductive family_status : Type :=
| Success
| NoData
| Error (e : exn).

(** The session together with the report being filled in. *)
Record world (S : Type) : Type := mkWorld {
  sess : S;
  sync_status : list (string * family_status);
  summary : list (string * json)
}.
Arguments mkWorld {S} _ _ _.
Arguments sess {S} _.
Arguments sync_status {S} _.
Arguments summary {S} _.

Fixpoint status_set (family : string) (st : family_status)
  (d : list (string * family_status)) : list (string * family_status) :=
  match d with
  | [] => [(family, st)]
  | (f, st') :: d' =>
      if String.eqb family f then (family, st) :: d'
      else (f, st') :: status_set family st d'
  end.

Fixpoint status_of (family : string) (d : list (string * family_status))
  : option family_status :=
  match d with
  | [] => None
  | (f, st) :: d' => if String.eqb family f then Some st else status_of family d'
  end.

(** [x.get(k) if x else None] *)
Definition get_if (x : json) (k : string) : result json :=
  if truthy x then py_get x k else Ok JNull.

(** [x or {}] *)
Definition or_empty (x : json) : json := py_or x (JDict []).

(** ** The resolvers of the sync, as pure computations *)

(** Steps: [user_summary.get('totalSteps', 0) if user_summary else 0] *)
Definition sync_total_steps (user_summary : json) : result json :=
  if truthy user_summary then py_get_default user_summary "totalSteps" (JInt 0)
  else Ok (JInt 0).

Definition steps_cols (steps_data user_summary total_steps : json)
  : list (string * json) :=
  [("total_steps", total_steps);
   ("hourly_data", if is_list steps_data then steps_data else JList []);
   ("full_data", JDict [("steps_data", steps_data);
                        ("user_summary", or_empty user_summary)])].

(** Heart rate: the comprehension over [heartRateValues] and its mean. *)
Definition hr_sample (v : json) : option num :=
  match v with
  | JList (_ :: v1 :: _) =>
      match as_num v1 with
      | Some x => if num_lt (NInt 0) x then Some x else None
      | None => None
      end
  | _ => None
  end.

Definition hr_values (heart_rate_values : list json) : list num :=
  flat_map (fun v => match hr_sample v with Some x => [x] | None => [] end)
    heart_rate_values.

Definition num_sum (xs : list num) : num := fold_left num_add xs (NInt 0).

(** [int(sum(hr_values) / len(hr_values))], or [None] *)
Definition hr_mean (vals : list num) : result json :=
  match vals with
  | [] => Ok JNull
  | _ =>
      let* q := py_truediv (of_num (num_sum vals))
                  (JInt (Z.of_nat (List.length vals))) in
      py_int q
  end.

Definition sync_average_hr (hr_data : json) : result json :=
  if truthy hr_data && is_dict hr_data then
    let* heart_rate_values := py_get_default hr_data "heartRateValues" (JList []) in
    match heart_rate_values with
    | JList (v :: vs) => hr_mean (hr_values (v :: vs))
    | _ => Ok JNull
    end
  else Ok JNull.

Definition sync_hr_cols (hr_data rhr_data average_hr : json) : col_exprs :=
  [("resting_hr", get_if hr_data "restingHeartRate");
   ("average_hr", por (Ok average_hr) (get_if hr_data "averageHeartRate"));
   ("max_hr", get_if hr_data "maxHeartRate");
   ("min_hr", get_if hr_data "minHeartRate");
   ("full_data", Ok (JDict [("heart_rate", or_empty hr_data);
                            ("resting_hr", or_empty rhr_data)]))].

(** Sleep.  The conditional expressions of the fallback chain bind weaker
    than [or], so the chain is a cascade of [if ... else]. *)
Definition sync_daily_sleep (sleep_data : json) : result json :=
  if is_dict sleep_data then py_get_default sleep_data "dailySleepDTO" (JDict [])
  else Ok (JDict []).

Definition sync_sleep_score (sleep_data daily_sleep : json) : result json :=
  let* sleep_score :=
    if is_dict daily_sleep then
      let* sleep_scores := py_get_default daily_sleep "sleepScores" (JDict []) in
      match sleep_scores with
      | JDict d =>
          if dict_has d "overall" then
            let* overall := py_get_default sleep_scores "overall" (JDict []) in
            if is_dict overall then py_get overall "value" else Ok JNull
          else Ok JNull
      | _ => Ok JNull
      end
    else Ok JNull in
  if negb (truthy sleep_score) then
    if is_dict sleep_data then py_get sleep_data "sleepScore"
    else if is_dict daily_sleep then por (Ok JNull) (py_get daily_sleep "sleepScore")
    else if is_dict sleep_data then por (Ok JNull) (py_get sleep_data "sleepQualityScore")
    else if is_dict daily_sleep then por (Ok JNull) (py_get daily_sleep "sleepQualityScore")
    else Ok JNull
  else Ok sleep_score.

Definition sync_sleep_time_seconds (sleep_data daily_sleep : json) : result json :=
  let* sleep_time_seconds :=
    if is_dict daily_sleep then py_get daily_sleep "sleepTimeSeconds" else Ok JNull in
  if negb (truthy sleep_time_seconds) && is_dict sleep_data
  then py_get sleep_data "sleepTimeSeconds"
  else Ok sleep_time_seconds.

(** [(sleep_time_seconds // 60) if sleep_time_seconds else None] *)
Definition sleep_time_minutes (sleep_time_seconds : json) : result json :=
  if truthy sleep_time_seconds then py_floordiv sleep_time_seconds (JInt 60)
  else Ok JNull.

(** [daily_sleep.get(k) or (sleep_data.get(k) if isinstance(sleep_data, dict)
    else None)] *)
Definition sleep_stage (sleep_data daily_sleep : json) (k : string) : result json :=
  por (py_get daily_sleep k)
      (if is_dict sleep_data then py_get sleep_data k else Ok JNull).

Definition sync_sleep_cols (sleep_data daily_sleep sleep_score
  sleep_time_seconds minutes : json) : col_exprs :=
  [("sleep_score", Ok sleep_score);
   ("sleep_duration_seconds", Ok sleep_time_seconds);
   ("sleep_duration_minutes", Ok minutes);
   ("deep_sleep_seconds", sleep_stage sleep_data daily_sleep "deepSleepSeconds");
   ("light_sleep_seconds", sleep_stage sleep_data daily_sleep "lightSleepSeconds");
   ("rem_sleep_seconds", sleep_stage sleep_data daily_sleep "remSleepSeconds");
   ("awake_seconds", sleep_stage sleep_data daily_sleep "awakeSleepSeconds");
   ("full_data", Ok (if is_dict sleep_data then sleep_data else JDict []))].

(** The statements of the sleep block between the fetch and the query:
    the score, the duration in minutes, and the column expressions. *)
Definition sync_sleep_resolve (sleep_data : json)
  : result (json * json * col_exprs) :=
  let* daily_sleep := sync_daily_sleep sleep_data in
  let* sleep_score := sync_sleep_score sleep_data daily_sleep in
  let* sleep_time_seconds := sync_sleep_time_seconds sleep_data daily_sleep in
  let* minutes := sleep_time_minutes sleep_time_seconds in
  Ok (sleep_score, minutes,
      sync_sleep_cols sleep_data daily_sleep sleep_score sleep_time_seconds minutes).

(** Stress: the statements of the sync between the fetch and the query. *)
Definition sync_stress_values (stress_data : json) : result json :=
  if is_dict stress_data
  then py_get_default stress_data "stressValuesArray" (JList [])
  else Ok (JList []).

Definition sync_stress_loop (stress_values : json) : stress_acc :=
  match stress_values with
  | JList values => stress_loop values
  | _ => stress_acc0
  end.

Definition sync_stress_cols (stress_data : json) (a : stress_acc)
  (average_stress max_stress : json) : col_exprs :=
  [("rest_minutes", Ok (JInt (lv_rest a)));
   ("low_stress_minutes", Ok (JInt (lv_low a)));
   ("medium_stress_minutes", Ok (JInt (lv_medium a)));
   ("high_stress_minutes", Ok (JInt (lv_high a)));
   ("average_stress", py_round2 average_stress);
   ("max_stress", Ok max_stress);
   ("full_data", Ok (or_empty stress_data))].

(** Body battery:
    [body_battery_data[0] if body_battery_data and len(body_battery_data) > 0
     else {}] *)
Definition sync_daily_bb (body_battery_data : json) : result json :=
  if truthy body_battery_data then
    let* n := py_len body_battery_data in
    if 0 <? n then py_first body_battery_data else Ok (JDict [])
  else Ok (JDict []).

Definition sync_bb_cols (body_battery_data daily_bb : json) : col_exprs :=
  [("charged", py_get daily_bb "charged");
   ("drained", py_get daily_bb "drained");
   ("full_data", Ok body_battery_data)].

(** Health metrics. *)
Definition first_or_empty (max_metrics : json) : result json :=
  match max_metrics with
  | JList _ => if truthy max_metrics then py_first max_metrics else Ok (JDict [])
  | JDict _ => Ok max_metrics
  | _ => Ok (JDict [])
  end.

(** [x.get(k1) or x.get(k2)] *)
Definition get_either (x : json) (k1 k2 : string) : result json :=
  por (py_get x k1) (py_get x k2).

Definition resolve_vo2_max (max_metrics training_status : json) : result json :=
  let* vo2_max :=
    if truthy max_metrics
    then get_either max_metrics "vo2MaxPreciseValue" "vo2MaxValue"
    else Ok JNull in
  if negb (truthy vo2_max) && truthy training_status && is_dict training_status
  then
    let* recent := py_get_default training_status "mostRecentVO2Max" (JDict []) in
    let* generic :=
      if is_dict recent then py_get_default recent "generic" (JDict [])
      else Ok (JDict []) in
    if is_dict generic
    then get_either generic "vo2MaxPreciseValue" "vo2MaxValue"
    else Ok vo2_max
  else Ok vo2_max.

(** The inner [try] around the dedicated endpoint; only when it raises is
    the value of [max_metrics] used. *)
Definition resolve_fitness_age (fetched : result json) (max_metrics : json)
  : result json :=
  match (let* fitnessage_data := fetched in
         if truthy fitnessage_data && is_dict fitnessage_data then
           let* fa_val := py_get fitnessage_data "fitnessAge" in
           if negb (is_none fa_val) then
             if is_float fa_val then py_round fa_val else Ok fa_val
           else Ok JNull
         else Ok JNull) with
  | Ok fitness_age => Ok fitness_age
  | Raise _ => get_if max_metrics "fitnessAge"
  end.

Definition resolve_hrv (hrv_data : json) : result json :=
  if truthy hrv_data && is_dict hrv_data then
    let* hrv_summary := py_get_default hrv_data "hrvSummary" (JDict []) in
    py_get hrv_summary "weeklyAvg"
  else Ok JNull.

Definition readiness_score (tr_entry : json) : result json :=
  por (py_get tr_entry "score")
      (por (py_get tr_entry "trainingReadinessScore")
           (py_get tr_entry "trainingReadiness")).

Definition resolve_training_readiness (training_readiness : json) : result json :=
  match training_readiness with
  | JList (tr_entry :: _) => readiness_score tr_entry
  | JDict _ => readiness_score training_readiness
  | _ => Ok JNull
  end.

Definition resolve_training_status (training_status : json) : result json :=
  if truthy training_status then
    let* ts := py_get training_status "trainingStatus" in
    if is_dict ts then
      let* ts' := py_get_default training_status "trainingStatus" (JDict []) in
      py_get ts' "value"
    else py_get training_status "trainingStatus"
  else Ok JNull.

(** [(x.get(k1) or x.get(k2) or 0) if x else 0] *)
Definition intensity (intensity_minutes : json) (k1 k2 : string) : result json :=
  if truthy intensity_minutes
  then por (py_get intensity_minutes k1)
           (por (py_get intensity_minutes k2) (Ok (JInt 0)))
  else Ok (JInt 0).

Definition resolve_avg_respiration (respiration_data : json) : result json :=
  if truthy respiration_data
  then get_either respiration_data "avgWakingRespirationValue" "avgRespirationValue"
  else Ok JNull.


(** From the ten payloads to the column values. *)
Definition sync_health_cols (g : garmin) : result (list (string * json)) :=
  let* max_metrics := get_max_metrics g in
  let* hrv_data := get_hrv_data g in
  let* training_readiness := get_training_readiness g in
  let* training_status := get_training_status g in
  let* hydration_data := get_hydration_data g in
  let* intensity_minutes := get_intensity_minutes_data g in
  let* floors_data := get_floors g in
  let* spo2_data := get_spo2_data g in
  let* respiration_data := get_respiration_data g in
  let* max_metrics := first_or_empty max_metrics in
  let* vo2_max := resolve_vo2_max max_metrics training_status in
  let* fitness_age := resolve_fitness_age (get_fitnessage_data g) max_metrics in
  let* hrv_value := resolve_hrv hrv_data in
  let* training_readiness_score := resolve_training_readiness training_readiness in
  let* training_status_value := resolve_training_status training_status in
  let* hydration_ml := get_if hydration_data "valueInML" in
  let* hydration_goal := get_if hydration_data "goalInML" in
  let* cardio_minutes :=
    intensity intensity_minutes "moderateMinutes" "moderateIntensityMinutes" in
  let* anaerobic_minutes :=
    intensity intensity_minutes "vigorousMinutes" "vigorousIntensityMinutes" in
  let floors := floors_climbed floors_data in
  let* avg_spo2 := get_if spo2_data "averageSpO2" in
  let* lowest_spo2 := get_if spo2_data "lowestSpO2" in
  let* avg_respiration := resolve_avg_respiration respiration_data in
  let* lowest_respiration := get_if respiration_data "lowestRespirationValue" in
  Ok [("vo2_max", vo2_max); ("fitness_age", fitness_age);
      ("hrv_value", hrv_value);
      ("training_readiness", training_readiness_score);
      ("training_status", training_status_value);
      ("intensity_minutes_cardio", cardio_minutes);
      ("intensity_minutes_anaerobic", anaerobic_minutes);
      ("hydration_ml", hydration_ml); ("hydration_goal_ml", hydration_goal);
      ("floors_climbed", floors);
      ("average_spo2", avg_spo2); ("lowest_spo2", lowest_spo2);
      ("average_respiration", avg_respiration);
      ("lowest_respiration", lowest_respiration);
      ("full_data",
       JDict [("max_metrics", or_empty max_metrics);
              ("hrv_data", or_empty hrv_data);
              ("training_readiness", or_empty training_readiness);
              ("training_status", or_empty training_status);
              ("hydration_data", or_empty hydration_data);
              ("intensity_minutes", or_empty intensity_minutes);
              ("floors_data", or_empty floors_data);
              ("spo2_data", or_empty spo2_data);
              ("respiration_data", or_empty respiration_data)])].

(** Activities: the list to sync, from the first call or from the fallback
    call's differently shaped answers. *)
Definition activities_by_date (fetched : result json) : json :=
  match fetched with
  | Ok activities => if truthy activities then activities else JList []
  | Raise _ => JList []
  end.

Definition activities_from_response (activities_response : json) : json :=
  match activities_response with
  | JDict ((_ :: _) as d) =>
      match assoc "ActivitiesForDay" d with
      | Some (JDict d') =>
          match assoc "payload" d' with
          | Some payload => payload
          | None => JList []
          end
      | Some (JList l) => JList l
      | Some _ => JList []
      | None =>
          match assoc "activities" d with
          | Some activities => activities
          | None => JList []
          end
      end
  | JList l => JList l
  | _ => JList []
  end.

Definition activity_type_of (activity activity_detail : json) : result json :=
  let* dto := py_get activity_detail "activityTypeDTO" in
  if is_dict dto then
    let* dto' := py_get_default activity_detail "activityTypeDTO" (JDict []) in
    py_get dto' "typeKey"
  else
    let* atype := py_get activity "activityType" in
    if is_dict atype then
      let* atype' := py_get_default activity "activityType" (JDict []) in
      py_get atype' "typeKey"
    else Ok JNull.

(** [summary.get(k) or activity.get(k)] *)
Definition summary_or_activity (summary activity : json) (k : string)
  : result json :=
  por (py_get summary k) (py_get activity k).

Definition sync_activity_cols (activity activity_detail summary start_time
  calories : json) : col_exprs :=
  [("activity_name",
    por (py_get activity "activityName") (py_get activity_detail "activityName"));
   ("activity_type", activity_type_of activity activity_detail);
   ("start_time", Ok start_time);
   ("duration_seconds",
    por (py_get summary "elapsedDuration")
        (por (py_get activity "elapsedDuration") (py_get activity "duration")));
   ("distance_meters", summary_or_activity summary activity "distance");
   ("calories", py_int calories);
   ("average_hr", summary_or_activity summary activity "averageHR");
   ("max_hr", summary_or_activity summary activity "maxHR");
   ("average_speed", summary_or_activity summary activity "averageSpeed");
   ("max_speed", summary_or_activity summary activity "maxSpeed");
   ("elevation_gain", summary_or_activity summary activity "elevationGain");
   ("average_cadence", summary_or_activity summary activity "averageRunCadence");
   ("full_data", Ok (if truthy activity_detail then activity_detail else activity))].

(** What the inner [try] computes for one activity before it touches the
    session. *)
Record activity_prep : Type := mkActivityPrep {
  prep_detail : json;
  prep_summary : json;
  prep_start_time : json;
  prep_calories : num
}.

Section Sync.
Context {S : Type} `{Storage S}.
(** [str(activity_id)] *)
Variable py_str : json -> string.
(** The innermost [try] of the activity loop, which turns the start-time
    string into a [datetime] and yields [None] when anything in it
    raises. *)
Variable parse_start_time : json -> json.
(** [datetime.strptime(date, '%Y-%m-%d').date()], [None] for the
    [ValueError]. *)
Variable strptime_date : string -> option date.

Local Open Scope sr_scope.

Definition on_session {A} (c : SR S A) : SR (world S) A :=
  fun w =>
    let (s', r) := c (sess w) in
    (mkWorld s' (sync_status w) (summary w), r).

(** [sync_results['sync_status'][family] = st] *)
Definition set_status (family : string) (st : family_status)
  : SR (world S) unit :=
  modify (fun w => mkWorld (sess w) (status_set family st (sync_status w))
                     (summary w)).

(** [sync_results['summary'][k] = v] *)
Definition set_summary (k : string) (v : json) : SR (world S) unit :=
  modify (fun w => mkWorld (sess w) (sync_status w) (set_key k v (summary w))).

(** [try: body except Exception as e: sync_status[family] = f'error: {e}'] *)
Definition family_block (family : string) (body : SR (world S) unit)
  : SR (world S) unit :=
  try_except body (fun e => set_status family (Error e)).

Definition steps_body (g : garmin) (email : string) (date_obj : date)
  : SR (world S) unit :=
  steps_data <- lift (get_steps_data g) ;;
  user_summary <- lift (get_user_summary g) ;;
  total_steps <- lift (sync_total_steps user_summary) ;;
  on_session (session_merge StepsData
                (new_row email date_obj
                   (steps_cols steps_data user_summary total_steps))) ;;
  set_status "steps" Success ;;
  set_summary "total_steps" total_steps.

Definition heart_rate_body (g : garmin) (email : string) (date_obj : date)
  : SR (world S) unit :=
  hr_data <- lift (get_heart_rates g) ;;
  rhr_data <- lift (get_rhr_day g) ;;
  average_hr <- lift (sync_average_hr hr_data) ;;
  cs <- lift (eval_cols (sync_hr_cols hr_data rhr_data average_hr)) ;;
  on_session (session_merge HeartRateData (new_row email date_obj cs)) ;;
  set_status "heart_rate" Success ;;
  resting_hr <- lift (get_if hr_data "restingHeartRate") ;;
  set_summary "resting_hr" resting_hr.

Definition sleep_body (g : garmin) (email : string) (date_obj : date)
  : SR (world S) unit :=
  sleep_data <- lift (get_sleep_data g) ;;
  if negb (truthy sleep_data) then set_status "sleep" NoData
  else
    r <- lift (sync_sleep_resolve sleep_data) ;;
    on_session (upsert SleepData email date_obj (snd r)) ;;
    set_status "sleep" Success ;;
    set_summary "sleep_score" (fst (fst r)) ;;
    set_summary "sleep_duration_minutes" (snd (fst r)).

(** After the [if]/[else] the status is set to success whichever branch
    ran, and [average_stress] is read; it is bound in the [else] branch
    only. *)
Definition stress_body (g : garmin) (email : string) (date_obj : date)
  : SR (world S) unit :=
  stress_data_raw <- lift (get_all_day_stress g) ;;
  average_stress <-
    (if is_none stress_data_raw then
       set_status "stress" NoData ;;
       sret None
     else
       let stress_data := sync_stress_data stress_data_raw in
       stress_values <- lift (sync_stress_values stress_data) ;;
       let a := sync_stress_loop stress_values in
       am <- lift (stress_resolve stress_data a) ;;
       on_session (upsert StressData email date_obj
                     (sync_stress_cols stress_data a (fst am) (snd am))) ;;
       sret (Some (fst am))) ;;
  set_status "stress" Success ;;
  rounded <- lift (match average_stress with
                   | Some avg => py_round2 avg
                   | None => Raise UnboundLocalError
                   end) ;;
  set_summary "average_stress" rounded.

Definition body_battery_body (g : garmin) (email : string) (date_obj : date)
  : SR (world S) unit :=
  body_battery_data <- lift (get_body_battery g) ;;
  daily_bb <- lift (sync_daily_bb body_battery_data) ;;
  on_session (upsert BodyBatteryData email date_obj
                (sync_bb_cols body_battery_data daily_bb)) ;;
  set_status "body_battery" Success ;;
  charged <- lift (py_get daily_bb "charged") ;;
  set_summary "body_battery_charged" charged.

Definition activity_prepare (g : garmin) (activity activity_id : json)
  : result activity_prep :=
  let* fetched := get_activity g (py_str activity_id) in
  let activity_detail := if truthy fetched then fetched else JDict [] in
  let* summary :=
    if is_dict activity_detail
    then py_get_default activity_detail "summaryDTO" (JDict [])
    else Ok (JDict []) in
  let* start_time_str :=
    por (py_get summary "startTimeLocal")
        (por (py_get activity "startTimeLocal")
             (py_get activity_detail "startTimeLocal")) in
  let start_time :=
    if truthy start_time_str then parse_start_time start_time_str else JNull in
  let* calories :=
    por (py_get summary "calories")
        (por (py_get activity "calories")
             (por (py_get activity "activeCalories") (Ok (JInt 0)))) in
  Ok (mkActivityPrep activity_detail summary start_time
        (match as_num calories with Some c => c | None => NInt 0 end)).

Definition upsert_activity (email aid : string) (d : date) (cols : col_exprs)
  : SR S unit :=
  existing <- query_activity email aid ;;
  match existing with
  | Some r =>
      fun s => let (r', res) := assign_cols cols (set_date d r) in
               (session_update ActivityData r r' s, res)
  | None =>
      cs <- lift (eval_cols cols) ;;
      modify (session_add ActivityData (new_activity email aid d cs))
  end.

(** One turn of the activity loop, on the locals
    [(activity_count, total_calories)].  The inner [except] logs and goes
    on: what was added to [total_calories] before the failure stays. *)
Definition activity_turn (g : garmin) (email : string) (date_obj : date)
  (locals : Z * num) (activity : json) : SR (world S) (Z * num) :=
  activity_id <- lift (py_get activity "activityId") ;;
  if truthy activity_id then
    try_except
      (p <- lift (activity_prepare g activity activity_id) ;;
       let total_calories := num_add (snd locals) (prep_calories p) in
       try_except
         (on_session
            (upsert_activity email (py_str activity_id) date_obj
               (sync_activity_cols activity (prep_detail p) (prep_summary p)
                  (prep_start_time p) (of_num (prep_calories p)))) ;;
          sret (fst locals + 1, total_calories))
         (fun _ => sret (fst locals, total_calories)))
      (fun _ => sret locals)
  else sret locals.

Fixpoint for_fold {T A B} (xs : list A) (acc : B) (body : B -> A -> SR T B)
  : SR T B :=
  match xs with
  | [] => sret acc
  | x :: xs' => acc' <- body acc x ;; for_fold xs' acc' body
  end.

Definition activities_body (g : garmin) (email : string) (date_obj : date)
  : SR (world S) unit :=
  let activities := activities_by_date (get_activities_by_date g) in
  activities <-
    (if negb (truthy activities) then
       activities_response <- lift (get_activities_fordate g) ;;
       sret (activities_from_response activities_response)
     else sret activities) ;;
  items <- lift (py_iter activities) ;;
  locals <- for_fold items (0, NInt 0) (activity_turn g email date_obj) ;;
  set_status "activities" Success ;;
  set_summary "activity_count" (JInt (fst locals)) ;;
  set_summary "total_calories" (of_num (snd locals)).

Definition health_metrics_body (g : garmin) (email : string) (date_obj : date)
  : SR (world S) unit :=
  cs <- lift (sync_health_cols g) ;;
  on_session (upsert HealthMetricsData email date_obj (evaluated cs)) ;;
  set_status "health_metrics" Success ;;
  set_summary "vo2_max"
    (match assoc "vo2_max" cs with Some v => v | None => JNull end) ;;
  set_summary "training_readiness"
    (match assoc "training_readiness" cs with Some v => v | None => JNull end).

(** The seven [try] blocks, in the order they run, each under the name
    it reports its status with. *)
Definition blocks (g : garmin) (email : string) (date_obj : date)
  : list (string * SR (world S) unit) :=
  [("steps", steps_body g email date_obj);
   ("heart_rate", heart_rate_body g email date_obj);
   ("sleep", sleep_body g email date_obj);
   ("stress", stress_body g email date_obj);
   ("body_battery", body_battery_body g email date_obj);
   ("activities", activities_body g email date_obj);
   ("health_metrics", health_metrics_body g email date_obj)].

Definition run_blocks (bs : list (string * SR (world S) unit))
  : SR (world S) unit :=
  for_each bs (fun b => family_block (fst b) (snd b)).

(** What the endpoint answers: the report with its status code and
    [database_status], or an error body with its status code. *)
Inductive sync_response : Type :=
| SyncReport (code : Z) (statuses : list (string * family_status))
    (summaries : list (string * json)) (database_ok : bool)
| SyncError (code : Z).

Definition sync_date_to_database (client : result garmin)
  (email : string) (date : string) (s : S) : S * sync_response :=
  match strptime_date date with
  | None => (s, SyncError 400)
  | Some date_obj =>
      match client with
      | Raise (GarminConnectAuthenticationError _) => (s, SyncError 401)
      | Raise ValueError => (s, SyncError 400)
      | Raise _ => (s, SyncError 500)
      | Ok g =>
          let (w, _) := run_blocks (blocks g email date_obj) (mkWorld s [] []) in
          match session_commit (sess w) with
          | (s', Ok _) => (s', SyncReport 200 (sync_status w) (summary w) true)
          | (s', Raise _) =>
              (session_rollback s',
               SyncReport 500 (sync_status w) (summary w) false)
          end
      end
  end.
End Sync.

Definition families : list string :=
  ["steps"; "heart_rate"; "sleep"; "stress"; "body_battery"; "activities";
   "health_metrics"].

(* ================================================================== *)
(** * A storage engine                                                 *)
(* ================================================================== *)

(** A model of the session the code runs on: tables as lists of rows, the
    unique constraints of [database.py], and the unit of work of the ORM
    ([add] and [merge] of a new object are pending until the next flush; a
    query, a merge and a commit flush first; a failed flush rolls the
    transaction back and leaves the session unusable until [rollback]). *)
Record session : Type := mkSession {
  stored : table -> list row;        (** rows the transaction sees *)
  pending : list (table * row);      (** new objects not yet inserted *)
  committed : table -> list row;     (** rows as of the last commit *)
  inactive : bool                    (** a flush failed *)
}.

Definition upd (t : table) (rows : list row) (f : table -> list row)
  : table -> list row :=
  fun t' => if table_eqb t t' then rows else f t'.

Definition option_eqb (a b : option string) : bool :=
  match a, b with
  | Some x, Some y => String.eqb x y
  | None, None => true
  | _, _ => false
  end.

(** The unique constraint of each table: [(email, activity_id)] for
    [ActivityData], [(email, date)] for the others. *)
Definition same_key (t : table) (r1 r2 : row) : bool :=
  String.eqb (row_email r1) (row_email r2)
  && match t with
     | ActivityData => option_eqb (row_activity_id r1) (row_activity_id r2)
     | _ => date_eqb (row_date r1) (row_date r2)
     end.

Definition next_id (rows : list row) : Z :=
  1 + fold_right (fun r m => match row_id r with
                             | Some i => Z.max i m
                             | None => m
                             end) 0 rows.

Definition with_id (i : Z) (r : row) : row :=
  mkRow (Some i) (row_email r) (row_date r) (row_activity_id r) (row_cols r).

(** INSERT the pending rows in order; [None] when one violates a unique
    constraint. *)
Fixpoint insert_all (p : list (table * row)) (st : table -> list row)
  : option (table -> list row) :=
  match p with
  | [] => Some st
  | (t, r) :: p' =>
      if existsb (same_key t r) (st t) then None
      else insert_all p' (upd t (st t ++ [with_id (next_id (st t)) r]) st)
  end.

Definition flush : SR session unit :=
  fun s =>
    match pending s with
    | [] => (s, Ok tt)
    | _ =>
        if inactive s then (s, Raise (StorageError "PendingRollbackError"))
        else
          match insert_all (pending s) (stored s) with
          | Some st => (mkSession st [] (committed s) false, Ok tt)
          | None =>
              (mkSession (committed s) [] (committed s) true,
               Raise (StorageError "IntegrityError"))
          end
    end.

Definition require_active : SR session unit :=
  fun s =>
    if inactive s then (s, Raise (StorageError "PendingRollbackError"))
    else (s, Ok tt).

Definition by_date (email : string) (d : date) (r : row) : bool :=
  String.eqb (row_email r) email && date_eqb (row_date r) d.

Definition by_activity (email aid : string) (r : row) : bool :=
  String.eqb (row_email r) email && option_eqb (row_activity_id r) (Some aid).

Definition same_id (r1 r2 : row) : bool :=
  match row_id r1, row_id r2 with
  | Some i, Some j => i =? j
  | _, _ => false
  end.

Local Open Scope sr_scope.

#[export] Instance list_storage : Storage session := {
  query_first t email d :=
    flush ;; require_active ;;
    (fun s => (s, Ok (find (by_date email d) (stored s t))));
  query_all t email d :=
    flush ;; require_active ;;
    (fun s => (s, Ok (filter (by_date email d) (stored s t))));
  query_activity email aid :=
    flush ;; require_active ;;
    (fun s => (s, Ok (find (by_activity email aid) (stored s ActivityData))));
  session_update t r r' s :=
    mkSession
      (upd t (map (fun x => if same_id x r then r' else x) (stored s t)) (stored s))
      (pending s) (committed s) (inactive s);
  session_add t r s :=
    mkSession (stored s) (pending s ++ [(t, r)]) (committed s) (inactive s);
  (** an object without a primary key is not looked up: it is added as new *)
  session_merge t r :=
    flush ;;
    modify (fun s => mkSession (stored s) (pending s ++ [(t, r)])
                       (committed s) (inactive s));
  session_commit :=
    flush ;; require_active ;;
    modify (fun s => mkSession (stored s) [] (stored s) false);
  session_rollback s := mkSession (committed s) [] (committed s) false
}.

Local Close Scope sr_scope.

(** A session opened on a database. *)
Definition open_session (db : table -> list row) : session :=
  mkSession db [] db false.

Definition empty_db : table -> list row := fun _ => [].

(* ================================================================== *)
(** * Dates                                                            *)
(* ================================================================== *)

Definition is_leap (y : Z) : bool :=
  ((y mod 4 =? 0) && negb (y mod 100 =? 0)) || (y mod 400 =? 0).

(** [calendar.monthrange(year, month)[1]] *)
Definition days_in_month (y m : Z) : Z :=
  if m =? 2 then (if is_leap y then 29 else 28)
  else if (m =? 4) || (m =? 6) || (m =? 9) || (m =? 11) then 30
  else 31.

Definition valid_date (d : date) : bool :=
  (1 <=? year d) && (year d <=? 9999)
  && (1 <=? month d) && (month d <=? 12)
  && (1 <=? day d) && (day d <=? days_in_month (year d) (month d)).

Definition digit_val (c : ascii) : option Z :=
  let n := Z.of_nat (nat_of_ascii c) in
  if (48 <=? n) && (n <=? 57) then Some (n - 48) else None.

Fixpoint digits_val (s : string) (acc : Z) : option Z :=
  match s with
  | EmptyString => Some acc
  | String c s' =>
      match digit_val c with
      | Some v => digits_val s' (10 * acc + v)
      | None => None
      end
  end.

(** A reading of ['%Y-%m-%d'] on zero-padded input ("2026-01-15"): ten
    characters, digits around two hyphens, naming a day that exists. *)
Definition parse_iso_date (s : string) : option date :=
  if negb (Nat.eqb (String.length s) 10) then None
  else if negb (String.eqb (substring 4 1 s) "-" && String.eqb (substring 7 1 s) "-")
  then None
  else
    match digits_val (substring 0 4 s) 0, digits_val (substring 5 2 s) 0,
          digits_val (substring 8 2 s) 0 with
    | Some y, Some m, Some d =>
        let dt := mkDate y m d in
        if valid_date dt then Some dt else None
    | _, _, _ => None
    end.

(** The decimal digits of a natural number, for [str] of an [int]. *)
Fixpoint nat_digits (fuel n : nat) (acc : string) : string :=
  match fuel with
  | O => acc
  | Datatypes.S fuel' =>
      let c := ascii_of_nat (48 + Nat.modulo n 10) in
      let acc' := String c acc in
      if Nat.ltb n 10 then acc' else nat_digits fuel' (Nat.div n 10) acc'
  end.

Definition str_of_Z (z : Z) : string :=
  if z <? 0 then "-" ++ nat_digits (Datatypes.S (Z.to_nat (- z))) (Z.to_nat (- z)) ""
  else nat_digits (Datatypes.S (Z.to_nat z)) (Z.to_nat z) "".

(** [str(x)] on the identifiers the provider sends (integers, or strings). *)
Definition str_of_id (x : json) : string :=
  match x with
  | JInt n => str_of_Z n
  | JStr s => s
  | JBool true => "True"
  | JBool false => "False"
  | _ => ""
  end.

Definition pad2 (n : Z) : string :=
  if n <? 10 then "0" ++ str_of_Z n else str_of_Z n.

Definition pad4 (n : Z) : string :=
  if n <? 10 then "000" ++ str_of_Z n
  else if n <? 100 then "00" ++ str_of_Z n
  else if n <? 1000 then "0" ++ str_of_Z n
  else str_of_Z n.

(** [d.isoformat()] *)
Definition isoformat (d : date) : string :=
  pad4 (year d) ++ "-" ++ pad2 (month d) ++ "-" ++ pad2 (day d).

(** Python's proleptic Gregorian ordinal, [date.toordinal()]. *)
Definition days_before_year (y : Z) : Z :=
  let y' := y - 1 in y' * 365 + y' / 4 - y' / 100 + y' / 400.

Fixpoint days_before_month_nat (y : Z) (m : nat) : Z :=
  match m with
  | O => 0
  | Datatypes.S m' => days_before_month_nat y m' + days_in_month y (Z.of_nat m')
  end.

Definition days_before_month (y m : Z) : Z :=
  days_before_month_nat y (Z.to_nat m) - days_in_month y 0.

Definition toordinal (d : date) : Z :=
  days_before_year (year d) + days_before_month (year d) (month d) + day d.

(** [(d1 - d2).days] *)
Definition days_between (d1 d2 : date) : Z := toordinal d1 - toordinal d2.

(** [d.replace(day=1)] *)
Definition replace_day_1 (d : date) : date := mkDate (year d) (month d) 1.

(* ================================================================== *)
(** * The read endpoints' storing step                                 *)
(* ================================================================== *)

(** The status codes of the outer handlers: [get_steps] has one for the
    rate limit, the other read endpoints do not. *)
Definition steps_error_code (e : exn) : Z :=
  match e with
  | GarminConnectAuthenticationError _ => 401
  | GarminConnectConnectionError _ => 503
  | GarminConnectTooManyRequestsError _ => 429
  | _ => 500
  end.

(** [get_steps]'s three assignments. *)
Definition get_steps_cols (target_date : date) (steps_data user_summary : json)
  : result (list (string * json)) :=
  let* total_steps := sync_total_steps user_summary in
  let hourly := if is_list steps_data then steps_data else JList [] in
  Ok [("total_steps", total_steps);
      ("hourly_data", hourly);
      ("full_data",
       JDict [("date", JStr (isoformat target_date));
              ("total_steps", total_steps);
              ("hourly_data", hourly);
              ("user_summary", or_empty user_summary)])].


(** [get_sleep]'s resolution of the duration and its assignments. *)
Definition get_sleep_daily (sleep_data : json) : result json :=
  if is_dict sleep_data && truthy sleep_data
  then py_get_default sleep_data "dailySleepDTO" (JDict [])
  else Ok (JDict []).

Definition get_sleep_score (sleep_data daily_sleep : json) : result json :=
  if is_dict sleep_data then py_get sleep_data "sleepScore"
  else if is_dict sleep_data then
    por (por (Ok JNull) (py_get daily_sleep "sleepScore"))
        (py_get sleep_data "sleepQualityScore")
  else por (Ok JNull) (py_get daily_sleep "sleepQualityScore").

Definition get_sleep_cols (target_date : date) (sleep_data : json)
  : result (list (string * json)) :=
  let* daily_sleep := get_sleep_daily sleep_data in
  let* sleep_score := get_sleep_score sleep_data daily_sleep in
  let* sleep_time_seconds := sleep_stage sleep_data daily_sleep "sleepTimeSeconds" in
  let* minutes := sleep_time_minutes sleep_time_seconds in
  let* sleep_start_gmt := py_get daily_sleep "sleepStartTimestampGMT" in
  let* sleep_end_gmt := py_get daily_sleep "sleepEndTimestampGMT" in
  let* sleep_start_local := py_get daily_sleep "sleepStartTimestampLocal" in
  let* sleep_end_local := py_get daily_sleep "sleepEndTimestampLocal" in
  let* deep := sleep_stage sleep_data daily_sleep "deepSleepSeconds" in
  let* light := sleep_stage sleep_data daily_sleep "lightSleepSeconds" in
  let* rem := sleep_stage sleep_data daily_sleep "remSleepSeconds" in
  let* awake := sleep_stage sleep_data daily_sleep "awakeSleepSeconds" in
  let* average_spo2 :=
    por (py_get daily_sleep "averageSpO2Value")
        (if is_dict sleep_data then py_get sleep_data "averageSpO2" else Ok JNull) in
  let* lowest_spo2 :=
    por (py_get daily_sleep "lowestSpO2Value")
        (if is_dict sleep_data then py_get sleep_data "lowestSpO2" else Ok JNull) in
  let* average_respiration :=
    sleep_stage sleep_data daily_sleep "averageRespirationValue" in
  let* lowest_respiration :=
    sleep_stage sleep_data daily_sleep "lowestRespirationValue" in
  let sleep_response :=
    JDict [("date", JStr (isoformat target_date));
           ("sleep_data", or_empty sleep_data);
           ("daily_sleep_dto", daily_sleep);
           ("sleep_score", sleep_score);
           ("sleep_duration_seconds", sleep_time_seconds);
           ("sleep_duration_minutes", minutes);
           ("sleep_start_gmt", sleep_start_gmt);
           ("sleep_end_gmt", sleep_end_gmt);
           ("sleep_start_local", sleep_start_local);
           ("sleep_end_local", sleep_end_local);
           ("sleep_stages",
            JDict [("deep_seconds", deep); ("light_seconds", light);
                   ("rem_seconds", rem); ("awake_seconds", awake)]);
           ("average_spo2", average_spo2);
           ("lowest_spo2", lowest_spo2);
           ("average_respiration", average_respiration);
           ("lowest_respiration", lowest_respiration)] in
  Ok [("sleep_score", sleep_score);
      ("sleep_duration_seconds", sleep_time_seconds);
      ("sleep_duration_minutes", minutes);
      ("deep_sleep_seconds", deep); ("light_sleep_seconds", light);
      ("rem_sleep_seconds", rem); ("awake_seconds", awake);
      ("full_data", if is_dict sleep_data then sleep_data else sleep_response)].

Section ReadEndpoints.
Context {S : Type} `{Storage S}.
Local Open Scope sr_scope.

(** A read endpoint: fetch and resolve (a raise answers with an error
    code and stores nothing), then store, then answer 200. *)
Definition read_endpoint (code_of : exn -> Z) (t : table) (email : string)
  (target_date : date) (cols : result (list (string * json))) : SR S Z :=
  fun s =>
    match cols with
    | Ok cs =>
        let (s', _) := store t email target_date (evaluated cs) s in
        (s', Ok 200)
    | Raise e => (s, Ok (code_of e))
    end.

Definition get_steps (g : garmin) (email : string) (target_date : date)
  : SR S Z :=
  read_endpoint steps_error_code StepsData email target_date
    (let* steps_data := get_steps_data g in
     let* user_summary := get_user_summary g in
     get_steps_cols target_date steps_data user_summary).


Definition get_sleep (g : garmin) (email : string) (target_date : date)
  : SR S Z :=
  read_endpoint error_code SleepData email target_date
    (let* sleep_data := get_sleep_data g in
     get_sleep_cols target_date sleep_data).
End ReadEndpoints.

(* ================================================================== *)
(** * The database read endpoint ([get_db_data])                       *)
(* ================================================================== *)

(** An HTTP request: the query parameters and the headers. *)
Record request : Type := mkRequest {
  args : list (string * string);
  headers : list (string * string)
}.

Fixpoint lookup (k : string) (d : list (string * string)) : option string :=
  match d with
  | [] => None
  | (k', v) :: d' => if String.eqb k k' then Some v else lookup k d'
  end.

Record response : Type := mkResponse {
  resp_body : json;
  resp_code : Z
}.

Definition lower_ascii (c : ascii) : ascii :=
  let n := nat_of_ascii c in
  if (Nat.leb 65 n && Nat.leb n 90)%bool then ascii_of_nat (n + 32) else c.

(** [s.lower()] (on ASCII letters) *)
Fixpoint lower (s : string) : string :=
  match s with
  | EmptyString => EmptyString
  | String c s' => String (lower_ascii c) (lower s')
  end.

(** [data_type_map.get(name)] *)
Definition data_type_map (name : string) : option table :=
  if String.eqb name "steps" then Some StepsData
  else if String.eqb name "heartrate" then Some HeartRateData
  else if String.eqb name "sleep" then Some SleepData
  else if String.eqb name "stress" then Some StressData
  else if String.eqb name "bodybattery" then Some BodyBatteryData
  else if String.eqb name "activities" then Some ActivityData
  else if String.eqb name "healthmetrics" then Some HealthMetricsData
  else None.

(** The data columns of each model, in the order of [to_dict]. *)
Definition schema (t : table) : list string :=
  match t with
  | StepsData => ["total_steps"; "hourly_data"; "full_data"]
  | HeartRateData => ["resting_hr"; "average_hr"; "max_hr"; "min_hr"; "full_data"]
  | SleepData =>
      ["sleep_score"; "sleep_duration_seconds"; "sleep_duration_minutes";
       "deep_sleep_seconds"; "light_sleep_seconds"; "rem_sleep_seconds";
       "awake_seconds"; "full_data"]
  | StressData =>
      ["rest_minutes"; "low_stress_minutes"; "medium_stress_minutes";
       "high_stress_minutes"; "average_stress"; "max_stress"; "full_data"]
  | BodyBatteryData => ["charged"; "drained"; "full_data"]
  | ActivityData =>
      ["activity_name"; "activity_type"; "start_time"; "duration_seconds";
       "distance_meters"; "calories"; "average_hr"; "max_hr"; "average_speed";
       "max_speed"; "elevation_gain"; "average_cadence"; "full_data"]
  | HealthMetricsData =>
      ["vo2_max"; "fitness_age"; "hrv_value"; "training_readiness";
       "training_status"; "intensity_minutes_cardio";
       "intensity_minutes_anaerobic"; "hydration_ml"; "hydration_goal_ml";
       "floors_climbed"; "average_spo2"; "lowest_spo2"; "average_respiration";
       "lowest_respiration"; "full_data"]
  end.

(** [row.to_dict()], without the two timestamps. *)
Definition to_dict (t : table) (r : row) : json :=
  JDict ([("id", match row_id r with Some i => JInt i | None => JNull end);
          ("email", JStr (row_email r))]
         ++ match t with
            | ActivityData =>
                [("activity_id", match row_activity_id r with
                                 | Some a => JStr a
                                 | None => JNull
                                 end)]
            | _ => []
            end
         ++ [("date", JStr (isoformat (row_date r)))]
         ++ map (fun c => (c, col c r)) (schema t)).

(** [str(e)] *)
Definition exn_message (e : exn) : string :=
  match e with
  | GarminConnectAuthenticationError m | GarminConnectConnectionError m
  | GarminConnectTooManyRequestsError m | GarthError m | StorageError m => m
  | TypeError => "TypeError"
  | AttributeError => "AttributeError"
  | KeyError => "KeyError"
  | IndexError => "IndexError"
  | ValueError => "ValueError"
  | ZeroDivisionError => "ZeroDivisionError"
  | UnboundLocalError => "UnboundLocalError"
  end.

Definition error_body (msg : string) : json := JDict [("error", JStr msg)].

Section DbRead.
Context {S : Type} `{Storage S}.
Variable strptime_date : string -> option date.

(** The handler reads [request.args] and the path parameter, and nothing
    else of the request. *)
Definition get_db_data (data_type : string) (req : request) (s : S)
  : S * response :=
  match lookup "email" (args req), lookup "date" (args req) with
  | None, _ | Some "", _ =>
      (s, mkResponse (error_body "Missing email parameter") 400)
  | Some _, None | Some _, Some "" =>
      (s, mkResponse (error_body "Missing date parameter") 400)
  | Some email, Some date_str =>
      match strptime_date date_str with
      | None =>
          (s, mkResponse (error_body "Invalid date format. Use YYYY-MM-DD") 400)
      | Some date_obj =>
          match data_type_map (lower data_type) with
          | None =>
              (s, mkResponse (error_body ("Unknown data type: " ++ data_type)) 400)
          | Some model =>
              let (s', data) :=
                match model with
                | ActivityData =>
                    match query_all model email date_obj s with
                    | (s', Ok records) =>
                        (s', Ok (match records with
                                 | [] => JNull
                                 | _ => JList (map (to_dict model) records)
                                 end))
                    | (s', Raise e) => (s', Raise e)
                    end
                | _ =>
                    match query_first model email date_obj s with
                    | (s', Ok (Some record)) => (s', Ok (to_dict model record))
                    | (s', Ok None) => (s', Ok JNull)
                    | (s', Raise e) => (s', Raise e)
                    end
                end in
              match data with
              | Raise e =>
                  (s', mkResponse
                         (JDict [("error", JStr "Internal server error");
                                 ("message", JStr (exn_message e))]) 500)
              | Ok data =>
                  if negb (truthy data) then
                    (s', mkResponse
                           (JDict [("error", JStr "No data found");
                                   ("message",
                                    JStr ("No " ++ data_type ++ " data found for "
                                          ++ email ++ " on " ++ date_str))]) 404)
                  else
                    (s', mkResponse
                           (JDict [("date", JStr date_str);
                                   ("email", JStr email);
                                   ("data_type", JStr data_type);
                                   ("data", data);
                                   ("source", JStr "database")]) 200)
              end
          end
      end
  end.
End DbRead.

(** [require_auth], the decorator of the provider-backed endpoints, for
    comparison: the status code it answers with itself, [None] when it calls
    the handler.  [get_db_data] is not decorated. *)
Definition is_space (c : ascii) : bool :=
  let n := nat_of_ascii c in
  (Nat.leb 9 n && Nat.leb n 13) || (Nat.leb 28 n && Nat.leb n 32).

(** [not s.strip()] (on ASCII white space) *)
Fixpoint blank (s : string) : bool :=
  match s with
  | EmptyString => true
  | String c s' => is_space c && blank s'
  end.

Definition require_auth (req : request) : option Z :=
  match lookup "X-Email" (headers req), lookup "X-Password" (headers req) with
  | Some (String c e), Some (String c' p) =>
      if blank (String c e) || blank (String c' p) then Some 400 else None
  | _, _ => Some 401
  end.

(* ================================================================== *)
(** * RunningGoalProjector ([get_live_data])                           *)
(* ================================================================== *)

Definition running_types : list string :=
  ["running"; "trail_running"; "treadmill_running"].

(** [type_key in running_types]: the set hashes the key, which raises for
    a list or a dict. *)
Definition in_running_types (type_key : json) : result bool :=
  match type_key with
  | JStr s => Ok (existsb (String.eqb s) running_types)
  | JList _ | JDict _ => Raise TypeError
  | _ => Ok false
  end.

(** [x[:10]] *)
Definition py_slice10 (x : json) : result json :=
  match x with
  | JStr s => Ok (JStr (substring 0 10 s))
  | JList l => Ok (JList (firstn 10 l))
  | _ => Raise TypeError
  end.

(** The loop's variables. *)
Record run_totals : Type := mkRunTotals {
  runs : list json;
  total_distance_m : json;
  total_duration_s : json;
  total_calories : json
}.

Definition run_totals0 : run_totals :=
  mkRunTotals [] (JFloat 0) (JFloat 0) (JInt 0).

Definition type_key_of (act : json) : result json :=
  let* atype := py_get_default act "activityType" (JDict []) in
  if is_dict atype then py_get_default atype "typeKey" (JStr "")
  else Ok (JStr "").

(** [act.get('distance') or 0] *)
Definition run_distance (act : json) : result json :=
  por (py_get act "distance") (Ok (JInt 0)).

Definition run_step (acc : run_totals) (act : json) : result run_totals :=
  if negb (is_dict act) then Ok acc
  else
    let* type_key := type_key_of act in
    let* running := in_running_types type_key in
    if running then
      let* dist := run_distance act in
      let* dur := por (py_get act "duration")
                      (por (py_get act "elapsedDuration") (Ok (JInt 0))) in
      let* cal := por (py_get act "calories") (Ok (JInt 0)) in
      let* distance' := py_add (total_distance_m acc) dist in
      let* duration' := py_add (total_duration_s acc) dur in
      let* calories' := py_add (total_calories acc) cal in
      let* start := py_get_default act "startTimeLocal" (JStr "") in
      let* run_date := py_slice10 start in
      let* km := py_truediv dist (JInt 1000) in
      let* distance_km := py_round2 km in
      let* avg_hr := py_get act "averageHR" in
      let* positive := py_gt dist (JInt 0) in
      let* pace :=
        if positive then
          let* minutes := py_truediv dur (JInt 60) in
          let* km' := py_truediv dist (JInt 1000) in
          let* p := py_truediv minutes km' in
          py_round2 p
        else Ok JNull in
      Ok (mkRunTotals
            (runs acc ++ [JDict [("date", run_date);
                                 ("distance_km", distance_km);
                                 ("duration_seconds", dur);
                                 ("calories", cal);
                                 ("avg_hr", avg_hr);
                                 ("avg_pace_min_km", pace)]])
            distance' duration' calories')
    else Ok acc.

Fixpoint run_loop (acts : list json) (acc : run_totals) : result run_totals :=
  match acts with
  | [] => Ok acc
  | act :: acts' => let* acc' := run_step acc act in run_loop acts' acc'
  end.

(** [result['running_goal']] *)
Record running_goal : Type := mkRunningGoal {
  goal_km : Z;
  total_km : json;
  remaining_km : json;
  days_elapsed : Z;
  days_remaining : Z;
  goal_days_in_month : Z;
  km_per_day_needed : json;
  runs_count : Z;
  total_duration_seconds : json;
  goal_total_calories : json;
  on_track : bool;
  avg_km_per_run : json;
  goal_runs : list json
}.

(** The activities the loop visits:
    [if not run_activities or not isinstance(run_activities, list):
       run_activities = []] *)
Definition run_activities (fetched : json) : list json :=
  match fetched with
  | JList l => l
  | _ => []
  end.

(** The body of the [try] around the goal tracker, for [date.today()] being
    [today] and the month's activities as fetched. *)
Definition running_goal_of (today : date) (fetched : result json)
  : result running_goal :=
  let month_start := replace_day_1 today in
  let dim := days_in_month (year today) (month today) in
  let* fetched := fetched in
  let* acc := run_loop (run_activities fetched) run_totals0 in
  let* km := py_truediv (total_distance_m acc) (JInt 1000) in
  let* total := py_round2 km in
  let goal := 100 in
  let* diff := py_sub (JInt goal) total in
  let* remaining := py_max diff (JInt 0) in
  let elapsed := days_between today month_start + 1 in
  let left := Z.max (dim - elapsed) 0 in
  let* needed :=
    if 0 <? left then
      let* q := py_truediv remaining (JInt left) in py_round2 q
    else Ok (JInt 0) in
  let* remaining_rounded := py_round2 remaining in
  let* duration := py_round (total_duration_s acc) in
  let* per_day := py_truediv (JInt goal) (JInt dim) in
  let* target := py_mul per_day (JInt elapsed) in
  let* ok := py_ge total target in
  let* avg :=
    match runs acc with
    | [] => Ok (JInt 0)
    | _ =>
        let* q := py_truediv total (JInt (Z.of_nat (List.length (runs acc)))) in
        py_round2 q
    end in
  Ok (mkRunningGoal goal total remaining_rounded elapsed left dim needed
        (Z.of_nat (List.length (runs acc))) duration (total_calories acc)
        ok avg (runs acc)).

(** ** The specification's reading of the projection *)

(** An activity the filter keeps. *)
Definition is_running (act : json) : bool :=
  match act with
  | JDict _ =>
      match type_key_of act with
      | Ok (JStr s) => existsb (String.eqb s) running_types
      | _ => false
      end
  | _ => false
  end.



Definition run_activity (type_key : string) (meters : Z) : json :=
  JDict [("activityType", JDict [("typeKey", JStr type_key)]);
         ("distance", JInt meters);
         ("startTimeLocal", JStr "2026-04-10 07:00:00")].

(** Sample sleep payloads. *)
Definition sleep_seven_and_a_half_hours : json :=
  JDict [("dailySleepDTO", JDict [("sleepTimeSeconds", JInt 27000)])].

Definition sleep_zero_seconds : json := JDict [("sleepTimeSeconds", JInt 0)].

Definition jan15 : date := mkDate 2026 1 15.

(** Provider clients used in the examples: every call answers [None]
    except the ones named. *)
Definition no_data : result json := Ok JNull.

Definition quiet_garmin : garmin :=
  mkGarmin no_data no_data no_data no_data no_data no_data no_data no_data
    no_data (fun _ => no_data) no_data no_data no_data no_data no_data no_data
    no_data no_data no_data no_data.

Definition garmin_sleep (sleep_data : json) : garmin :=
  mkGarmin no_data no_data no_data no_data (Ok sleep_data) no_data no_data
    no_data no_data (fun _ => no_data) no_data no_data no_data no_data no_data
    no_data no_data no_data no_data no_data.

Definition garmin_steps (total_steps : Z) : garmin :=
  mkGarmin no_data (Ok (JDict [("totalSteps", JInt total_steps)])) no_data
    no_data no_data no_data no_data no_data no_data (fun _ => no_data) no_data
    no_data no_data no_data no_data no_data no_data no_data no_data no_data.

Definition garmin_vo2 (max_metrics : json) : garmin :=
  mkGarmin no_data no_data no_data no_data no_data no_data no_data no_data
    no_data (fun _ => no_data) (Ok max_metrics) no_data no_data no_data no_data
    no_data no_data no_data no_data no_data.

Definition someone : string := "runner@example.org".

(** A database holding one heart-rate row of [someone]. *)
Definition hr_row : row :=
  mkRow (Some 1) someone jan15 None
    [("resting_hr", JInt 52); ("average_hr", JInt 67); ("max_hr", JInt 141);
     ("min_hr", JInt 48); ("full_data", JDict [])].

Definition hr_db : table -> list row := upd HeartRateData [hr_row] empty_db.


Definition jan28 : date := mkDate 2026 1 28.
Definition apr15 : date := mkDate 2026 4 15.

(** The specification's example: 40 km run by the 15th of a 30-day month. *)
Definition april_runs : json :=
  JList [run_activity "running" 25000; run_activity "cycling" 9000;
         run_activity "trail_running" 15000].

Definition april_goal : running_goal :=
  mkRunningGoal 100 (JFloat 40) (JFloat 60) 15 15 30 (JFloat 4) 2 (JInt 0)
    (JInt 0) false (JFloat 20)
    [JDict [("date", JStr "2026-04-10"); ("distance_km", JFloat 25);
            ("duration_seconds", JInt 0); ("calories", JInt 0);
            ("avg_hr", JNull); ("avg_pace_min_km", JFloat 0)];
     JDict [("date", JStr "2026-04-10"); ("distance_km", JFloat 15);
            ("duration_seconds", JInt 0); ("calories", JInt 0);
            ("avg_hr", JNull); ("avg_pace_min_km", JFloat 0)]].

(* ================================================================== *)
(** * What a block does to the report                                  *)
(* ================================================================== *)

Section Frames.
Context {S : Type}.

(** [c] keeps [P] true of the world, also when it raises. *)
Definition keeps {A} (P : world S -> Prop) (c : SR (world S) A) : Prop :=
  forall w, P w -> P (fst (c w)).

Definition has_status (family : string) (x : option family_status)
  (w : world S) : Prop :=
  status_of family (sync_status w) = x.

(** [c] writes no status but the one of [own]. *)
Definition touches_only {A} (own : string) (c : SR (world S) A) : Prop :=
  forall family x, family <> own -> keeps (has_status family x) c.

(** When [c] returns normally, the status of [own] is ['success'] or
    ['no_data']. *)
Definition reports {A} (own : string) (c : SR (world S) A) : Prop :=
  forall w w' a,
    c w = (w', Ok a) ->
    has_status own (Some Success) w' \/ has_status own (Some NoData) w'.
End Frames.

(** A provider whose heart-rate call fails while the others answer. *)
Definition garmin_hr_down : garmin :=
  mkGarmin (Ok (JList [])) (Ok (JDict [("totalSteps", JInt 1000)]))
    (Raise (GarminConnectConnectionError "connection refused")) no_data
    (Ok sleep_seven_and_a_half_hours) (Ok (stress_payload four_samples))
    (Ok (JList [JDict [("charged", JInt 60); ("drained", JInt 40)]]))
    (Ok (JList [JDict [("activityId", JInt 77); ("calories", JInt 300)]]))
    no_data
    (fun _ => Ok (JDict [("summaryDTO", JDict [("distance", JInt 5000)])]))
    no_data no_data no_data no_data no_data no_data
    (Ok (floors_payload floors_five)) no_data no_data no_data.

Definition no_start_time (_ : json) : json := JNull.



(** What [store] does to the rows of its table, on the list engine: the
    row of the key is replaced, or a new row is appended. *)
Definition upsert_rows (email : string) (d : date) (cs : list (string * json))
  (rows : list row) : list row :=
  match find (by_date email d) rows with
  | Some r => map (fun x => if same_id x r then set_cols cs r else x) rows
  | None => rows ++ [with_id (next_id rows) (new_row email d cs)]
  end.

(** Rows as the engine keeps them: each has its [id], and no two share
    one. *)
Definition ids_ok (rows : list row) : Prop :=
  (forall x, In x rows -> row_id x <> None) /\ NoDup (map row_id rows).

(** What every turn of the stress loop keeps: non-negative multiples of
    the interval. *)
Definition mult3 (n : Z) : Prop := exists k, 0 <= k /\ n = 3 * k.

Definition acc_ok (a : stress_acc) : Prop :=
  mult3 (lv_rest a) /\ mult3 (lv_low a) /\ mult3 (lv_medium a)
  /\ mult3 (lv_high a) /\ mult3 (acc_total_stress_minutes a).

(* ================================================================== *)
(** * Request credentials ([require_auth], [validate_credentials])     *)
(* ================================================================== *)


Definition json_error (error message : string) : json :=
  JDict [("error", JStr error); ("message", JStr message)].



(* ================================================================== *)
(** * Dashboard tokens ([auth.py], [dashboard_login], [verify_token])  *)
(* ================================================================== *)

(** What [jwt.decode] does with a token: the claims of a token that
    verifies, or one of the two errors the decorator handles. *)
Inductive jwt_decoded : Type :=
| Claims (payload : list (string * json))
| ExpiredSignatureError
| InvalidTokenError.

(** [s[n:]] *)
Fixpoint string_drop (n : nat) (s : string) : string :=
  match n, s with
  | O, _ => s
  | Datatypes.S n', String _ s' => string_drop n' s'
  | Datatypes.S _, EmptyString => EmptyString
  end.

(** [auth_header.split(' ', 1)[1]] under [auth_header.startswith('Bearer ')]:
    the first blank is the one that ends the prefix. *)
Definition bearer_token (auth_header : string) : option string :=
  if prefix "Bearer " auth_header then Some (string_drop 7 auth_header)
  else None.

(** [s.lstrip()], [s.rstrip()], [s.strip()] (on ASCII white space) *)
Fixpoint lstrip (s : string) : string :=
  match s with
  | EmptyString => EmptyString
  | String c s' => if is_space c then lstrip s' else s
  end.

Fixpoint rstrip (s : string) : string :=
  match s with
  | EmptyString => EmptyString
  | String c s' =>
      match rstrip s' with
      | EmptyString => if is_space c then EmptyString else String c EmptyString
      | r => String c r
      end
  end.

Definition strip (s : string) : string := rstrip (lstrip s).

Section Dashboard.
(** [jwt.decode(token, JWT_SECRET, algorithms=[JWT_ALGORITHM])] *)
Variable decode_jwt_token : string -> jwt_decoded.
(** [bcrypt.checkpw] on the encoded password and hash; it raises on a
    malformed hash. *)
Variable checkpw : string -> string -> result bool.
(** The two settings read from the environment. *)
Variable AUTHORIZED_EMAIL : string.
Variable AUTHORIZED_PASSWORD_HASH : string.
(** [create_jwt_token(email)], which reads the clock. *)
Variable create_jwt_token : string -> string.

(** The function [require_dashboard_auth] puts around a handler [f] (one
    that catches what it raises, as the three decorated handlers do).  A
    payload without ['sub'] raises [KeyError], which the decorator does not
    catch. *)
Definition require_dashboard_auth (f : json -> response)
  (headers_get : string -> option string) : result response :=
  let auth_header :=
    match headers_get "Authorization" with Some h => h | None => "" end in
  match bearer_token auth_header with
  | None =>
      Ok (mkResponse (error_body "Missing or invalid authorization header") 401)
  | Some token =>
      match decode_jwt_token token with
      | Claims payload =>
          match assoc "sub" payload with
          | Some dashboard_email => Ok (f dashboard_email)
          | None => Raise KeyError
          end
      | ExpiredSignatureError =>
          Ok (mkResponse (JDict [("error", JStr "Token expired");
                                 ("code", JStr "TOKEN_EXPIRED")]) 401)
      | InvalidTokenError => Ok (mkResponse (error_body "Invalid token") 401)
      end
  end.

(** [verify_token], the handler of [/api/auth/verify]. *)
Definition verify_token (dashboard_email : json) : response :=
  mkResponse (JDict [("valid", JBool true); ("email", dashboard_email)]) 200.

(** [verify_password(plain_password, hashed_password)]: [encode] of
    anything but a string raises inside the [try]. *)
Definition verify_password (plain_password : json) (hashed_password : string)
  : bool :=
  if negb (truthy plain_password) || negb (truthy (JStr hashed_password))
  then false
  else
    match plain_password with
    | JStr p =>
        match checkpw p hashed_password with
        | Ok b => b
        | Raise _ => false
        end
    | _ => false
    end.

Definition JWT_EXPIRATION_HOURS : Z := 24.

(** [dashboard_login], for [data] the parsed body of the request. *)
Definition dashboard_login (data : json) : result response :=
  if negb (truthy data) then
    Ok (mkResponse (error_body "Request body must be JSON") 400)
  else
    let* e := py_get_default data "email" (JStr "") in
    let* email :=
      match e with
      | JStr s => Ok (lower (strip s))
      | _ => Raise AttributeError
      end in
    let* password := py_get_default data "password" (JStr "") in
    if negb (String.eqb email (lower AUTHORIZED_EMAIL)) then
      Ok (mkResponse (error_body "Invalid credentials") 401)
    else if negb (verify_password password AUTHORIZED_PASSWORD_HASH) then
      Ok (mkResponse (error_body "Invalid credentials") 401)
    else
      Ok (mkResponse
            (JDict [("token", JStr (create_jwt_token email));
                    ("email", JStr email);
                    ("expires_in", JInt (JWT_EXPIRATION_HOURS * 3600))]) 200).
End Dashboard.

(** Headers that carry a bearer token and nothing else. *)
Definition bearer_headers (token : string) (name : string) : option string :=
  if String.eqb name "Authorization" then Some ("Bearer " ++ token) else None.

(* ================================================================== *)
(** * The range read endpoint ([get_db_data_range])                    *)
(* ================================================================== *)

(** [d1 <= d2] on dates. *)
Definition date_leb (d1 d2 : date) : bool :=
  (year d1 <? year d2)
  || ((year d1 =? year d2)
      && ((month d1 <? month d2)
          || ((month d1 =? month d2) && (day d1 <=? day d2)))).

Section DbRange.
Context {S : Type}.
Variable strptime_date : string -> option date.
(** [model.query.filter(model.email == email, model.date >= start_date,
     model.date <= end_date).order_by(model.date.asc()).all()] *)
Variable query_range : table -> string -> date -> date -> SR S (list row).
(** [os.getenv('EMAIL')] *)
Variable EMAIL : option string.

Definition get_db_data_range (data_type : string) (dashboard_email : string)
  (req : request) (s : S) : S * response :=
  match lookup "start_date" (args req), lookup "end_date" (args req) with
  | Some (String a x), Some (String b y) =>
      let start_date_str := String a x in
      let end_date_str := String b y in
      match strptime_date start_date_str, strptime_date end_date_str with
      | Some start_date, Some end_date =>
          let email :=
            match EMAIL with Some e => e | None => dashboard_email end in
          match data_type_map (lower data_type) with
          | None =>
              (s, mkResponse (error_body ("Unknown data type: " ++ data_type)) 400)
          | Some model =>
              match query_range model email start_date end_date s with
              | (s', Ok records) =>
                  let data := map (to_dict model) records in
                  (s', mkResponse
                         (JDict [("data", JList data);
                                 ("count", JInt (Z.of_nat (List.length data)));
                                 ("data_type", JStr data_type);
                                 ("start_date", JStr start_date_str);
                                 ("end_date", JStr end_date_str);
                                 ("source", JStr "database")]) 200)
              | (s', Raise e) =>
                  (s', mkResponse (json_error "Internal server error"
                                     (exn_message e)) 500)
              end
          end
      | _, _ =>
          (s, mkResponse (error_body "Invalid date format. Use YYYY-MM-DD") 400)
      end
  | _, _ =>
      (s, mkResponse (error_body "Missing start_date or end_date parameter") 400)
  end.
End DbRange.

(** The range query on the list engine.  The order among rows of one date
    (activities) is the engine's; here it is the order of insertion. *)
Definition in_range (email : string) (start_date end_date : date) (r : row)
  : bool :=
  String.eqb (row_email r) email
  && date_leb start_date (row_date r) && date_leb (row_date r) end_date.

Fixpoint insert_by_date (r : row) (rows : list row) : list row :=
  match rows with
  | [] => [r]
  | x :: rows' =>
      if date_leb (row_date r) (row_date x) then r :: rows
      else x :: insert_by_date r rows'
  end.

Definition order_by_date (rows : list row) : list row :=
  fold_right insert_by_date [] rows.

Definition list_query_range (t : table) (email : string)
  (start_date end_date : date) : SR session (list row) :=
  sbind flush (fun _ =>
  sbind require_active (fun _ =>
  fun s => (s, Ok (order_by_date
                     (filter (in_range email start_date end_date)
                        (stored s t)))))).

Definition date_le (r1 r2 : row) : Prop :=
  date_leb (row_date r1) (row_date r2) = true.

(* ================================================================== *)
(** * The live dashboard's aggregates ([get_live_data])                *)
(* ================================================================== *)

(** [levels = {'rest': 0, 'low': 0, 'medium': 0, 'high': 0}] *)
Record stress_levels : Type := mkLevels {
  level_rest : Z;
  level_low : Z;
  level_medium : Z;
  level_high : Z
}.

(** [stress_raw[0] if isinstance(stress_raw, list) and stress_raw
     else stress_raw if isinstance(stress_raw, dict) else {}] *)
Definition live_stress_data (stress_raw : json) : json :=
  match stress_raw with
  | JList (x :: _) => x
  | JDict _ => stress_raw
  | _ => JDict []
  end.

Definition live_stress_step (levels : stress_levels) (v : json)
  : stress_levels :=
  match sample_level v with
  | None => levels
  | Some s =>
      if num_le (NInt 0) s && num_le s (NInt 25) then
        mkLevels (level_rest levels + 3) (level_low levels)
          (level_medium levels) (level_high levels)
      else if num_le (NInt 26) s && num_le s (NInt 50) then
        mkLevels (level_rest levels) (level_low levels + 3)
          (level_medium levels) (level_high levels)
      else if num_le (NInt 51) s && num_le s (NInt 75) then
        mkLevels (level_rest levels) (level_low levels)
          (level_medium levels + 3) (level_high levels)
      else if num_lt (NInt 75) s then
        mkLevels (level_rest levels) (level_low levels)
          (level_medium levels) (level_high levels + 3)
      else levels
  end.

(** The body of the [try] that fills [result['stress']], after the fetch. *)
Definition live_stress (stress_raw : json) : result json :=
  let stress_data := live_stress_data stress_raw in
  let* stress_values :=
    if is_dict stress_data
    then py_get_default stress_data "stressValuesArray" (JList [])
    else Ok (JList []) in
  let* values := py_iter stress_values in
  let levels := fold_left live_stress_step values (mkLevels 0 0 0 0) in
  let* average_stress :=
    if is_dict stress_data then py_get stress_data "avgStressLevel"
    else Ok JNull in
  let* max_stress :=
    if is_dict stress_data then py_get stress_data "maxStressLevel"
    else Ok JNull in
  Ok (JDict [("average_stress", average_stress);
             ("max_stress", max_stress);
             ("rest_minutes", JInt (level_rest levels));
             ("low_stress_minutes", JInt (level_low levels));
             ("medium_stress_minutes", JInt (level_medium levels));
             ("high_stress_minutes", JInt (level_high levels))]).

(** [result['stress']]: the [except] stores the error's text. *)
Definition live_stress_entry (fetched : result json) : json :=
  match rbind fetched live_stress with
  | Ok entry => entry
  | Raise e => JDict [("error", JStr (exn_message e))]
  end.

(* ================================================================== *)
(** * The mean heart rate                                              *)
(* ================================================================== *)


(* ================================================================== *)
(** * The activities endpoint ([get_activities])                       *)
(* ================================================================== *)



(** [x.get('activityType', {}).get('typeKey')] *)
Definition type_key (x : json) : result json :=
  let* t := py_get_default x "activityType" (JDict []) in py_get t "typeKey".





Section Activities.
Context {S : Type} `{Storage S}.
Variable py_str : json -> string.
Variable fromisoformat : json -> result json.
Local Open Scope sr_scope.


End Activities.


(** The four bucket totals of the loop of [get_stress], as the live loop
    keeps them. *)
Definition levels_of (a : stress_acc) : stress_levels :=
  mkLevels (lv_rest a) (lv_low a) (lv_medium a) (lv_high a).



(* ================================================================== *)
(** * The provider client ([get_garmin_client] of [utils.py])          *)
(* ================================================================== *)

(** What [garmin.login(tokenstore)] does with the cached tokens: it
    returns, or raises one of the three errors the first [try] catches
    ([FileNotFoundError], [GarthHTTPError],
    [GarminConnectAuthenticationError]), or raises something else. *)
Inductive cached_login : Type :=
| TokensAccepted
| TokensUnavailable
| TokensRaise (e : exn).

Definition mfa_message : string :=
  "Multi-factor authentication is required. Please authenticate manually using the example.py script first.".

Section Client.
Variable client : Type.
(** The client logged in from the cached tokens, and the one logged in
    with the credentials. *)
Variable from_tokens from_credentials : client.

(** [login] is [Garmin(email=..., password=...).login()] with its two
    results; [dump] is [garmin.garth.dump(tokenstore)]. *)
Definition get_garmin_client (cached : cached_login)
  (login : result (json * json)) (dump : result unit) : result client :=
  match cached with
  | TokensAccepted => Ok from_tokens
  | TokensRaise e => Raise e
  | TokensUnavailable =>
      match (let* results := login in
             match fst results with
             | JStr "needs_mfa" =>
                 Raise (GarminConnectAuthenticationError mfa_message)
             | _ => let* _ := dump in Ok from_credentials
             end) with
      | Ok garmin => Ok garmin
      | Raise (GarminConnectAuthenticationError m) =>
          Raise (GarminConnectAuthenticationError m)
      | Raise e =>
          Raise (GarminConnectAuthenticationError
                   ("Authentication failed: " ++ exn_message e))
      end
  end.
End Client.

(* ================================================================== *)
(** * A session that can no longer commit                              *)
(* ================================================================== *)

(** On a database [db]: nothing of the session is committed, and the
    session is inactive or holds a pending row that a flush will refuse. *)
Definition doomed (db : table -> list row) (s : session) : Prop :=
  committed s = db
  /\ (inactive s = true \/ insert_all (pending s) (stored s) = None).

Definition world_doomed (db : table -> list row) (w : world session) : Prop :=
  doomed db (sess w).

(* ================================================================== *)
(** * Activities the goal tracker can total                            *)
(* ================================================================== *)




(** What is committed is still the database [db]. *)
Definition uncommitted (db : table -> list row) (w : world session) : Prop :=
  committed (sess w) = db.

(* ================================================================== *)
(** * Properties                                                       *)
(* ================================================================== *)

Unset Implicit Arguments.

(** ** Generic facts *)

Lemma rbind_ok {A B} (r : result A) (k : A -> result B) (b : B) :
  rbind r k = Ok b -> exists a, r = Ok a /\ k a = Ok b.
Proof.
  destruct r as [a|e]; simpl; intros H; [eauto | discriminate].
Qed.

Ltac rbind_inv H :=
  let a := fresh "v" in
  let Ha := fresh "Hv" in
  apply rbind_ok in H; destruct H as [a [Ha H]].

Lemma Qltb_lt (x y : Q) : Qltb x y = true <-> (x < y)%Q.
Proof.
  unfold Qltb. rewrite negb_true_iff.
  split; intros H.
  - apply Qnot_le_lt. intros Hle. apply Qle_bool_iff in Hle. congruence.
  - destruct (Qle_bool y x) eqn:E; [|reflexivity].
    apply Qle_bool_iff in E. exfalso. apply (Qlt_not_le _ _ H E).
Qed.

Lemma Qle_bool_false (x y : Q) : Qle_bool x y = false <-> (y < x)%Q.
Proof.
  rewrite <- Qltb_lt. unfold Qltb. rewrite negb_true_iff. reflexivity.
Qed.

(** ** The stress histogram *)

Lemma mult3_0 : mult3 0.
Proof. exists 0. lia. Qed.

Lemma mult3_add n : mult3 n -> mult3 (n + duration_minutes).
Proof. intros [k [Hk ->]]. exists (k + 1). unfold duration_minutes. lia. Qed.

Lemma add_bucket_ok b a : acc_ok a -> acc_ok (add_bucket b a).
Proof.
  unfold acc_ok. intros (H1 & H2 & H3 & H4 & H5).
  destruct b as [[]|]; simpl; repeat split; auto using mult3_add.
Qed.

Lemma stress_step_ok a value : acc_ok a -> acc_ok (stress_step a value).
Proof.
  intros H. unfold stress_step.
  destruct (sample_level value) as [s|]; [|exact H].
  pose proof (add_bucket_ok (stress_bucket s) a H) as (H1 & H2 & H3 & H4 & H5).
  destruct (num_lt (NInt 0) s); simpl; unfold acc_ok; simpl;
    repeat split; auto using mult3_add.
Qed.

Lemma fold_stress_ok values a :
  acc_ok a -> acc_ok (fold_left stress_step values a).
Proof.
  revert a. induction values as [|v vs IH]; simpl; intros a H; [exact H|].
  apply IH, stress_step_ok, H.
Qed.

Lemma stress_loop_ok values : acc_ok (stress_loop values).
Proof.
  apply fold_stress_ok. unfold acc_ok, stress_acc0; simpl.
  repeat split; apply mult3_0.
Qed.

(** The response's buckets are the loop's. *)
Lemma stress_summary_buckets stress_data stress_values a r :
  stress_summary stress_data stress_values a = Ok r ->
  rest_minutes r = lv_rest a /\ low_stress_minutes r = lv_low a
  /\ medium_stress_minutes r = lv_medium a /\ high_stress_minutes r = lv_high a
  /\ total_stress_minutes r = acc_total_stress_minutes a
  /\ hourly_stress r = stress_values.
Proof.
  unfold stress_summary. intros H.
  repeat rbind_inv H. inversion H; subst; simpl. repeat split.
Qed.

Lemma get_stress_stats_loop raw r :
  get_stress_stats raw = Ok r ->
  exists values, py_iter (hourly_stress r) = Ok values
    /\ rest_minutes r = lv_rest (stress_loop values)
    /\ low_stress_minutes r = lv_low (stress_loop values)
    /\ medium_stress_minutes r = lv_medium (stress_loop values)
    /\ high_stress_minutes r = lv_high (stress_loop values)
    /\ total_stress_minutes r = acc_total_stress_minutes (stress_loop values).
Proof.
  unfold get_stress_stats. intros H.
  rbind_inv H. rbind_inv H. rbind_inv H.
  apply stress_summary_buckets in H.
  destruct H as (H1 & H2 & H3 & H4 & H5 & H6).
  exists v1. rewrite H6. repeat split; assumption.
Qed.

Lemma count_levels_cons p value values :
  count_levels p (value :: values) =
  (match sample_level value with
   | Some s => if p s then 1 else 0
   | None => 0
   end) + count_levels p values.
Proof.
  unfold count_levels. cbn [filter].
  destruct (sample_level value) as [s|]; [destruct (p s)|];
    cbn [List.length]; lia.
Qed.

Lemma count_levels_nonneg p values : 0 <= count_levels p values.
Proof. unfold count_levels. lia. Qed.

Lemma count_levels_le_length p values :
  count_levels p values <= Z.of_nat (List.length values).
Proof.
  unfold count_levels. apply Nat2Z.inj_le, filter_length_le.
Qed.

Lemma count_levels_ext p q values :
  (forall value s, In value values -> sample_level value = Some s -> p s = q s) ->
  count_levels p values = count_levels q values.
Proof.
  induction values as [|v vs IH]; intros H; [reflexivity|].
  rewrite !count_levels_cons, IH by (intros; eapply H; [right|]; eassumption).
  destruct (sample_level v) as [s|] eqn:E; [|reflexivity].
  rewrite (H v s (or_introl eq_refl) E). reflexivity.
Qed.

Lemma lv_add_bucket b ob a :
  lv b (add_bucket ob a) =
  lv b a + match ob with
           | Some b' => if bucket_eqb b b' then duration_minutes else 0
           | None => 0
           end.
Proof. destruct ob as [[]|]; destruct b; simpl; lia. Qed.

Lemma lv_stress_step b a value :
  lv b (stress_step a value) =
  lv b a + match sample_level value with
           | Some s => if bucket_is b s then duration_minutes else 0
           | None => 0
           end.
Proof.
  unfold stress_step, bucket_is.
  destruct (sample_level value) as [s|]; [|lia].
  pose proof (lv_add_bucket b (stress_bucket s) a) as E.
  destruct (num_lt (NInt 0) s).
  - destruct b; simpl in *; rewrite E; destruct (stress_bucket s); reflexivity.
  - rewrite E. destruct (stress_bucket s); reflexivity.
Qed.

Lemma total_stress_step a value :
  acc_total_stress_minutes (stress_step a value) =
  acc_total_stress_minutes a
  + match sample_level value with
    | Some s => if num_lt (NInt 0) s then duration_minutes else 0
    | None => 0
    end.
Proof.
  unfold stress_step.
  destruct (sample_level value) as [s|]; [|lia].
  assert (E : acc_total_stress_minutes (add_bucket (stress_bucket s) a)
              = acc_total_stress_minutes a)
    by (destruct (stress_bucket s) as [[]|]; reflexivity).
  destruct (num_lt (NInt 0) s); simpl; rewrite E; lia.
Qed.

Lemma fold_stress_lv b values a :
  lv b (fold_left stress_step values a) =
  lv b a + duration_minutes * count_levels (bucket_is b) values.
Proof.
  revert a. induction values as [|v vs IH]; intros a; simpl fold_left.
  - unfold count_levels; simpl. lia.
  - rewrite IH, lv_stress_step, count_levels_cons.
    destruct (sample_level v) as [s|]; [destruct (bucket_is b s)|];
      unfold duration_minutes; lia.
Qed.

Lemma fold_stress_total values a :
  acc_total_stress_minutes (fold_left stress_step values a) =
  acc_total_stress_minutes a
  + duration_minutes * count_levels (num_lt (NInt 0)) values.
Proof.
  revert a. induction values as [|v vs IH]; intros a; simpl fold_left.
  - unfold count_levels; simpl. lia.
  - rewrite IH, total_stress_step, count_levels_cons.
    destruct (sample_level v) as [s|]; [destruct (num_lt (NInt 0) s)|];
      unfold duration_minutes; lia.
Qed.

Lemma stress_loop_lv b values :
  lv b (stress_loop values) = 3 * count_levels (bucket_is b) values.
Proof.
  unfold stress_loop. rewrite fold_stress_lv.
  destruct b; reflexivity.
Qed.

Lemma stress_loop_total values :
  acc_total_stress_minutes (stress_loop values)
  = 3 * count_levels (num_lt (NInt 0)) values.
Proof. unfold stress_loop. rewrite fold_stress_total. reflexivity. Qed.

(** Comparisons of an integer-valued level are comparisons of integers. *)
Lemma integral_cmp s :
  integral s = true ->
  exists z, (forall c, Qle_bool (inject_Z c) (num_q s) = (c <=? z))
         /\ (forall c, Qle_bool (num_q s) (inject_Z c) = (z <=? c)).
Proof.
  unfold integral. intros H. apply Qeq_bool_iff in H.
  exists (Qfloor (num_q s)). split; intros c.
  - destruct (c <=? Qfloor (num_q s)) eqn:E.
    + apply Qle_bool_iff. rewrite H. rewrite <- Zle_Qle. lia.
    + apply Qle_bool_false. rewrite H. rewrite <- Zlt_Qlt. lia.
  - destruct (Qfloor (num_q s) <=? c) eqn:E.
    + apply Qle_bool_iff. rewrite H. rewrite <- Zle_Qle. lia.
    + apply Qle_bool_false. rewrite H. rewrite <- Zlt_Qlt. lia.
Qed.

Ltac zbool :=
  repeat match goal with
         | |- context [?a <=? ?b] =>
             let E := fresh "E" in destruct (a <=? b) eqn:E;
             [apply Z.leb_le in E | apply Z.leb_gt in E]
         end.

(** On integer-valued levels the code's chain selects exactly the
    specification's inclusive ranges. *)
Lemma bucket_is_ranges s :
  integral s = true ->
  bucket_is Rest s = level_in 0 25 s
  /\ bucket_is Low s = level_in 26 50 s
  /\ bucket_is Medium s = level_in 51 75 s
  /\ bucket_is High s = level_from 76 s.
Proof.
  intros H. destruct (integral_cmp s H) as [z [Hl Hr]].
  unfold bucket_is, stress_bucket, level_in, level_from, num_le, num_lt, Qltb.
  change (num_q (NInt ?c)) with (inject_Z c).
  rewrite !Hl, !Hr.
  zbool; simpl; repeat split; try reflexivity; lia.
Qed.

(** The ranges partition the integer levels from 0 on. *)
Lemma ranges_partition s :
  integral s = true ->
  level_from 0 s = true ->
  (level_in 0 25 s = true /\ level_in 26 50 s = false
   /\ level_in 51 75 s = false /\ level_from 76 s = false)
  \/ (level_in 0 25 s = false /\ level_in 26 50 s = true
      /\ level_in 51 75 s = false /\ level_from 76 s = false)
  \/ (level_in 0 25 s = false /\ level_in 26 50 s = false
      /\ level_in 51 75 s = true /\ level_from 76 s = false)
  \/ (level_in 0 25 s = false /\ level_in 26 50 s = false
      /\ level_in 51 75 s = false /\ level_from 76 s = true).
Proof.
  intros H. destruct (integral_cmp s H) as [z [Hl Hr]].
  unfold level_in, level_from. rewrite !Hl, !Hr.
  zbool; simpl; intros; try discriminate; try lia; tauto.
Qed.

Lemma bucket_counts_sum values :
  count_levels (bucket_is Rest) values + count_levels (bucket_is Low) values
  + count_levels (bucket_is Medium) values + count_levels (bucket_is High) values
  = count_levels has_bucket values.
Proof.
  induction values as [|v vs IH]; [reflexivity|].
  rewrite !count_levels_cons.
  destruct (sample_level v) as [s|]; [|lia].
  assert (E : (if bucket_is Rest s then 1 else 0) + (if bucket_is Low s then 1 else 0)
              + (if bucket_is Medium s then 1 else 0)
              + (if bucket_is High s then 1 else 0)
              = if has_bucket s then 1 else 0).
  { unfold bucket_is, has_bucket.
    destruct (stress_bucket s) as [[]|]; reflexivity. }
  lia.
Qed.

Lemma count_levels_mono p q values :
  (forall value s, In value values -> sample_level value = Some s ->
                   p s = true -> q s = true) ->
  count_levels p values <= count_levels q values.
Proof.
  induction values as [|v vs IH]; intros H; [reflexivity|].
  rewrite !count_levels_cons.
  assert (IH' : count_levels p vs <= count_levels q vs)
    by (apply IH; intros; eapply H; [right|..]; eassumption).
  destruct (sample_level v) as [s|] eqn:E; [|lia].
  destruct (p s) eqn:Ep; [rewrite (H v s (or_introl eq_refl) E Ep)|destruct (q s)];
    lia.
Qed.

(** A positive integer-valued level always lands in a bucket. *)
Lemma positive_integral_has_bucket s :
  integral s = true -> num_lt (NInt 0) s = true -> has_bucket s = true.
Proof.
  intros H. destruct (integral_cmp s H) as [z [Hl Hr]].
  unfold has_bucket, stress_bucket, num_le, num_lt, Qltb.
  change (num_q (NInt ?c)) with (inject_Z c).
  rewrite !Hl, !Hr.
  zbool; simpl; intros; try reflexivity; try discriminate; lia.
Qed.

Lemma bucket_sum_loop raw r values :
  get_stress_stats raw = Ok r ->
  py_iter (hourly_stress r) = Ok values ->
  rest_minutes r = 3 * count_levels (bucket_is Rest) values
  /\ low_stress_minutes r = 3 * count_levels (bucket_is Low) values
  /\ medium_stress_minutes r = 3 * count_levels (bucket_is Medium) values
  /\ high_stress_minutes r = 3 * count_levels (bucket_is High) values
  /\ total_stress_minutes r = 3 * count_levels (num_lt (NInt 0)) values.
Proof.
  intros H Hv.
  destruct (get_stress_stats_loop raw r H) as (vs & Hvs & H1 & H2 & H3 & H4 & H5).
  rewrite Hv in Hvs. inversion Hvs; subst vs.
  rewrite H1, H2, H3, H4, H5.
  rewrite <- !stress_loop_total.
  rewrite <- (stress_loop_lv Rest), <- (stress_loop_lv Low),
    <- (stress_loop_lv Medium), <- (stress_loop_lv High).
  repeat split.
Qed.

(** C3 (as amended): for every payload [get_stress] answers, each of the
    four bucket totals and the monitored minutes are non-negative multiples
    of the 3-minute interval; the bucket sum and the monitored minutes are
    each at most 3 minutes per sample; and when the levels are integers the
    monitored minutes, which count only the samples with level > 0, are at
    most the bucket sum (not the other way round: a sample at level 0 is in
    the rest bucket and not in the monitored minutes). *)
Theorem stress_buckets_multiples_of_interval raw r values :
  get_stress_stats raw = Ok r ->
  py_iter (hourly_stress r) = Ok values ->
  mult3 (rest_minutes r) /\ mult3 (low_stress_minutes r)
  /\ mult3 (medium_stress_minutes r) /\ mult3 (high_stress_minutes r)
  /\ mult3 (total_stress_minutes r)
  /\ bucket_sum r <= 3 * Z.of_nat (List.length values)
  /\ total_stress_minutes r <= 3 * Z.of_nat (List.length values)
  /\ (forallb integral_sample values = true ->
      total_stress_minutes r <= bucket_sum r).
Proof.
  intros H Hv.
  destruct (bucket_sum_loop raw r values H Hv) as (H1 & H2 & H3 & H4 & H5).
  pose proof (bucket_counts_sum values) as Hs.
  pose proof (count_levels_le_length has_bucket values) as Hb.
  pose proof (count_levels_le_length (num_lt (NInt 0)) values) as Ht.
  unfold bucket_sum. rewrite H1, H2, H3, H4, H5.
  repeat split;
    try (eexists; split; [apply count_levels_nonneg | reflexivity]);
    try lia.
  intros Hint.
  assert (count_levels (num_lt (NInt 0)) values <= count_levels has_bucket values).
  { apply count_levels_mono. intros value s Hin Hs' Hp.
    apply positive_integral_has_bucket; [|exact Hp].
    rewrite forallb_forall in Hint. specialize (Hint value Hin).
    unfold integral_sample in Hint. rewrite Hs' in Hint. exact Hint. }
  lia.
Qed.

Lemma stress_buckets_multiples_of_interval_witness :
  get_stress_stats (stress_payload four_samples) = Ok four_samples_stats
  /\ py_iter (hourly_stress four_samples_stats) = Ok four_samples
  /\ mult3 (rest_minutes four_samples_stats)
  /\ bucket_sum four_samples_stats <= 3 * 4
  /\ total_stress_minutes four_samples_stats <= bucket_sum four_samples_stats.
Proof.
  assert (H1 : get_stress_stats (stress_payload four_samples)
               = Ok four_samples_stats) by reflexivity.
  assert (H2 : py_iter (hourly_stress four_samples_stats) = Ok four_samples)
    by reflexivity.
  destruct (stress_buckets_multiples_of_interval _ _ _ H1 H2)
    as (M & _ & _ & _ & _ & B & _ & I).
  repeat split; [exact M | exact B | apply I; reflexivity].
Defined.

(** C3, as stated, fails: one sample at level 0 gives a bucket sum of 3
    against 0 monitored minutes. *)
Lemma stress_bucket_sum_exceeds_monitored :
  exists r, get_stress_stats (stress_payload zero_sample) = Ok r
    /\ ~ (bucket_sum r <= total_stress_minutes r).
Proof.
  eexists. split; [reflexivity|]. vm_compute. intros H. apply H. reflexivity.
Qed.

Lemma ranges_below_zero s :
  integral s = true ->
  level_from 0 s = false ->
  level_in 0 25 s = false /\ level_in 26 50 s = false
  /\ level_in 51 75 s = false /\ level_from 76 s = false.
Proof.
  intros H. destruct (integral_cmp s H) as [z [Hl Hr]].
  unfold level_in, level_from. rewrite !Hl, !Hr.
  zbool; simpl; intros; try discriminate; try lia; tauto.
Qed.

Lemma range_counts_sum values :
  forallb integral_sample values = true ->
  count_levels (level_in 0 25) values + count_levels (level_in 26 50) values
  + count_levels (level_in 51 75) values + count_levels (level_from 76) values
  = count_levels (level_from 0) values.
Proof.
  induction values as [|v vs IH]; [reflexivity|].
  cbn [forallb]. rewrite andb_true_iff. intros [Hv Hvs].
  specialize (IH Hvs). rewrite !count_levels_cons.
  unfold integral_sample in Hv.
  destruct (sample_level v) as [s|]; [|lia].
  destruct (level_from 0 s) eqn:E0.
  - destruct (ranges_partition s Hv E0)
      as [(-> & -> & -> & ->)|[(-> & -> & -> & ->)|[(-> & -> & -> & ->)|(-> & -> & -> & ->)]]];
      lia.
  - destruct (ranges_below_zero s Hv E0) as (-> & -> & -> & ->). lia.
Qed.

(** C4 (as amended): when every level is an integer, each bucket total is 3
    minutes times the number of samples in its inclusive range, rest [0,25],
    low [26,50], medium [51,75], high [76,oo), and the four totals add up to
    3 minutes times the number of samples with level >= 0: every such
    sample is counted in exactly one bucket.  (A pair whose level is not a
    number counts as level 0.) *)
Theorem stress_buckets_partition_integer_levels raw r values :
  get_stress_stats raw = Ok r ->
  py_iter (hourly_stress r) = Ok values ->
  forallb integral_sample values = true ->
  rest_minutes r = 3 * count_levels (level_in 0 25) values
  /\ low_stress_minutes r = 3 * count_levels (level_in 26 50) values
  /\ medium_stress_minutes r = 3 * count_levels (level_in 51 75) values
  /\ high_stress_minutes r = 3 * count_levels (level_from 76) values
  /\ bucket_sum r = 3 * count_levels (level_from 0) values.
Proof.
  intros H Hv Hint.
  destruct (bucket_sum_loop raw r values H Hv) as (H1 & H2 & H3 & H4 & _).
  assert (Hext : forall b p,
             (forall s, integral s = true -> bucket_is b s = p s) ->
             count_levels (bucket_is b) values = count_levels p values).
  { intros b p Hp. apply count_levels_ext. intros value s Hin Hs.
    apply Hp. rewrite forallb_forall in Hint. specialize (Hint value Hin).
    unfold integral_sample in Hint. rewrite Hs in Hint. exact Hint. }
  rewrite (Hext Rest (level_in 0 25)) in H1
    by (intros s Hs; apply (bucket_is_ranges s Hs)).
  rewrite (Hext Low (level_in 26 50)) in H2
    by (intros s Hs; apply (bucket_is_ranges s Hs)).
  rewrite (Hext Medium (level_in 51 75)) in H3
    by (intros s Hs; apply (bucket_is_ranges s Hs)).
  rewrite (Hext High (level_from 76)) in H4
    by (intros s Hs; apply (bucket_is_ranges s Hs)).
  pose proof (range_counts_sum values Hint) as Hs.
  unfold bucket_sum. repeat split; try assumption. lia.
Qed.

Lemma stress_buckets_partition_integer_levels_witness :
  get_stress_stats (stress_payload four_samples) = Ok four_samples_stats
  /\ py_iter (hourly_stress four_samples_stats) = Ok four_samples
  /\ forallb integral_sample four_samples = true
  /\ rest_minutes four_samples_stats = 3 * count_levels (level_in 0 25) four_samples
  /\ bucket_sum four_samples_stats = 3 * count_levels (level_from 0) four_samples.
Proof.
  assert (H1 : get_stress_stats (stress_payload four_samples)
               = Ok four_samples_stats) by reflexivity.
  assert (H2 : py_iter (hourly_stress four_samples_stats) = Ok four_samples)
    by reflexivity.
  assert (H3 : forallb integral_sample four_samples = true) by reflexivity.
  destruct (stress_buckets_partition_integer_levels _ _ _ H1 H2 H3)
    as (R & _ & _ & _ & S).
  repeat split; assumption.
Defined.

(** C4, as stated, fails: a sample at level 25.5 has level >= 0 and is
    counted in none of the four buckets. *)
Lemma stress_level_between_ranges_unbucketed :
  exists r, get_stress_stats (stress_payload gap_sample) = Ok r
    /\ count_levels (level_from 0) gap_sample = 1
    /\ bucket_sum r = 0.
Proof. eexists. repeat split. Qed.

(** Entries the loop skips leave the accumulator alone. *)
Lemma fold_stress_skipped values a :
  forallb skipped values = true -> fold_left stress_step values a = a.
Proof.
  induction values as [|v vs IH]; [reflexivity|].
  cbn [forallb fold_left]. rewrite andb_true_iff. intros [Hv Hvs].
  unfold stress_step at 2. unfold skipped in Hv.
  destruct (sample_level v); [discriminate|]. apply IH, Hvs.
Qed.

(** C5 (as amended): when the sample array is a list that is empty or holds
    only entries that are not lists of at least two elements, and the
    payload carries no average of its own (and no maximum, or a numeric
    one), [get_stress] answers 200 with the four bucket totals, the monitored
    minutes and the average all zero.  (A pair with a level that is not a
    number is not skipped: it counts as level 0.) *)
Theorem stress_skipped_entries_all_zero raw d values max_api :
  get_stress_data raw = Ok (JDict d) ->
  py_get_default (JDict d) "stressValuesArray" (JList []) = Ok (JList values) ->
  forallb skipped values = true ->
  py_get (JDict d) "avgStressLevel" = Ok JNull ->
  py_get (JDict d) "maxStressLevel" = Ok max_api ->
  is_none max_api || is_number max_api = true ->
  exists r, get_stress_stats raw = Ok r
    /\ rest_minutes r = 0 /\ low_stress_minutes r = 0
    /\ medium_stress_minutes r = 0 /\ high_stress_minutes r = 0
    /\ total_stress_minutes r = 0 /\ average_stress r = JInt 0
    /\ get_stress_status (Ok raw) = 200.
Proof.
  intros Hd Hv Hs Ha Hm Hn.
  assert (E : exists mx, get_stress_stats raw
                = Ok (mkStressStats 0 0 0 0 (JInt 0) mx 0 (JList values))).
  { unfold get_stress_stats. rewrite Hd. cbn [rbind]. rewrite Hv. cbn [rbind py_iter].
    unfold stress_loop. rewrite (fold_stress_skipped values _ Hs).
    unfold stress_summary, stress_resolve. rewrite Ha, Hm. cbn.
    destruct max_api; try discriminate; cbn; eexists; reflexivity. }
  destruct E as [mx E]. eexists. split; [exact E|].
  cbn. repeat split. unfold get_stress_status. cbn [rbind]. rewrite E. reflexivity.
Qed.

Lemma stress_skipped_entries_all_zero_witness :
  exists r, get_stress_stats (stress_payload malformed_entries) = Ok r
    /\ rest_minutes r = 0 /\ low_stress_minutes r = 0
    /\ medium_stress_minutes r = 0 /\ high_stress_minutes r = 0
    /\ total_stress_minutes r = 0 /\ average_stress r = JInt 0
    /\ get_stress_status (Ok (stress_payload malformed_entries)) = 200.
Proof.
  apply (stress_skipped_entries_all_zero (stress_payload malformed_entries)
           [("stressValuesArray", JList malformed_entries)]
           malformed_entries JNull);
    reflexivity.
Defined.

(** C5, as stated, fails: a pair whose level is [null] is not a
    [timestamp, numeric-level] pair, and adds 3 minutes to the rest bucket. *)
Lemma stress_null_level_counts_as_rest :
  exists r, get_stress_stats (stress_payload null_level_sample) = Ok r
    /\ rest_minutes r = 3.
Proof. eexists. repeat split. Qed.

(** ** The floors aggregate *)

Lemma num_q_add x y : (num_q (num_add x y) == num_q x + num_q y)%Q.
Proof.
  unfold num_add, num_arith.
  destruct (num_int x) as [a|] eqn:Ex; [destruct (num_int y) as [b|] eqn:Ey|].
  - assert (Hx : num_q x = inject_Z a)
      by (destruct x; try discriminate; inversion Ex; reflexivity).
    assert (Hy : num_q y = inject_Z b)
      by (destruct y; try discriminate; inversion Ey; reflexivity).
    rewrite Hx, Hy. cbn [num_q]. rewrite inject_Z_plus. reflexivity.
  - cbn [num_q]. apply Qred_correct.
  - cbn [num_q]. apply Qred_correct.
Qed.

Lemma fold_floors_step_sum entries t :
  (num_q (fold_left floors_step entries t) == num_q t + floors_sum entries)%Q.
Proof.
  revert t. induction entries as [|e es IH]; intros t; simpl fold_left.
  - unfold floors_sum; simpl. ring.
  - rewrite IH. unfold floors_step, floors_sum, ascended_values.
    cbn [flat_map]. fold (ascended_values es).
    destruct (floors_ascended e) as [f|]; cbn [app fold_right].
    + rewrite num_q_add. ring.
    + reflexivity.
Qed.

Lemma total_floors_sum entries :
  (num_q (total_floors entries) == floors_sum entries)%Q.
Proof.
  unfold total_floors. rewrite fold_floors_step_sum. simpl. ring.
Qed.

(** The aggregate of [get_health_metrics] and of the sync: absent when the
    sum over the well-formed entries is 0, the sum when it is positive. *)
Lemma floors_climbed_zero_is_absent d e es :
  py_get_default (JDict d) "floorValuesArray" (JList []) = Ok (JList (e :: es)) ->
  ((floors_sum (e :: es) == 0)%Q -> floors_climbed (JDict d) = JNull)
  /\ ((0 < floors_sum (e :: es))%Q ->
      exists total, floors_climbed (JDict d) = of_num total
                    /\ (num_q total == floors_sum (e :: es))%Q).
Proof.
  intros H.
  assert (Hd : truthy (JDict d) = true).
  { destruct d; [discriminate H | reflexivity]. }
  unfold floors_climbed. rewrite Hd. cbn [andb is_dict]. rewrite H.
  unfold positive_or_none, num_lt.
  pose proof (total_floors_sum (e :: es)) as Hs.
  split; intros Hq.
  - destruct (Qltb (num_q (NInt 0)) (num_q (total_floors (e :: es)))) eqn:E;
      [|reflexivity].
    apply Qltb_lt in E. rewrite Hs, Hq in E. discriminate E.
  - assert (E : Qltb (num_q (NInt 0)) (num_q (total_floors (e :: es))) = true)
      by (apply Qltb_lt; rewrite Hs; exact Hq).
    rewrite E. eexists. split; [reflexivity | exact Hs].
Qed.

Example floors_climbed_five :
  floors_climbed (floors_payload floors_five) = JInt 5.
Proof. reflexivity. Qed.

Example floors_climbed_zero :
  floors_climbed (floors_payload floors_zero) = JNull.
Proof. reflexivity. Qed.

(** C6: [get_all_data] sums the same array without the test of the sum, and
    reports 0 where the other paths report an absent value. *)
Lemma all_data_floors_zero_not_absent :
  (floors_sum floors_zero == 0)%Q
  /\ all_data_floors_climbed (floors_payload floors_zero) = Ok (JInt 0)
  /\ floors_climbed (floors_payload floors_zero) = JNull
  /\ live_floors_climbed (floors_payload floors_zero) = Ok JNull.
Proof. repeat split. Qed.

(** ** Columns and assignments *)

Lemma assoc_set_key_same c v cols : assoc c (set_key c v cols) = Some v.
Proof.
  induction cols as [|[c' v'] cols IH]; simpl.
  - rewrite String.eqb_refl. reflexivity.
  - destruct (String.eqb c c') eqn:E; simpl; rewrite ?String.eqb_refl, ?E; auto.
Qed.

Lemma assoc_set_key_other c c' v cols :
  c <> c' -> assoc c (set_key c' v cols) = assoc c cols.
Proof.
  intros Hne. apply String.eqb_neq in Hne.
  induction cols as [|[c'' v''] cols IH]; simpl.
  - rewrite Hne. reflexivity.
  - destruct (String.eqb c' c'') eqn:E; simpl.
    + apply String.eqb_eq in E. subst c''. rewrite Hne. reflexivity.
    + destruct (String.eqb c c''); auto.
Qed.

Lemma col_set_one_same c v r : col c (set_cols [(c, v)] r) = v.
Proof. unfold col, set_cols. simpl. rewrite assoc_set_key_same. reflexivity. Qed.

Lemma col_set_one_other c c' v r :
  c <> c' -> col c (set_cols [(c', v)] r) = col c r.
Proof.
  intros Hne. unfold col, set_cols. simpl.
  rewrite assoc_set_key_other by exact Hne. reflexivity.
Qed.

(** Assignments leave the columns they do not name alone. *)
Lemma assign_cols_other c cols r :
  ~ In c (map fst cols) -> col c (fst (assign_cols cols r)) = col c r.
Proof.
  revert r. induction cols as [|[c' [v|e]] cols IH]; intros r Hn; simpl.
  - reflexivity.
  - rewrite IH by (intros Hin; apply Hn; right; exact Hin).
    apply col_set_one_other. intros ->. apply Hn. left. reflexivity.
  - reflexivity.
Qed.

Lemma assign_cols_ok_cons c v cols r :
  assign_cols ((c, Ok v) :: cols) r = assign_cols cols (set_cols [(c, v)] r).
Proof. reflexivity. Qed.

Lemma eval_cols_evaluated cols cs :
  eval_cols cols = Ok cs -> cols = evaluated cs.
Proof.
  revert cs. induction cols as [|[c [v|e]] cols IH]; intros cs H; simpl in H.
  - inversion H. reflexivity.
  - rbind_inv H. inversion H; subst. simpl. rewrite (IH _ Hv). reflexivity.
  - discriminate.
Qed.

Lemma eval_cols_of_evaluated cs : eval_cols (evaluated cs) = Ok cs.
Proof.
  induction cs as [|[c v] cs IH]; [reflexivity|].
  unfold evaluated in *. cbn [map eval_cols fst snd]. rewrite IH. reflexivity.
Qed.

(** ** Sleep duration *)

Lemma sleep_time_minutes_int n :
  n <> 0 -> sleep_time_minutes (JInt n) = Ok (JInt (n / 60)).
Proof.
  intros Hn. unfold sleep_time_minutes. simpl.
  apply Z.eqb_neq in Hn. rewrite Hn. reflexivity.
Qed.

(** C9 (as amended): on both paths that write a sleep row, when the
    duration in seconds that is written is a non-zero integer, the duration
    in minutes written with it is that integer divided by 60, rounded down.
    (A duration of 0 seconds is written with an absent duration in
    minutes.) *)
Theorem sleep_minutes_integer_division target_date sleep_data n :
  n <> 0 ->
  (forall cs,
      get_sleep_cols target_date sleep_data = Ok cs ->
      assoc "sleep_duration_seconds" cs = Some (JInt n) ->
      assoc "sleep_duration_minutes" cs = Some (JInt (n / 60)))
  /\ (forall score minutes cols,
         sync_sleep_resolve sleep_data = Ok (score, minutes, cols) ->
         (forall cs,
             eval_cols cols = Ok cs ->
             assoc "sleep_duration_seconds" cs = Some (JInt n) ->
             assoc "sleep_duration_minutes" cs = Some (JInt (n / 60)))
         /\ (forall r,
                col "sleep_duration_seconds" (fst (assign_cols cols r)) = JInt n ->
                col "sleep_duration_minutes" (fst (assign_cols cols r))
                = JInt (n / 60))).
Proof.
  intros Hn. split.
  - intros cs H Hs. unfold get_sleep_cols in H.
    repeat rbind_inv H. inversion H; subst cs; clear H.
    simpl in Hs. inversion Hs; subst. simpl.
    rewrite sleep_time_minutes_int in Hv2 by exact Hn.
    inversion Hv2; subst. reflexivity.
  - intros score minutes cols H. unfold sync_sleep_resolve in H.
    repeat rbind_inv H. inversion H; subst; clear H.
    unfold sync_sleep_cols. split.
    + intros cs He Hs. apply eval_cols_evaluated in He.
      destruct cs as [|[c1 x1] [|[c2 x2] [|[c3 x3] cs]]]; try discriminate He.
      inversion He; subst. simpl in Hs. inversion Hs; subst.
      rewrite sleep_time_minutes_int in Hv2 by exact Hn.
      inversion Hv2; subst. reflexivity.
    + intros r. rewrite !assign_cols_ok_cons.
      match goal with
      | |- context [assign_cols ?l ?r0] => set (rest := l); set (r3 := r0)
      end.
      assert (Hsec : col "sleep_duration_seconds" (fst (assign_cols rest r3)) = v1).
      { rewrite assign_cols_other.
        - unfold r3. rewrite col_set_one_other by discriminate.
          apply col_set_one_same.
        - simpl. intuition discriminate. }
      assert (Hmin : col "sleep_duration_minutes" (fst (assign_cols rest r3))
                     = minutes).
      { rewrite assign_cols_other.
        - unfold r3. apply col_set_one_same.
        - simpl. intuition discriminate. }
      rewrite Hsec, Hmin. intros E. rewrite E in Hv2.
      rewrite sleep_time_minutes_int in Hv2 by exact Hn.
      congruence.
Qed.

Lemma sleep_minutes_integer_division_witness :
  27000 <> 0
  /\ exists cs,
      get_sleep_cols jan15 sleep_seven_and_a_half_hours = Ok cs
      /\ assoc "sleep_duration_seconds" cs = Some (JInt 27000)
      /\ assoc "sleep_duration_minutes" cs = Some (JInt 450).
Proof.
  assert (Hn : 27000 <> 0) by lia.
  split; [exact Hn|].
  eexists. split; [reflexivity|]. split; [reflexivity|].
  apply (proj1 (sleep_minutes_integer_division jan15
                  sleep_seven_and_a_half_hours 27000 Hn));
    reflexivity.
Defined.

(** C9, as stated, fails: [get_sleep] stores a duration of 0 seconds, which
    is present, with an absent duration in minutes, not with 0 // 60 = 0;
    the sync does the same. *)
Lemma sleep_zero_seconds_minutes_absent :
  let s := fst (get_sleep (garmin_sleep sleep_zero_seconds) someone jan15
                  (open_session empty_db)) in
  exists r,
    committed s SleepData = [r]
    /\ col "sleep_duration_seconds" r = JInt 0
    /\ col "sleep_duration_minutes" r = JNull
    /\ col "sleep_duration_minutes" r <> JInt (0 / 60)
    /\ exists score cols,
        sync_sleep_resolve sleep_zero_seconds = Ok (score, JNull, cols).
Proof.
  eexists. repeat split; try reflexivity.
  - discriminate.
  - eexists. eexists. reflexivity.
Qed.

(** ** The database read endpoint *)

Section DbReadProps.
Context {S : Type} `{Storage S}.
Variable strptime_date : string -> option date.

(** The answer does not depend on the headers at all. *)
Lemma get_db_data_ignores_headers data_type a h1 h2 s :
  get_db_data strptime_date data_type (mkRequest a h1) s
  = get_db_data strptime_date data_type (mkRequest a h2) s.
Proof. reflexivity. Qed.

(** C10: [get_db_data] checks no credential.  For a known data type, an
    email and a date, the answer is a function of the query parameters and
    of what the query finds: two requests with the same parameters get the
    same answer whatever their headers, and the stored record of any user
    (for activities, the stored records) is returned with status 200 to a
    request carrying any headers, or none. *)
Theorem get_db_data_unauthenticated data_type model a email date_str date_obj s :
  lookup "email" a = Some email -> email <> "" ->
  lookup "date" a = Some date_str -> date_str <> "" ->
  strptime_date date_str = Some date_obj ->
  data_type_map (lower data_type) = Some model ->
  (forall h1 h2,
      get_db_data strptime_date data_type (mkRequest a h1) s
      = get_db_data strptime_date data_type (mkRequest a h2) s)
  /\ (forall s' record,
         model <> ActivityData ->
         query_first model email date_obj s = (s', Ok (Some record)) ->
         forall h,
           get_db_data strptime_date data_type (mkRequest a h) s
           = (s', mkResponse
                    (JDict [("date", JStr date_str); ("email", JStr email);
                            ("data_type", JStr data_type);
                            ("data", to_dict model record);
                            ("source", JStr "database")]) 200))
  /\ (forall s' record records,
         model = ActivityData ->
         query_all model email date_obj s = (s', Ok (record :: records)) ->
         forall h,
           get_db_data strptime_date data_type (mkRequest a h) s
           = (s', mkResponse
                    (JDict [("date", JStr date_str); ("email", JStr email);
                            ("data_type", JStr data_type);
                            ("data",
                             JList (map (to_dict model) (record :: records)));
                            ("source", JStr "database")]) 200)).
Proof.
  intros He Hne Hd Hnd Hp Hm. split; [reflexivity|].
  destruct email as [|c email]; [contradiction Hne; reflexivity|].
  destruct date_str as [|c' date_str]; [contradiction Hnd; reflexivity|].
  split.
  - intros s' record Ha Hq h. unfold get_db_data. cbn [args].
    rewrite He, Hd, Hp, Hm.
    assert (Ht : truthy (to_dict model record) = true) by reflexivity.
    destruct model; try (contradiction Ha; reflexivity);
      rewrite Hq; rewrite Ht; reflexivity.
  - intros s' record records Ha Hq h. subst model. unfold get_db_data.
    cbn [args]. rewrite He, Hd, Hp, Hm, Hq. reflexivity.
Qed.
End DbReadProps.

Lemma get_db_data_unauthenticated_witness :
  let a := [("email", someone); ("date", "2026-01-15")] in
  require_auth (mkRequest a []) = Some 401
  /\ forall h,
      get_db_data parse_iso_date "heartrate" (mkRequest a h) (open_session hr_db)
      = (open_session hr_db,
         mkResponse
           (JDict [("date", JStr "2026-01-15"); ("email", JStr someone);
                   ("data_type", JStr "heartrate");
                   ("data", to_dict HeartRateData hr_row);
                   ("source", JStr "database")]) 200).
Proof.
  split; [reflexivity|].
  apply (proj1 (proj2 (get_db_data_unauthenticated parse_iso_date
           "heartrate" HeartRateData
           [("email", someone); ("date", "2026-01-15")]
           someone "2026-01-15" jan15 (open_session hr_db)
           eq_refl ltac:(discriminate) eq_refl ltac:(discriminate)
           eq_refl eq_refl)));
    [discriminate | reflexivity].
Defined.

(** ** The running goal *)






Lemma days_elapsed_is_day today :
  days_between today (replace_day_1 today) + 1 = day today.
Proof. unfold days_between, toordinal, replace_day_1. simpl. lia. Qed.





Lemma Ok_inj {A} (a b : A) : Ok a = Ok b -> a = b.
Proof. intros H. injection H. auto. Qed.

Lemma Some_inj {A} (a b : A) : Some a = Some b -> a = b.
Proof. intros H. injection H. auto. Qed.










(** ** Isolation of the sync's blocks *)

Lemma status_of_set_same family st d :
  status_of family (status_set family st d) = Some st.
Proof.
  induction d as [|[f st'] d IH]; simpl.
  - rewrite String.eqb_refl. reflexivity.
  - destruct (String.eqb family f) eqn:E; simpl; rewrite ?String.eqb_refl, ?E; auto.
Qed.

Lemma status_of_set_other family own st d :
  family <> own -> status_of family (status_set own st d) = status_of family d.
Proof.
  intros Hne. apply String.eqb_neq in Hne.
  induction d as [|[f st'] d IH]; simpl.
  - rewrite Hne. reflexivity.
  - destruct (String.eqb own f) eqn:E; simpl.
    + apply String.eqb_eq in E. subst f. rewrite Hne. reflexivity.
    + destruct (String.eqb family f); auto.
Qed.

Section Isolation.
Context {S : Type} `{Storage S}.
Variable py_str : json -> string.
Variable parse_start_time : json -> json.
Variable strptime_date : string -> option date.

Lemma keeps_sret {A} (P : world S -> Prop) (a : A) : keeps P (sret a).
Proof. intros w Hw. exact Hw. Qed.

Lemma keeps_lift {A} (P : world S -> Prop) (r : result A) : keeps P (lift r).
Proof. intros w Hw. exact Hw. Qed.

Lemma keeps_bind {A B} (P : world S -> Prop) (c : SR (world S) A)
  (k : A -> SR (world S) B) :
  keeps P c -> (forall a, keeps P (k a)) -> keeps P (sbind c k).
Proof.
  intros Hc Hk w Hw. unfold sbind. specialize (Hc w Hw).
  destruct (c w) as [w1 [a|e]]; simpl in *; [apply Hk; exact Hc | exact Hc].
Qed.

Lemma keeps_try {A} (P : world S -> Prop) (body : SR (world S) A)
  (handler : exn -> SR (world S) A) :
  keeps P body -> (forall e, keeps P (handler e)) ->
  keeps P (try_except body handler).
Proof.
  intros Hb Hh w Hw. unfold try_except. specialize (Hb w Hw).
  destruct (body w) as [w1 [a|e]]; simpl in *; [exact Hb | apply Hh; exact Hb].
Qed.

Lemma keeps_for_fold {A B} (P : world S -> Prop) (xs : list A)
  (body : B -> A -> SR (world S) B) :
  (forall acc x, keeps P (body acc x)) ->
  forall acc, keeps P (for_fold xs acc body).
Proof.
  intros Hb. induction xs as [|x xs IH]; intros acc; simpl.
  - apply keeps_sret.
  - apply keeps_bind; [apply Hb | intros; apply IH].
Qed.

Lemma keeps_on_session {A} family x (c : SR S A) :
  keeps (has_status family x) (on_session c).
Proof.
  intros w Hw. unfold on_session. destruct (c (sess w)) as [s' r]. exact Hw.
Qed.

Lemma keeps_set_summary family x k v :
  keeps (has_status family x) (set_summary (S := S) k v).
Proof. intros w Hw. exact Hw. Qed.

Lemma keeps_set_status_other family x own st :
  family <> own -> keeps (has_status family x) (set_status (S := S) own st).
Proof.
  intros Hne w Hw. unfold has_status in *. simpl.
  rewrite status_of_set_other by exact Hne. exact Hw.
Qed.

Lemma reports_bind {A B} own (c : SR (world S) A) (k : A -> SR (world S) B) :
  (forall a, reports own (k a)) -> reports own (sbind c k).
Proof.
  intros Hk w w' b Hr. unfold sbind in Hr.
  destruct (c w) as [w1 [a|e]]; [|discriminate].
  exact (Hk a w1 w' b Hr).
Qed.

Lemma reports_set_status own st :
  st = Success \/ st = NoData -> reports own (set_status (S := S) own st).
Proof.
  intros Hst w w' a Hr. inversion Hr; subst. unfold has_status. simpl.
  rewrite status_of_set_same. destruct Hst as [-> | ->]; auto.
Qed.

Lemma reports_set_status_then {B} own st (rest : SR (world S) B) :
  st = Success \/ st = NoData ->
  keeps (has_status own (Some st)) rest ->
  reports own (sbind (set_status own st) (fun _ => rest)).
Proof.
  intros Hst Hk w w' b Hr. unfold sbind, set_status, modify in Hr.
  match type of Hr with
  | rest ?w1 = _ =>
      assert (H1 : has_status own (Some st) w1)
        by (unfold has_status; simpl; apply status_of_set_same);
      specialize (Hk w1 H1); rewrite Hr in Hk; simpl in Hk
  end.
  destruct Hst as [-> | ->]; auto.
Qed.

Ltac frame :=
  repeat first
    [ apply keeps_sret
    | apply keeps_lift
    | apply keeps_on_session
    | apply keeps_set_summary
    | apply keeps_set_status_other; assumption
    | apply keeps_bind; [|intros]
    | apply keeps_try; [|intros]
    | apply keeps_for_fold; intros
    | match goal with
      | |- keeps _ (if ?b then _ else _) => destruct b
      | |- keeps _ (match ?x with _ => _ end) => destruct x
      end ].

Lemma steps_body_frame g email d : touches_only "steps" (steps_body g email d).
Proof. intros family x Hne. unfold steps_body. frame. Qed.

Lemma heart_rate_body_frame g email d :
  touches_only "heart_rate" (heart_rate_body g email d).
Proof. intros family x Hne. unfold heart_rate_body. frame. Qed.

Lemma sleep_body_frame g email d : touches_only "sleep" (sleep_body g email d).
Proof. intros family x Hne. unfold sleep_body. frame. Qed.

Lemma stress_body_frame g email d : touches_only "stress" (stress_body g email d).
Proof. intros family x Hne. unfold stress_body. frame. Qed.

Lemma body_battery_body_frame g email d :
  touches_only "body_battery" (body_battery_body g email d).
Proof. intros family x Hne. unfold body_battery_body. frame. Qed.

Lemma activities_body_frame g email d :
  touches_only "activities" (activities_body py_str parse_start_time g email d).
Proof.
  intros family x Hne. unfold activities_body, activity_turn. frame.
Qed.

Lemma health_metrics_body_frame g email d :
  touches_only "health_metrics" (health_metrics_body g email d).
Proof. intros family x Hne. unfold health_metrics_body. frame. Qed.

Ltac report :=
  repeat first
    [ apply reports_set_status_then; [auto | frame]
    | apply reports_set_status; auto
    | apply reports_bind; intros
    | match goal with
      | |- reports _ (if ?b then _ else _) => destruct b
      | |- reports _ (match ?x with _ => _ end) => destruct x
      end ].

Lemma steps_body_reports g email d : reports "steps" (steps_body g email d).
Proof. unfold steps_body. report. Qed.

Lemma heart_rate_body_reports g email d :
  reports "heart_rate" (heart_rate_body g email d).
Proof. unfold heart_rate_body. report. Qed.

Lemma sleep_body_reports g email d : reports "sleep" (sleep_body g email d).
Proof. unfold sleep_body. report. Qed.

Lemma stress_body_reports g email d : reports "stress" (stress_body g email d).
Proof. unfold stress_body. report. Qed.

Lemma body_battery_body_reports g email d :
  reports "body_battery" (body_battery_body g email d).
Proof. unfold body_battery_body. report. Qed.

Lemma activities_body_reports g email d :
  reports "activities" (activities_body py_str parse_start_time g email d).
Proof. unfold activities_body. report. Qed.

Lemma health_metrics_body_reports g email d :
  reports "health_metrics" (health_metrics_body g email d).
Proof. unfold health_metrics_body. report. Qed.

Lemma blocks_names g email d :
  map fst (blocks py_str parse_start_time g email d) = families.
Proof. reflexivity. Qed.

Lemma families_nodup : NoDup families.
Proof.
  unfold families.
  repeat (constructor; [simpl; intuition discriminate|]). constructor.
Qed.

Lemma blocks_frame g email d :
  Forall (fun b => touches_only (fst b) (snd b))
    (blocks py_str parse_start_time g email d).
Proof.
  unfold blocks.
  repeat (apply Forall_cons;
          [cbn [fst snd];
           auto using steps_body_frame, heart_rate_body_frame, sleep_body_frame,
             stress_body_frame, body_battery_body_frame, activities_body_frame,
             health_metrics_body_frame|]).
  apply Forall_nil.
Qed.

Lemma blocks_report g email d :
  Forall (fun b => reports (fst b) (snd b))
    (blocks py_str parse_start_time g email d).
Proof.
  unfold blocks.
  repeat (apply Forall_cons;
          [cbn [fst snd];
           auto using steps_body_reports, heart_rate_body_reports,
             sleep_body_reports, stress_body_reports, body_battery_body_reports,
             activities_body_reports, health_metrics_body_reports|]).
  apply Forall_nil.
Qed.

(** A block never raises: its handler catches everything. *)
Lemma family_block_returns family (body : SR (world S) unit) w :
  snd (family_block family body w) = Ok tt.
Proof.
  unfold family_block, try_except.
  destruct (body w) as [w1 [[]|e]]; reflexivity.
Qed.

Lemma run_blocks_cons b (bs : list (string * SR (world S) unit)) w :
  run_blocks (b :: bs) w
  = run_blocks bs (fst (family_block (fst b) (snd b) w)).
Proof.
  unfold run_blocks. cbn [for_each]. unfold sbind.
  pose proof (family_block_returns (fst b) (snd b) w) as Hr.
  destruct (family_block (fst b) (snd b) w) as [w1 r]. simpl in Hr. subst r.
  reflexivity.
Qed.

Lemma run_blocks_returns (bs : list (string * SR (world S) unit)) w :
  snd (run_blocks bs w) = Ok tt.
Proof.
  revert w. induction bs as [|b bs IH]; intros w; [reflexivity|].
  rewrite run_blocks_cons. apply IH.
Qed.

Lemma run_blocks_app (pre post : list (string * SR (world S) unit)) w :
  fst (run_blocks (pre ++ post) w)
  = fst (run_blocks post (fst (run_blocks pre w))).
Proof.
  revert w. induction pre as [|b pre IH]; intros w; [reflexivity|].
  rewrite <- app_comm_cons, !run_blocks_cons. apply IH.
Qed.

Lemma family_block_keeps family x own (body : SR (world S) unit) :
  family <> own -> touches_only own body ->
  keeps (has_status family x) (family_block own body).
Proof.
  intros Hne Hb. unfold family_block. apply keeps_try.
  - apply Hb. exact Hne.
  - intros e. apply keeps_set_status_other. exact Hne.
Qed.

Lemma run_blocks_keeps family x (bs : list (string * SR (world S) unit)) :
  Forall (fun b => touches_only (fst b) (snd b)) bs ->
  ~ In family (map fst bs) ->
  keeps (has_status family x) (run_blocks bs).
Proof.
  induction bs as [|b bs IH]; intros Hf Hn w Hw; [exact Hw|].
  rewrite run_blocks_cons. inversion Hf; subst.
  apply IH; [assumption | intros Hin; apply Hn; right; exact Hin |].
  apply family_block_keeps; [|assumption|exact Hw].
  intros ->. apply Hn. left. reflexivity.
Qed.

(** The status a block leaves is the status the run ends with, and it says
    how the block's own body ended. *)
Lemma run_blocks_status (bs pre post : list (string * SR (world S) unit))
  family body w :
  Forall (fun b => touches_only (fst b) (snd b)) bs ->
  Forall (fun b => reports (fst b) (snd b)) bs ->
  NoDup (map fst bs) ->
  bs = (pre ++ (family, body) :: post)%list ->
  match snd (body (fst (run_blocks pre w))) with
  | Ok _ =>
      has_status family (Some Success) (fst (run_blocks bs w))
      \/ has_status family (Some NoData) (fst (run_blocks bs w))
  | Raise e => has_status family (Some (Error e)) (fst (run_blocks bs w))
  end.
Proof.
  intros Hf Hr Hn ->.
  rewrite run_blocks_app, run_blocks_cons. cbn [fst snd].
  set (w1 := fst (run_blocks pre w)).
  assert (Hpost : Forall (fun b => touches_only (fst b) (snd b)) post).
  { apply Forall_app in Hf. destruct Hf as [_ Hf]. inversion Hf; assumption. }
  assert (Hbody : reports family body).
  { apply Forall_app in Hr. destruct Hr as [_ Hr]. inversion Hr; assumption. }
  assert (Hnot : ~ In family (map fst post)).
  { rewrite map_app in Hn. apply NoDup_remove_2 in Hn.
    intros Hin. apply Hn. apply in_or_app. right. exact Hin. }
  unfold family_block, try_except.
  destruct (body w1) as [w' [a|e]] eqn:Eb; cbn [fst snd].
  - destruct (Hbody w1 w' a Eb) as [Hs | Hs]; [left | right];
      apply run_blocks_keeps; assumption.
  - apply run_blocks_keeps; [assumption | assumption |].
    unfold has_status. simpl. apply status_of_set_same.
Qed.


End Isolation.


(** ** The update path *)

Lemma assign_cols_evaluated cs r :
  assign_cols (evaluated cs) r = (set_cols cs r, Ok tt).
Proof.
  revert r. induction cs as [|[c v] cs IH]; intros r.
  - destruct r. reflexivity.
  - unfold evaluated in *. cbn [map fst snd assign_cols]. rewrite IH.
    reflexivity.
Qed.

Lemma set_cols_cons c v cs r :
  set_cols ((c, v) :: cs) r = set_cols cs (set_cols [(c, v)] r).
Proof. reflexivity. Qed.

Lemma col_set_cols_other c cs r :
  ~ In c (map fst cs) -> col c (set_cols cs r) = col c r.
Proof.
  revert r. induction cs as [|[c' v'] cs IH]; intros r Hn.
  - destruct r. reflexivity.
  - rewrite set_cols_cons, IH by (intros Hin; apply Hn; right; exact Hin).
    apply col_set_one_other. intros ->. apply Hn. left. reflexivity.
Qed.

Lemma col_set_cols_in c v cs r :
  NoDup (map fst cs) -> In (c, v) cs -> col c (set_cols cs r) = v.
Proof.
  revert r. induction cs as [|[c' v'] cs IH]; intros r Hnd Hin; [contradiction|].
  cbn [map fst] in Hnd. inversion Hnd as [|? ? Hnotin Hnd']; subst.
  rewrite set_cols_cons. destruct Hin as [E | Hin].
  - inversion E; subst. rewrite col_set_cols_other by exact Hnotin.
    apply col_set_one_same.
  - apply IH; assumption.
Qed.

Lemma set_cols_key cs r :
  row_id (set_cols cs r) = row_id r /\ row_email (set_cols cs r) = row_email r
  /\ row_date (set_cols cs r) = row_date r
  /\ row_activity_id (set_cols cs r) = row_activity_id r.
Proof. repeat split. Qed.



Lemma upd_same t rows f : upd t rows f t = rows.
Proof. unfold upd. destruct t; reflexivity. Qed.

(** The update branch of [upsert] on the list engine. *)
Lemma upsert_update t email d cs db r :
  find (by_date email d) (db t) = Some r ->
  upsert t email d (evaluated cs) (open_session db)
  = (mkSession
       (upd t (map (fun x => if same_id x r then set_cols cs r else x) (db t)) db)
       [] db false, Ok tt).
Proof.
  intros Hf. unfold upsert, sbind. cbn. rewrite Hf.
  rewrite assign_cols_evaluated. reflexivity.
Qed.







Lemma store_update_committed t email d cs db r :
  find (by_date email d) (db t) = Some r ->
  committed (fst (store t email d (evaluated cs) (open_session db))) t
  = stored (fst (upsert t email d (evaluated cs) (open_session db))) t.
Proof.
  intros Hf. unfold store, try_except, sbind.
  rewrite (upsert_update t email d cs db r Hf). reflexivity.
Qed.




(** ** Upsert twice *)

Lemma date_eqb_sym d1 d2 : date_eqb d1 d2 = date_eqb d2 d1.
Proof.
  unfold date_eqb.
  rewrite (Z.eqb_sym (year d1)), (Z.eqb_sym (month d1)), (Z.eqb_sym (day d1)).
  reflexivity.
Qed.

Lemma date_eqb_refl d : date_eqb d d = true.
Proof. unfold date_eqb. rewrite !Z.eqb_refl. reflexivity. Qed.

Lemma same_key_by_date t email d cs x :
  t <> ActivityData ->
  same_key t (new_row email d cs) x = by_date email d x.
Proof.
  intros Ht. unfold same_key, by_date. cbn [row_email row_date new_row].
  rewrite (String.eqb_sym email), (date_eqb_sym d).
  destruct t; try reflexivity. contradiction Ht. reflexivity.
Qed.

Lemma find_none_existsb t email d cs rows :
  t <> ActivityData ->
  find (by_date email d) rows = None ->
  existsb (same_key t (new_row email d cs)) rows = false.
Proof.
  intros Ht Hf. induction rows as [|x rows IH]; [reflexivity|].
  cbn [find existsb] in *. rewrite (same_key_by_date t email d cs x Ht).
  destruct (by_date email d x); [discriminate|]. apply IH. exact Hf.
Qed.

Lemma commit_one_insert t r db :
  existsb (same_key t r) (db t) = false ->
  session_commit (mkSession db [(t, r)] db false)
  = (let st := upd t (db t ++ [with_id (next_id (db t)) r])%list db in
     mkSession st [] st false, Ok tt).
Proof.
  intros He. unfold session_commit, list_storage, sbind, flush, require_active,
    modify.
  cbn [pending inactive stored committed insert_all]. rewrite He. reflexivity.
Qed.

Lemma upsert_insert t email d cs db :
  find (by_date email d) (db t) = None ->
  upsert t email d (evaluated cs) (open_session db)
  = (mkSession db [(t, new_row email d cs)] db false, Ok tt).
Proof.
  intros Hf. unfold upsert, sbind. cbn. rewrite Hf.
  unfold lift. rewrite eval_cols_of_evaluated. reflexivity.
Qed.

(** [store] on the list engine, as a function of the table's rows. *)
Lemma store_rows t email d cs db :
  t <> ActivityData ->
  committed (fst (store t email d (evaluated cs) (open_session db))) t
  = upsert_rows email d cs (db t).
Proof.
  intros Ht. unfold upsert_rows.
  destruct (find (by_date email d) (db t)) as [r|] eqn:Hf.
  - rewrite (store_update_committed t email d cs db r Hf).
    rewrite (upsert_update t email d cs db r Hf). cbn [fst stored].
    apply upd_same.
  - unfold store, try_except. unfold sbind at 1.
    rewrite (upsert_insert t email d cs db Hf).
    rewrite (commit_one_insert t (new_row email d cs) db
               (find_none_existsb t email d cs (db t) Ht Hf)).
    cbn [fst committed]. apply upd_same.
Qed.

Lemma next_id_above rows x i :
  In x rows -> row_id x = Some i -> i < next_id rows.
Proof.
  unfold next_id. induction rows as [|y rows IH]; intros Hin Hi; [contradiction|].
  cbn [fold_right]. destruct Hin as [-> | Hin].
  - rewrite Hi. lia.
  - specialize (IH Hin Hi). destruct (row_id y); lia.
Qed.

Lemma map_replace_ids r r' rows :
  row_id r' = row_id r -> row_id r <> None ->
  map row_id (map (fun x => if same_id x r then r' else x) rows)
  = map row_id rows.
Proof.
  intros Hr Hn. induction rows as [|x rows IH]; [reflexivity|].
  cbn [map]. rewrite IH. f_equal.
  unfold same_id. destruct (row_id x) as [i|] eqn:Ex; [|exact Ex].
  destruct (row_id r) as [j|] eqn:Er; [|contradiction Hn; reflexivity].
  destruct (i =? j) eqn:E; [|exact Ex].
  apply Z.eqb_eq in E. subst j. exact Hr.
Qed.

Lemma ids_ok_upsert_rows email d cs rows :
  ids_ok rows -> ids_ok (upsert_rows email d cs rows).
Proof.
  intros [Hsome Hnd]. unfold upsert_rows.
  destruct (find (by_date email d) rows) as [r|] eqn:Hf.
  - assert (Hr : row_id r <> None)
      by (apply Hsome; apply (find_some _ _ Hf)).
    split.
    + intros x Hin. apply in_map_iff in Hin. destruct Hin as [y [Hy Hin]].
      destruct (same_id y r); subst x; [exact Hr | apply Hsome; exact Hin].
    + rewrite map_replace_ids; [exact Hnd | reflexivity | exact Hr].
  - split.
    + intros x Hin. apply in_app_or in Hin. destruct Hin as [Hin | [<- | []]].
      * apply Hsome. exact Hin.
      * discriminate.
    + rewrite map_app. cbn [map with_id row_id].
      apply NoDup_app; [exact Hnd | repeat constructor; intros [] |].
      intros a Ha [<- | []].
      apply in_map_iff in Ha. destruct Ha as [x [Hx Hin]].
      pose proof (next_id_above rows x (next_id rows) Hin Hx). lia.
Qed.

Lemma find_none_filter (p : row -> bool) rows :
  find p rows = None -> filter p rows = [].
Proof.
  induction rows as [|x rows IH]; [reflexivity|]. cbn [find filter].
  destruct (p x); [discriminate | exact IH].
Qed.

Lemma find_some_filter (p : row -> bool) rows r :
  find p rows = Some r -> exists rest, filter p rows = r :: rest.
Proof.
  induction rows as [|x rows IH]; [discriminate|]. cbn [find filter].
  destruct (p x).
  - intros E. inversion E; subst. eauto.
  - exact IH.
Qed.

Lemma map_replace_none r r' rows :
  (forall y, In y rows -> same_id y r = false) ->
  map (fun x => if same_id x r then r' else x) rows = rows.
Proof.
  induction rows as [|x rows IH]; intros Hn; [reflexivity|].
  cbn [map]. rewrite (Hn x (or_introl eq_refl)).
  rewrite IH by (intros y Hy; apply Hn; right; exact Hy). reflexivity.
Qed.

Lemma same_id_eq x r : same_id x r = true -> row_id x = row_id r.
Proof.
  unfold same_id. destruct (row_id x) as [i|]; [|discriminate].
  destruct (row_id r) as [j|]; [|discriminate].
  intros E. apply Z.eqb_eq in E. subst. reflexivity.
Qed.

Lemma filter_replace (p : row -> bool) r r' rows :
  ids_ok rows -> filter p rows = [r] -> p r' = true ->
  filter p (map (fun x => if same_id x r then r' else x) rows) = [r'].
Proof.
  intros [Hsome Hnd] Hf Hp. induction rows as [|x rows IH]; [discriminate|].
  cbn [map row_id] in Hnd. inversion Hnd as [|? ? Hnotin Hnd']; subst.
  assert (Hsome' : forall y, In y rows -> row_id y <> None)
    by (intros y Hy; apply Hsome; right; exact Hy).
  assert (Hr : In r (x :: rows)).
  { assert (Hin : In r (filter p (x :: rows))) by (rewrite Hf; left; reflexivity).
    apply filter_In in Hin. apply Hin. }
  cbn [map filter] in *. destruct (same_id x r) eqn:Ex.
  - assert (Hxr : x = r).
    { destruct Hr as [E | Hin]; [exact E|]. exfalso. apply Hnotin.
      rewrite (same_id_eq x r Ex). apply in_map. exact Hin. }
    subst x. rewrite Hp. destruct (p r) eqn:Hpr.
    + inversion Hf as [Hrest]. rewrite map_replace_none.
      * rewrite Hrest. reflexivity.
      * intros y Hy. destruct (same_id y r) eqn:Ey; [|reflexivity].
        exfalso. apply Hnotin. rewrite <- (same_id_eq y r Ey).
        apply in_map. exact Hy.
    + exfalso. apply Hnotin. apply in_map.
      assert (Hin : In r (filter p rows)) by (rewrite Hf; left; reflexivity).
      apply filter_In in Hin. apply Hin.
  - destruct (p x) eqn:Epx.
    + inversion Hf; subst. exfalso.
      assert (Hidr : row_id r <> None) by (apply Hsome; left; reflexivity).
      unfold same_id in Ex. destruct (row_id r) as [i|]; [|contradiction Hidr; reflexivity].
      rewrite Z.eqb_refl in Ex. discriminate.
    + apply IH; assumption.
Qed.

Lemma assoc_in_nodup c v cs :
  NoDup (map fst cs) -> In (c, v) cs -> assoc c cs = Some v.
Proof.
  induction cs as [|[c' v'] cs IH]; intros Hnd Hin; [contradiction|].
  cbn [map fst] in Hnd. inversion Hnd as [|? ? Hnotin Hnd']; subst.
  cbn [assoc]. destruct Hin as [E | Hin].
  - inversion E; subst. rewrite String.eqb_refl. reflexivity.
  - destruct (String.eqb c c') eqn:Ec.
    + apply String.eqb_eq in Ec. subst c'. exfalso. apply Hnotin.
      apply (in_map fst) in Hin. exact Hin.
    + apply IH; assumption.
Qed.

(** One application leaves exactly one row for the key, holding the
    application's values. *)
Lemma upsert_rows_one_row email d cs rows :
  ids_ok rows ->
  (List.length (filter (by_date email d) rows) <= 1)%nat ->
  NoDup (map fst cs) ->
  exists r, filter (by_date email d) (upsert_rows email d cs rows) = [r]
            /\ forall c v, In (c, v) cs -> col c r = v.
Proof.
  intros Hok Hlen Hnd. unfold upsert_rows.
  destruct (find (by_date email d) rows) as [r|] eqn:Hf.
  - destruct (find_some_filter _ _ _ Hf) as [rest Hfil].
    assert (Hrest : rest = []).
    { rewrite Hfil in Hlen. destruct rest; [reflexivity|]. simpl in Hlen. lia. }
    subst rest. exists (set_cols cs r). split.
    + apply filter_replace; [exact Hok | exact Hfil |].
      apply find_some in Hf. apply Hf.
    + intros c v Hin. apply col_set_cols_in; assumption.
  - exists (with_id (next_id rows) (new_row email d cs)). split.
    + rewrite filter_app, (find_none_filter _ _ Hf). cbn [filter app].
      unfold by_date. cbn [row_email row_date with_id new_row].
      rewrite String.eqb_refl, date_eqb_refl. reflexivity.
    + intros c v Hin. unfold col. cbn [row_cols with_id new_row].
      rewrite (assoc_in_nodup c v cs Hnd Hin). reflexivity.
Qed.

(** The storing step of the read endpoints is an upsert in the claim's
    sense: applied twice for a key, it leaves exactly one row for the key,
    with the columns of the second application. *)
Lemma store_twice_one_row t email d cs1 cs2 db :
  t <> ActivityData ->
  ids_ok (db t) ->
  (List.length (filter (by_date email d) (db t)) <= 1)%nat ->
  NoDup (map fst cs1) -> NoDup (map fst cs2) ->
  let s1 := fst (store t email d (evaluated cs1) (open_session db)) in
  let s2 := fst (store t email d (evaluated cs2) (open_session (committed s1))) in
  exists r, filter (by_date email d) (committed s2 t) = [r]
            /\ forall c v, In (c, v) cs2 -> col c r = v.
Proof.
  intros Ht Hok Hlen Hnd1 Hnd2 s1 s2. unfold s2, s1.
  rewrite (store_rows t email d cs2 _ Ht).
  rewrite (store_rows t email d cs1 db Ht).
  destruct (upsert_rows_one_row email d cs1 (db t) Hok Hlen Hnd1) as [r1 [Hf1 _]].
  apply upsert_rows_one_row.
  - apply ids_ok_upsert_rows. exact Hok.
  - rewrite Hf1. simpl. lia.
  - exact Hnd2.
Qed.

(** C2: the steps block of the sync stores with [db.session.merge] of an
    object that has no primary key, which inserts.  Synced twice for the
    same user and day, the second application violates
    [unique_user_date_steps]: the sync answers 500, nothing is committed and
    the stored row keeps the first application's value.  The read
    endpoint's storing step, applied to the same two records, updates in
    place. *)
Lemma sync_steps_second_application_fails :
  let sync g db :=
    sync_date_to_database str_of_id no_start_time parse_iso_date (Ok g)
      someone "2026-01-15" (open_session db) in
  let run1 := sync (garmin_steps 1000) empty_db in
  let db1 := committed (fst run1) in
  let run2 := sync (garmin_steps 2000) db1 in
  (exists statuses summaries,
      snd run1 = SyncReport 200 statuses summaries true)
  /\ map (col "total_steps") (db1 StepsData) = [JInt 1000]
  /\ (exists statuses summaries,
         snd run2 = SyncReport 500 statuses summaries false)
  /\ map (col "total_steps") (committed (fst run2) StepsData) = [JInt 1000]
  /\ (let s1 := fst (get_steps (garmin_steps 1000) someone jan15
                       (open_session empty_db)) in
      let s2 := fst (get_steps (garmin_steps 2000) someone jan15
                       (open_session (committed s1))) in
      map (col "total_steps") (committed s2 StepsData) = [JInt 2000]).
Proof.
  cbv zeta. split; [do 2 eexists; vm_compute; reflexivity|].
  split; [vm_compute; reflexivity|].
  split; [do 2 eexists; vm_compute; reflexivity|].
  split; vm_compute; reflexivity.
Qed.

(* ================================================================== *)
(** * Further properties of the code                                   *)
(* ================================================================== *)

(** ** Credentials *)





(** ** Dashboard tokens *)

Lemma prefix_drop p s :
  prefix p s = true -> s = (p ++ string_drop (String.length p) s)%string.
Proof.
  revert s. induction p as [|a p IH]; intros s.
  - intros _. destruct s; reflexivity.
  - destruct s as [|b s]; cbn [prefix]; [discriminate|].
    destruct (ascii_dec a b) as [->|]; [|discriminate].
    intros Hp. cbn [String.length string_drop append]. f_equal. apply IH. exact Hp.
Qed.

Lemma prefix_append p s : prefix p (p ++ s) = true.
Proof.
  induction p as [|a p IH]; cbn [append]; [destruct s; reflexivity|].
  cbn [prefix]. destruct (ascii_dec a a); [exact IH | congruence].
Qed.

Lemma string_drop_append p s : string_drop (String.length p) (p ++ s) = s.
Proof.
  induction p as [|a p IH]; cbn [String.length string_drop append];
    [destruct s; reflexivity | exact IH].
Qed.

Lemma bearer_token_some h token :
  bearer_token h = Some token <-> h = ("Bearer " ++ token)%string.
Proof.
  unfold bearer_token. split.
  - destruct (prefix "Bearer " h) eqn:Hp; [|discriminate].
    intros E. apply Some_inj in E. subst token.
    apply (prefix_drop "Bearer " h Hp).
  - intros ->. rewrite (prefix_append "Bearer " token).
    rewrite <- (string_drop_append "Bearer " token) at 2. reflexivity.
Qed.

(** X3: behind [require_dashboard_auth] a handler runs only for a request
    whose Authorization header is ["Bearer "] followed by a token that
    decodes, and it is given the token's subject; every other request is
    answered 401 whatever the handler is. *)
Theorem require_dashboard_auth_cases decode f headers_get :
  (exists token payload,
      headers_get "Authorization" = Some ("Bearer " ++ token)%string
      /\ decode token = Claims payload
      /\ require_dashboard_auth decode f headers_get
         = match assoc "sub" payload with
           | Some dashboard_email => Ok (f dashboard_email)
           | None => Raise KeyError
           end)
  \/ (exists r, resp_code r = 401
                /\ forall f', require_dashboard_auth decode f' headers_get = Ok r).
Proof.
  unfold require_dashboard_auth.
  destruct (headers_get "Authorization") as [h|].
  - destruct (bearer_token h) as [token|] eqn:Hb.
    + apply bearer_token_some in Hb. subst h.
      destruct (decode token) as [payload| |] eqn:Hd.
      * left. exists token, payload. repeat split. exact Hd.
      * right. eexists. split; [|intros f'; reflexivity]. reflexivity.
      * right. eexists. split; [|intros f'; reflexivity]. reflexivity.
    + right. eexists. split; [|intros f'; reflexivity]. reflexivity.
  - right. cbn. eexists. split; [|intros f'; reflexivity]. reflexivity.
Qed.

Lemma verify_password_empty_hash checkpw p : verify_password checkpw p "" = false.
Proof.
  unfold verify_password. cbn [truthy String.eqb negb]. rewrite orb_true_r.
  reflexivity.
Qed.

(** X4: with no password hash configured (the default of
    [AUTHORIZED_PASSWORD_HASH]) no request logs in: [dashboard_login]
    answers 400 or 401, or raises on a body that is not an object with a
    string email. *)
Theorem login_impossible_without_hash checkpw authorized create data :
  match dashboard_login checkpw authorized "" create data with
  | Ok r => resp_code r = 400 \/ resp_code r = 401
  | Raise e => e = AttributeError
  end.
Proof.
  unfold dashboard_login.
  destruct (truthy data); cbn [negb]; [|left; reflexivity].
  destruct (py_get_default data "email" (JStr "")) as [e|x] eqn:E1; cbn [rbind].
  2:{ unfold py_get_default in E1. destruct data; inversion E1; reflexivity. }
  destruct e; cbn [rbind]; try reflexivity.
  destruct (py_get_default data "password" (JStr "")) as [pw|x] eqn:E2;
    cbn [rbind].
  2:{ unfold py_get_default in E2. destruct data; inversion E2; reflexivity. }
  rewrite verify_password_empty_hash.
  destruct (negb (lower (strip s) =? lower authorized)%string); right;
    reflexivity.
Qed.

Lemma login_success checkpw authorized hash create data r :
  dashboard_login checkpw authorized hash create data = Ok r ->
  resp_code r = 200 ->
  exists e p,
    py_get_default data "email" (JStr "") = Ok (JStr e)
    /\ lower (strip e) = lower authorized
    /\ py_get_default data "password" (JStr "") = Ok (JStr p)
    /\ checkpw p hash = Ok true
    /\ r = mkResponse
             (JDict [("token", JStr (create (lower authorized)));
                     ("email", JStr (lower authorized));
                     ("expires_in", JInt 86400)]) 200.
Proof.
  unfold dashboard_login. intros H0 Hc.
  destruct (truthy data); cbn [negb] in H0;
    [|apply Ok_inj in H0; subst r; discriminate Hc].
  rbind_inv H0. rename v into e0. rbind_inv H0. rename v into email.
  rbind_inv H0. rename v into password.
  destruct e0; try discriminate. apply Ok_inj in Hv0. subst email.
  destruct (lower (strip s) =? lower authorized)%string eqn:Eq; cbn [negb] in H0;
    [|apply Ok_inj in H0; subst r; discriminate Hc].
  apply String.eqb_eq in Eq.
  destruct (verify_password checkpw password hash) eqn:Ev; cbn [negb] in H0;
    [|apply Ok_inj in H0; subst r; discriminate Hc].
  apply Ok_inj in H0. subst r.
  unfold verify_password in Ev.
  destruct (negb (truthy password) || negb (truthy (JStr hash))); [discriminate|].
  destruct password; try discriminate.
  destruct (checkpw s0 hash) as [[]|] eqn:Ec; try discriminate.
  exists s, s0. rewrite Eq. repeat split; assumption.
Qed.



(** X6: the token a successful login returns opens the protected routes:
    when [jwt.decode] of a token just issued for an email gives claims whose
    subject is that email, [verify_token] behind [require_dashboard_auth]
    answers a request bearing the token with 200 and the email the login
    answered with. *)
Theorem login_token_verifies decode checkpw authorized hash create data r :
  (forall email, exists payload,
      decode (create email) = Claims payload
      /\ assoc "sub" payload = Some (JStr email)) ->
  dashboard_login checkpw authorized hash create data = Ok r ->
  resp_code r = 200 ->
  exists token email,
    py_get (resp_body r) "token" = Ok (JStr token)
    /\ py_get (resp_body r) "email" = Ok (JStr email)
    /\ require_dashboard_auth decode verify_token (bearer_headers token)
       = Ok (mkResponse (JDict [("valid", JBool true); ("email", JStr email)])
               200).
Proof.
  intros Hjwt H0 Hc.
  destruct (login_success _ _ _ _ _ _ H0 Hc)
    as (e & p & _ & _ & _ & _ & ->).
  exists (create (lower authorized)), (lower authorized).
  split; [reflexivity|]. split; [reflexivity|].
  unfold require_dashboard_auth, bearer_headers. cbn [String.eqb Ascii.eqb Bool.eqb].
  rewrite (proj2 (bearer_token_some _ (create (lower authorized))) eq_refl).
  destruct (Hjwt (lower authorized)) as (payload & -> & ->). reflexivity.
Qed.

Lemma login_token_verifies_witness :
  exists token email,
    py_get (JDict [("token", JStr "runner@example.org");
                   ("email", JStr "runner@example.org");
                   ("expires_in", JInt 86400)]) "token" = Ok (JStr token)
    /\ py_get (JDict [("token", JStr "runner@example.org");
                      ("email", JStr "runner@example.org");
                      ("expires_in", JInt 86400)]) "email" = Ok (JStr email)
    /\ require_dashboard_auth (fun t => Claims [("sub", JStr t)]) verify_token
         (bearer_headers token)
       = Ok (mkResponse (JDict [("valid", JBool true); ("email", JStr email)])
               200).
Proof.
  apply (login_token_verifies
           (fun t => Claims [("sub", JStr t)])
           (fun p h => Ok (String.eqb p "secret"))
           "Runner@Example.org" "$2b$12$hash" (fun e => e)
           (JDict [("email", JStr "runner@example.org");
                   ("password", JStr "secret")])
           (mkResponse
              (JDict [("token", JStr "runner@example.org");
                      ("email", JStr "runner@example.org");
                      ("expires_in", JInt 86400)]) 200)).
  - intros email. exists [("sub", JStr email)]. split; reflexivity.
  - reflexivity.
  - reflexivity.
Defined.

(** ** The database read endpoint *)

Section DbReadMore.
Context {S : Type} `{Storage S}.
Variable strptime_date : string -> option date.

(** X7: [get_db_data] answers 400 exactly when the email or the date
    parameter is missing or empty, the date does not parse, or the data type
    is unknown; and a request answered 400 has not reached the storage: the
    session is as it was. *)
Theorem get_db_data_bad_request data_type req s :
  let out := get_db_data strptime_date data_type req s in
  (resp_code (snd out) = 400
   <-> (lookup "email" (args req) = None
        \/ lookup "email" (args req) = Some ""
        \/ lookup "date" (args req) = None
        \/ lookup "date" (args req) = Some ""
        \/ (exists date_str, lookup "date" (args req) = Some date_str
                             /\ strptime_date date_str = None)
        \/ data_type_map (lower data_type) = None))
  /\ (resp_code (snd out) = 400 -> fst out = s).
Proof.
  cbv zeta. unfold get_db_data.
  destruct (lookup "email" (args req)) as [[|c e]|] eqn:Ee;
    [split; [split; auto | reflexivity] | | split; [split; auto | reflexivity]].
  destruct (lookup "date" (args req)) as [[|c' ds]|] eqn:Ed;
    [split; [split; auto 6 | reflexivity] | |
     split; [split; auto 6 | reflexivity]].
  destruct (strptime_date (String c' ds)) as [date_obj|] eqn:Ep.
  2:{ split; [split; eauto 10 | reflexivity]. }
  destruct (data_type_map (lower data_type)) as [model|] eqn:Em.
  2:{ split; [split; auto 10 | reflexivity]. }
  assert (Hno : ~ (Some (String c e) = None \/ Some (String c e) = Some ""
                   \/ Some (String c' ds) = None
                   \/ Some (String c' ds) = Some ""
                   \/ (exists date_str,
                          Some (String c' ds) = Some date_str
                          /\ strptime_date date_str = None)
                   \/ Some model = None)).
  { intros [E|[E|[E|[E|[[x [E E']]|E]]]]]; try discriminate.
    apply Some_inj in E. subst x. congruence. }
  assert (Hcode : forall (x : S * response),
             resp_code (snd x) <> 400 ->
             (resp_code (snd x) = 400 <-> _) /\ (resp_code (snd x) = 400 -> fst x = s))
    by (intros x Hx; split; [split; [intros E; contradiction | intros E; exact (False_ind _ (Hno E))] | intros E; contradiction]).
  apply Hcode.
  destruct model;
    repeat match goal with
           | |- context [query_first ?t ?e ?d ?s] =>
               destruct (query_first t e d s) as [? [[?|]|?]]
           | |- context [query_all ?t ?e ?d ?s] =>
               destruct (query_all t e d s) as [? [[|? ?]|?]]
           end; cbn; discriminate.
Qed.
End DbReadMore.

(** X8: on the list engine, serving [get_db_data] changes nothing: whatever
    the request, the session is left as it was opened. *)
Theorem get_db_data_reads_only strptime_date data_type req db :
  fst (get_db_data strptime_date data_type req (open_session db))
  = open_session db.
Proof.
  unfold get_db_data.
  destruct (lookup "email" (args req)) as [[|c e]|]; try reflexivity.
  destruct (lookup "date" (args req)) as [[|c' ds]|]; try reflexivity.
  destruct (strptime_date (String c' ds)) as [date_obj|]; try reflexivity.
  destruct (data_type_map (lower data_type)) as [model|]; try reflexivity.
  destruct model; cbn;
    try (destruct (find _ _); reflexivity).
  destruct (filter _ _); reflexivity.
Qed.

(** ** The storing step, and reading back *)

Lemma upd_other t t' rows f : t' <> t -> upd t rows f t' = f t'.
Proof. unfold upd. intros Hne. destruct t, t'; try reflexivity; congruence. Qed.

(** [store] on the list engine, as a function of the database. *)
Lemma store_committed t email d cs db :
  t <> ActivityData ->
  forall t', committed (fst (store t email d (evaluated cs) (open_session db))) t'
             = upd t (upsert_rows email d cs (db t)) db t'.
Proof.
  intros Ht t'. unfold upsert_rows.
  destruct (find (by_date email d) (db t)) as [r|] eqn:Hf.
  - unfold store, try_except, sbind.
    rewrite (upsert_update t email d cs db r Hf). reflexivity.
  - unfold store, try_except. unfold sbind at 1.
    rewrite (upsert_insert t email d cs db Hf).
    rewrite (commit_one_insert t (new_row email d cs) db
               (find_none_existsb t email d cs (db t) Ht Hf)).
    reflexivity.
Qed.

Lemma same_id_in_nodup x r rows :
  NoDup (map row_id rows) -> In x rows -> In r rows -> same_id x r = true ->
  x = r.
Proof.
  intros Hnd Hx Hr Hs. apply same_id_eq in Hs.
  induction rows as [|y rows IH]; [contradiction|].
  cbn [map] in Hnd. inversion Hnd as [|? ? Hnotin Hnd']; subst.
  destruct Hx as [-> | Hx], Hr as [-> | Hr].
  - reflexivity.
  - exfalso. apply Hnotin. rewrite Hs. apply in_map. exact Hr.
  - exfalso. apply Hnotin. rewrite <- Hs. apply in_map. exact Hx.
  - apply IH; assumption.
Qed.

Lemma upsert_rows_others email d cs rows :
  ids_ok rows ->
  filter (fun r => negb (by_date email d r)) (upsert_rows email d cs rows)
  = filter (fun r => negb (by_date email d r)) rows.
Proof.
  intros [Hsome Hnd]. unfold upsert_rows.
  destruct (find (by_date email d) rows) as [r|] eqn:Hf.
  - destruct (find_some _ _ Hf) as [Hin Hp].
    assert (Hall : forall x, In x rows ->
               (if same_id x r then set_cols cs r else x) = x
               \/ (x = r /\ same_id x r = true)).
    { intros x Hx. destruct (same_id x r) eqn:Es; [|left; reflexivity].
      right. split; [|reflexivity].
      apply (same_id_in_nodup x r rows Hnd Hx Hin Es). }
    clear Hf Hsome Hnd Hin. induction rows as [|x rows IH]; [reflexivity|].
    cbn [map filter].
    rewrite IH by (intros y Hy; apply Hall; right; exact Hy).
    destruct (Hall x (or_introl eq_refl)) as [-> | [-> ->]]; [reflexivity|].
    assert (Hp' : by_date email d (set_cols cs r) = true) by exact Hp.
    rewrite Hp, Hp'. reflexivity.
  - rewrite filter_app. cbn [filter].
    unfold by_date at 2. cbn [row_email row_date with_id new_row].
    rewrite String.eqb_refl, date_eqb_refl. cbn [andb negb].
    apply app_nil_r.
Qed.

(** X9: storing a record for one user and day (the storing step of
    [get_steps], [get_heartrate], [get_sleep], ...) leaves every other
    table as it was, and in its own table every row of another user or
    another day. *)
Theorem store_touches_one_key t email d cs db :
  t <> ActivityData ->
  ids_ok (db t) ->
  let s1 := fst (store t email d (evaluated cs) (open_session db)) in
  (forall t', t' <> t -> committed s1 t' = db t')
  /\ filter (fun r => negb (by_date email d r)) (committed s1 t)
     = filter (fun r => negb (by_date email d r)) (db t).
Proof.
  intros Ht Hok. cbv zeta. split.
  - intros t' Hne. rewrite (store_committed t email d cs db Ht).
    apply upd_other. exact Hne.
  - rewrite (store_rows t email d cs db Ht).
    apply upsert_rows_others. exact Hok.
Qed.

Lemma store_touches_one_key_witness :
  let s1 := fst (store HeartRateData "other@example.org" jan28
                   (evaluated [("resting_hr", JInt 60)]) (open_session hr_db)) in
  (forall t', t' <> HeartRateData -> committed s1 t' = hr_db t')
  /\ filter (fun r => negb (by_date "other@example.org" jan28 r))
       (committed s1 HeartRateData)
     = filter (fun r => negb (by_date "other@example.org" jan28 r))
         (hr_db HeartRateData).
Proof.
  apply (store_touches_one_key HeartRateData "other@example.org" jan28
           [("resting_hr", JInt 60)] hr_db).
  - discriminate.
  - split.
    + intros x [<- | []]. discriminate.
    + repeat constructor. intros [].
Defined.





(** ** The range read endpoint *)

Lemma date_leb_spec d1 d2 :
  date_leb d1 d2 = true
  <-> (year d1 < year d2
       \/ (year d1 = year d2
           /\ (month d1 < month d2
               \/ (month d1 = month d2 /\ day d1 <= day d2)))).
Proof.
  unfold date_leb.
  rewrite orb_true_iff, andb_true_iff, orb_true_iff, andb_true_iff.
  rewrite !Z.ltb_lt, !Z.eqb_eq, Z.leb_le. reflexivity.
Qed.

Lemma date_leb_trans a b c :
  date_leb a b = true -> date_leb b c = true -> date_leb a c = true.
Proof. rewrite !date_leb_spec. lia. Qed.

Lemma date_leb_total a b : date_leb a b = false -> date_leb b a = true.
Proof.
  intros H. rewrite date_leb_spec.
  assert (Hn : ~ date_leb a b = true) by congruence.
  rewrite date_leb_spec in Hn. lia.
Qed.

Lemma insert_by_date_perm r rows : Permutation (r :: rows) (insert_by_date r rows).
Proof.
  induction rows as [|x rows IH]; cbn [insert_by_date]; [reflexivity|].
  destruct (date_leb (row_date r) (row_date x)); [reflexivity|].
  rewrite perm_swap. apply perm_skip. exact IH.
Qed.

Lemma order_by_date_perm rows : Permutation (order_by_date rows) rows.
Proof.
  induction rows as [|x rows IH]; cbn [order_by_date fold_right]; [reflexivity|].
  fold (order_by_date rows). rewrite <- insert_by_date_perm.
  apply perm_skip. exact IH.
Qed.

Lemma insert_by_date_sorted r rows :
  StronglySorted date_le rows -> StronglySorted date_le (insert_by_date r rows).
Proof.
  induction rows as [|x rows IH]; intros Hs; cbn [insert_by_date].
  - constructor; constructor.
  - inversion Hs as [|? ? Hs' Hall]; subst.
    destruct (date_leb (row_date r) (row_date x)) eqn:E.
    + constructor; [exact Hs|]. constructor; [exact E|].
      eapply Forall_impl; [|exact Hall].
      intros y Hy. unfold date_le in *. eapply date_leb_trans; eassumption.
    + constructor; [apply IH; exact Hs'|].
      apply (Permutation_Forall (insert_by_date_perm r rows)).
      constructor; [|exact Hall].
      apply date_leb_total. exact E.
Qed.

Lemma order_by_date_sorted rows : StronglySorted date_le (order_by_date rows).
Proof.
  induction rows as [|x rows IH]; cbn [order_by_date fold_right].
  - constructor.
  - apply insert_by_date_sorted. exact IH.
Qed.

Lemma list_query_range_open t email d1 d2 db :
  list_query_range t email d1 d2 (open_session db)
  = (open_session db, Ok (order_by_date (filter (in_range email d1 d2) (db t)))).
Proof. reflexivity. Qed.

(** X11: [get_db_data_range] answers a well-formed request with 200 and
    exactly the stored rows of the data type whose email is the configured
    one ([EMAIL] when set, else the token's subject) and whose date lies
    between the start and the end date, both included, in ascending order
    of date; [count] is their number; and the session is left as it was
    opened. *)
Theorem range_read_sorted_and_complete strptime_date EMAIL data_type
  dashboard_email a hs start_str end_str d1 d2 t db :
  lookup "start_date" a = Some start_str -> start_str <> "" ->
  lookup "end_date" a = Some end_str -> end_str <> "" ->
  strptime_date start_str = Some d1 -> strptime_date end_str = Some d2 ->
  data_type_map (lower data_type) = Some t ->
  let email := match EMAIL with Some e => e | None => dashboard_email end in
  exists records,
    get_db_data_range strptime_date list_query_range EMAIL data_type
      dashboard_email (mkRequest a hs) (open_session db)
    = (open_session db,
       mkResponse
         (JDict [("data", JList (map (to_dict t) records));
                 ("count", JInt (Z.of_nat (List.length records)));
                 ("data_type", JStr data_type);
                 ("start_date", JStr start_str);
                 ("end_date", JStr end_str);
                 ("source", JStr "database")]) 200)
    /\ Permutation records (filter (in_range email d1 d2) (db t))
    /\ StronglySorted date_le records.
Proof.
  intros Hs Hsn He Hen Hp1 Hp2 Hm. cbv zeta.
  exists (order_by_date
            (filter (in_range match EMAIL with
                              | Some e => e
                              | None => dashboard_email
                              end d1 d2) (db t))).
  split; [|split; [apply order_by_date_perm | apply order_by_date_sorted]].
  unfold get_db_data_range. cbn [args]. rewrite Hs, He.
  destruct start_str as [|c1 s1]; [contradiction Hsn; reflexivity|].
  destruct end_str as [|c2 s2]; [contradiction Hen; reflexivity|].
  rewrite Hp1, Hp2, Hm, list_query_range_open, length_map. reflexivity.
Qed.

Lemma range_read_sorted_and_complete_witness :
  exists records,
    get_db_data_range parse_iso_date list_query_range (Some someone)
      "heartrate" "visitor@example.org"
      (mkRequest [("start_date", "2026-01-01"); ("end_date", "2026-01-28")] [])
      (open_session hr_db)
    = (open_session hr_db,
       mkResponse
         (JDict [("data", JList (map (to_dict HeartRateData) records));
                 ("count", JInt (Z.of_nat (List.length records)));
                 ("data_type", JStr "heartrate");
                 ("start_date", JStr "2026-01-01");
                 ("end_date", JStr "2026-01-28");
                 ("source", JStr "database")]) 200)
    /\ Permutation records
         (filter (in_range someone (mkDate 2026 1 1) jan28)
            (hr_db HeartRateData))
    /\ StronglySorted date_le records.
Proof.
  apply (range_read_sorted_and_complete parse_iso_date (Some someone)
           "heartrate" "visitor@example.org"
           [("start_date", "2026-01-01"); ("end_date", "2026-01-28")] []
           "2026-01-01" "2026-01-28" (mkDate 2026 1 1) jan28 HeartRateData
           hr_db);
    try reflexivity; discriminate.
Defined.

Lemma in_range_inverted email d1 d2 r :
  date_leb d1 d2 = false -> in_range email d1 d2 r = false.
Proof.
  intros H. unfold in_range.
  destruct (date_leb d1 (row_date r)) eqn:E1;
    [|rewrite andb_false_r; reflexivity].
  destruct (date_leb (row_date r) d2) eqn:E2; [|apply andb_false_r].
  rewrite (date_leb_trans _ _ _ E1 E2) in H. discriminate.
Qed.

(** X12: a range whose start date is after its end date is not rejected:
    [get_db_data_range] answers 200 with an empty list and count 0,
    whatever is stored. *)
Theorem range_read_inverted_is_empty strptime_date EMAIL data_type
  dashboard_email a hs start_str end_str d1 d2 t db :
  lookup "start_date" a = Some start_str -> start_str <> "" ->
  lookup "end_date" a = Some end_str -> end_str <> "" ->
  strptime_date start_str = Some d1 -> strptime_date end_str = Some d2 ->
  data_type_map (lower data_type) = Some t ->
  date_leb d1 d2 = false ->
  snd (get_db_data_range strptime_date list_query_range EMAIL data_type
         dashboard_email (mkRequest a hs) (open_session db))
  = mkResponse
      (JDict [("data", JList []); ("count", JInt 0);
              ("data_type", JStr data_type);
              ("start_date", JStr start_str);
              ("end_date", JStr end_str);
              ("source", JStr "database")]) 200.
Proof.
  intros Hs Hsn He Hen Hp1 Hp2 Hm Hinv.
  unfold get_db_data_range. cbn [args]. rewrite Hs, He.
  destruct start_str as [|c1 s1]; [contradiction Hsn; reflexivity|].
  destruct end_str as [|c2 s2]; [contradiction Hen; reflexivity|].
  rewrite Hp1, Hp2, Hm, list_query_range_open.
  assert (Hf : forall email rows, filter (in_range email d1 d2) rows = []).
  { intros email rows. induction rows as [|x rows IH]; [reflexivity|].
    cbn [filter]. rewrite (in_range_inverted email d1 d2 x Hinv). exact IH. }
  rewrite Hf. reflexivity.
Qed.

Lemma range_read_inverted_is_empty_witness :
  snd (get_db_data_range parse_iso_date list_query_range None "heartrate"
         someone
         (mkRequest [("start_date", "2026-01-28"); ("end_date", "2026-01-01")] [])
         (open_session hr_db))
  = mkResponse
      (JDict [("data", JList []); ("count", JInt 0);
              ("data_type", JStr "heartrate");
              ("start_date", JStr "2026-01-28");
              ("end_date", JStr "2026-01-01");
              ("source", JStr "database")]) 200.
Proof.
  apply (range_read_inverted_is_empty parse_iso_date None "heartrate" someone
           [("start_date", "2026-01-28"); ("end_date", "2026-01-01")] []
           "2026-01-28" "2026-01-01" jan28 (mkDate 2026 1 1) HeartRateData
           hr_db);
    try reflexivity; discriminate.
Defined.

(** ** The live dashboard's aggregates *)

Lemma live_stress_step_levels a v :
  live_stress_step (levels_of a) v = levels_of (stress_step a v).
Proof.
  unfold live_stress_step, stress_step, stress_bucket.
  destruct (sample_level v) as [s|]; [|reflexivity].
  destruct (num_le (NInt 0) s && num_le s (NInt 25));
    [destruct (num_lt (NInt 0) s); reflexivity|].
  destruct (num_le (NInt 26) s && num_le s (NInt 50));
    [destruct (num_lt (NInt 0) s); reflexivity|].
  destruct (num_le (NInt 51) s && num_le s (NInt 75));
    [destruct (num_lt (NInt 0) s); reflexivity|].
  destruct (num_lt (NInt 75) s); destruct (num_lt (NInt 0) s); reflexivity.
Qed.

Lemma fold_live_stress_levels values a :
  fold_left live_stress_step values (levels_of a)
  = levels_of (fold_left stress_step values a).
Proof.
  revert a. induction values as [|v values IH]; intros a; [reflexivity|].
  cbn [fold_left]. rewrite live_stress_step_levels. apply IH.
Qed.

Lemma get_stress_data_live raw stress_data :
  get_stress_data raw = Ok stress_data -> live_stress_data raw = stress_data.
Proof.
  unfold get_stress_data, live_stress_data.
  destruct raw as [| | | | |l|d]; try (intros E; apply Ok_inj in E; exact E).
  destruct l as [|x l]; cbn; intros E; apply Ok_inj in E; exact E.
Qed.

(** X13: the live dashboard buckets stress as [get_stress] does: for every
    payload [get_stress] can summarise, the entry [get_live_data] builds
    from the same payload has the same four bucket totals (its average and
    maximum are the provider's own, not computed). *)
Theorem live_stress_buckets_agree raw r :
  get_stress_stats raw = Ok r ->
  exists average_stress max_stress,
    live_stress raw
    = Ok (JDict [("average_stress", average_stress);
                 ("max_stress", max_stress);
                 ("rest_minutes", JInt (rest_minutes r));
                 ("low_stress_minutes", JInt (low_stress_minutes r));
                 ("medium_stress_minutes", JInt (medium_stress_minutes r));
                 ("high_stress_minutes", JInt (high_stress_minutes r))]).
Proof.
  unfold get_stress_stats. intros H0.
  rbind_inv H0. rename v into stress_data. rename Hv into Hd.
  rbind_inv H0. rename v into stress_values. rename Hv into Hv1.
  rbind_inv H0. rename v into values. rename Hv into Hit.
  apply stress_summary_buckets in H0.
  destruct H0 as (H1 & H2 & H3 & H4 & _ & _).
  unfold live_stress. rewrite (get_stress_data_live raw stress_data Hd).
  assert (Hdict : exists d, stress_data = JDict d).
  { destruct stress_data; try discriminate Hv1. eauto. }
  destruct Hdict as [d ->]. cbn [is_dict]. rewrite Hv1. cbn [rbind].
  rewrite Hit. cbn [rbind].
  change (mkLevels 0 0 0 0) with (levels_of stress_acc0).
  rewrite fold_live_stress_levels. fold (stress_loop values).
  rewrite H1, H2, H3, H4. cbn. eauto.
Qed.

Lemma live_stress_buckets_agree_witness :
  exists average_stress max_stress,
    live_stress (stress_payload four_samples)
    = Ok (JDict [("average_stress", average_stress);
                 ("max_stress", max_stress);
                 ("rest_minutes", JInt (rest_minutes four_samples_stats));
                 ("low_stress_minutes",
                  JInt (low_stress_minutes four_samples_stats));
                 ("medium_stress_minutes",
                  JInt (medium_stress_minutes four_samples_stats));
                 ("high_stress_minutes",
                  JInt (high_stress_minutes four_samples_stats))]).
Proof.
  apply (live_stress_buckets_agree (stress_payload four_samples)
           four_samples_stats).
  vm_compute. reflexivity.
Defined.

Lemma fold_floors_strings entries :
  Forall (fun e => is_list e = false) entries ->
  total_floors entries = NInt 0.
Proof.
  unfold total_floors. generalize (NInt 0).
  induction entries as [|e entries IH]; intros n Hall; [reflexivity|].
  inversion Hall as [|? ? He Hall']; subst. cbn [fold_left].
  assert (Hstep : floors_step n e = n) by (destruct e; try reflexivity; discriminate).
  rewrite Hstep. apply IH. exact Hall'.
Qed.

Lemma chars_strings s : Forall (fun e => is_list e = false) (chars s).
Proof. induction s; constructor; [reflexivity | assumption]. Qed.

Lemma keys_strings (d : list (string * json)) :
  Forall (fun e => is_list e = false) (map (fun kv => JStr (fst kv)) d).
Proof. induction d; constructor; [reflexivity | assumption]. Qed.

(** X14: the floors value of the live dashboard is the one
    [get_health_metrics] and the sync store: whenever [get_live_data]
    computes it from a payload that is not a bare number, it is the value
    the other two give for that payload. *)
Theorem live_floors_agree floors v :
  live_floors_climbed floors = Ok v ->
  is_number floors = false ->
  v = floors_climbed floors.
Proof.
  unfold live_floors_climbed, floors_climbed. intros H0 Hn. rewrite Hn.
  rewrite andb_false_r.
  destruct (truthy floors && is_dict floors) eqn:E.
  2:{ apply Ok_inj in H0. subst v. reflexivity. }
  rbind_inv H0. rename v0 into floor_array. rbind_inv H0. rename v0 into entries.
  apply Ok_inj in H0. subst v. rewrite Hv.
  destruct floor_array as [| | | |s|l|d]; try discriminate Hv0;
    apply Ok_inj in Hv0; subst entries.
  - rewrite (fold_floors_strings (chars s) (chars_strings s)). reflexivity.
  - destruct l; reflexivity.
  - rewrite (fold_floors_strings _ (keys_strings d)). reflexivity.
Qed.

Lemma live_floors_agree_witness :
  JInt 5 = floors_climbed (floors_payload floors_five).
Proof.
  apply (live_floors_agree (floors_payload floors_five) (JInt 5));
    reflexivity.
Defined.

(** ** The mean heart rate *)








(** ** The activities endpoint *)

Section ActivitiesProps.
Context {S : Type} `{Storage S}.
Variable py_str : json -> string.
Variable fromisoformat : json -> result json.



End ActivitiesProps.


(** ** The sync's stress block without data *)

Section StressWithoutData.
Context {S : Type} `{Storage S}.
Variable py_str : json -> string.
Variable parse_start_time : json -> json.
Variable strptime_date : string -> option date.

(** The block on a provider that answers [None]: it notes ['no_data'],
    then ['success'], then reads [average_stress], which is unbound. *)
Lemma stress_body_without_data g email d (w : world S) :
  get_all_day_stress g = Ok JNull ->
  stress_body g email d w
  = (mkWorld (sess w)
       (status_set "stress" Success
          (status_set "stress" NoData (sync_status w)))
       (summary w), Raise UnboundLocalError).
Proof.
  intros Hg. unfold stress_body, sbind, lift. rewrite Hg. reflexivity.
Qed.

(** X17: when the provider has no stress data for the day (the call
    answers [None]), the sync does not report ['no_data'] for stress: the
    block goes on to read the average it never computed, and the report
    carries the error ([UnboundLocalError]) as the status of stress.  The
    block stores nothing and adds nothing to the summary. *)
Theorem sync_stress_without_data_reports_error g email date date_obj s :
  strptime_date date = Some date_obj ->
  get_all_day_stress g = Ok JNull ->
  (exists s' code statuses summaries database_ok,
      sync_date_to_database py_str parse_start_time strptime_date
        (Ok g) email date s
      = (s', SyncReport code statuses summaries database_ok)
      /\ status_of "stress" statuses = Some (Error UnboundLocalError))
  /\ (forall w,
         let w' := fst (family_block "stress" (stress_body g email date_obj) w) in
         sess w' = sess w /\ summary w' = summary w
         /\ status_of "stress" (sync_status w') = Some (Error UnboundLocalError)).
Proof.
  intros Hd Hg. split.
  - set (bs := blocks py_str parse_start_time g email date_obj).
    set (w0 := mkWorld s [] []).
    assert (Hst : has_status "stress" (Some (Error UnboundLocalError))
                    (fst (run_blocks bs w0))).
    { pose proof (run_blocks_status bs
                    [("steps", steps_body g email date_obj);
                     ("heart_rate", heart_rate_body g email date_obj);
                     ("sleep", sleep_body g email date_obj)]
                    [("body_battery", body_battery_body g email date_obj);
                     ("activities",
                      activities_body py_str parse_start_time g email date_obj);
                     ("health_metrics", health_metrics_body g email date_obj)]
                    "stress" (stress_body g email date_obj) w0
                    (blocks_frame py_str parse_start_time g email date_obj)
                    (blocks_report py_str parse_start_time g email date_obj))
        as Hrun.
      rewrite stress_body_without_data in Hrun by exact Hg.
      apply Hrun; [|reflexivity].
      unfold bs. rewrite blocks_names. apply families_nodup. }
    unfold sync_date_to_database. rewrite Hd. fold bs. fold w0.
    destruct (run_blocks bs w0) as [w r]. cbn [fst] in Hst.
    destruct (session_commit (sess w)) as [s1 [u|e1]]; eauto 10.
  - intros w. cbv zeta. unfold family_block, try_except.
    rewrite stress_body_without_data by exact Hg. cbn.
    repeat split. apply status_of_set_same.
Qed.
End StressWithoutData.

Lemma sync_stress_without_data_reports_error_witness :
  (exists s' code statuses summaries database_ok,
      sync_date_to_database str_of_id no_start_time parse_iso_date
        (Ok quiet_garmin) someone "2026-01-15" (open_session empty_db)
      = (s', SyncReport code statuses summaries database_ok)
      /\ status_of "stress" statuses = Some (Error UnboundLocalError))
  /\ (forall w : world session,
         let w' := fst (family_block "stress"
                          (stress_body quiet_garmin someone jan15) w) in
         sess w' = sess w /\ summary w' = summary w
         /\ status_of "stress" (sync_status w') = Some (Error UnboundLocalError)).
Proof.
  apply (sync_stress_without_data_reports_error str_of_id no_start_time
           parse_iso_date quiet_garmin someone "2026-01-15" jan15
           (open_session empty_db)); reflexivity.
Defined.

(** ** The running goal *)

Lemma run_step_runs acc act acc' :
  run_step acc act = Ok acc' ->
  List.length (runs acc')
  = (List.length (runs acc) + (if is_running act then 1 else 0))%nat.
Proof.
  intros H0. unfold run_step in H0.
  destruct (is_dict act) eqn:Ed; cbn [negb] in H0.
  2:{ apply Ok_inj in H0. subst acc'.
      destruct act; try discriminate Ed; simpl; lia. }
  destruct act as [| | | | | |d]; try discriminate Ed.
  rbind_inv H0. rename v into key. rename Hv into Hkey.
  rbind_inv H0. rename v into running. rename Hv into Hrun.
  unfold is_running. rewrite Hkey.
  destruct running.
  - repeat rbind_inv H0. apply Ok_inj in H0. subst acc'.
    cbn [runs]. rewrite length_app. cbn [List.length].
    assert (Hs : exists s0, key = JStr s0
                            /\ existsb (String.eqb s0) running_types = true).
    { destruct key; simpl in Hrun; try discriminate;
        apply Ok_inj in Hrun; eauto. }
    destruct Hs as [s0 [-> ->]]. reflexivity.
  - apply Ok_inj in H0. subst acc'.
    assert (E : match key with
                | JStr s0 => existsb (String.eqb s0) running_types
                | _ => false
                end = false).
    { destruct key; simpl in Hrun; try discriminate; try reflexivity.
      apply Ok_inj in Hrun. exact Hrun. }
    rewrite E. lia.
Qed.

Lemma run_loop_runs acts acc acc' :
  run_loop acts acc = Ok acc' ->
  List.length (runs acc')
  = (List.length (runs acc) + List.length (filter is_running acts))%nat.
Proof.
  revert acc. induction acts as [|act acts IH]; intros acc H0.
  - apply Ok_inj in H0. subst acc'. simpl. lia.
  - cbn [run_loop] in H0. rbind_inv H0.
    rewrite (IH _ H0), (run_step_runs _ _ _ Hv). cbn [filter].
    destruct (is_running act); simpl; lia.
Qed.

(** X18: the goal tracker counts the runs and nothing else: whenever it
    produces its result, [runs_count] and the length of [runs] are the
    number of the month's activities that are objects with one of the three
    running type keys; activities of other types, and entries that are not
    objects, add nothing. *)
Theorem running_goal_counts_runs today payload out :
  running_goal_of today (Ok payload) = Ok out ->
  runs_count out
  = Z.of_nat (List.length (filter is_running (run_activities payload)))
  /\ List.length (goal_runs out)
     = List.length (filter is_running (run_activities payload)).
Proof.
  intros H0. unfold running_goal_of in H0. cbn [rbind] in H0.
  rbind_inv H0. rename v into acc. rename Hv into Hloop.
  repeat rbind_inv H0. apply Ok_inj in H0. subst out.
  cbn [runs_count goal_runs].
  rewrite (run_loop_runs _ _ _ Hloop). cbn [runs run_totals0 List.length].
  split; reflexivity.
Qed.

Lemma running_goal_counts_runs_witness :
  runs_count april_goal
  = Z.of_nat (List.length (filter is_running (run_activities april_runs)))
  /\ List.length (goal_runs april_goal)
     = List.length (filter is_running (run_activities april_runs)).
Proof.
  apply (running_goal_counts_runs apr15 april_runs april_goal).
  vm_compute. reflexivity.
Defined.

(** X19: on any day of the calendar the tracker's day counts add up: the
    days elapsed (the day of the month) and the days remaining sum to the
    number of days of the month, and on the month's last day no day remains
    and the pace needed is reported as 0. *)
Theorem running_goal_days_add_up today fetched out :
  valid_date today = true ->
  running_goal_of today fetched = Ok out ->
  1 <= days_elapsed out
  /\ 0 <= days_remaining out
  /\ days_elapsed out + days_remaining out = goal_days_in_month out
  /\ goal_days_in_month out = days_in_month (year today) (month today)
  /\ (day today = days_in_month (year today) (month today) ->
      days_remaining out = 0 /\ km_per_day_needed out = JInt 0).
Proof.
  intros Hvalid H0. unfold running_goal_of in H0. cbn [rbind] in H0.
  repeat rbind_inv H0. apply Ok_inj in H0. subst out.
  cbn [days_elapsed days_remaining goal_days_in_month km_per_day_needed].
  rewrite days_elapsed_is_day in *.
  unfold valid_date in Hvalid.
  repeat (apply andb_prop in Hvalid; destruct Hvalid as [Hvalid ?]).
  repeat match goal with
         | Hb : (_ <=? _) = true |- _ => apply Z.leb_le in Hb
         end.
  split; [lia|]. split; [lia|]. split; [lia|]. split; [reflexivity|].
  intros E. split; [lia|].
  match goal with
  | Hn : (if 0 <? _ then _ else _) = Ok ?n |- ?n = _ =>
      rewrite E, Z.sub_diag in Hn; cbn in Hn; apply Ok_inj in Hn;
      symmetry; exact Hn
  end.
Qed.

Lemma running_goal_days_add_up_witness :
  1 <= days_elapsed april_goal
  /\ 0 <= days_remaining april_goal
  /\ days_elapsed april_goal + days_remaining april_goal
     = goal_days_in_month april_goal
  /\ goal_days_in_month april_goal = days_in_month (year apr15) (month apr15)
  /\ (day apr15 = days_in_month (year apr15) (month apr15) ->
      days_remaining april_goal = 0 /\ km_per_day_needed april_goal = JInt 0).
Proof.
  apply (running_goal_days_add_up apr15 (Ok april_runs) april_goal).
  - reflexivity.
  - vm_compute. reflexivity.
Defined.

(** ** The sleep score of [get_sleep] *)

(** X20: for a payload that is an object, the score [get_sleep] answers
    with and stores is the payload's own top-level [sleepScore] and nothing
    else: a score the provider nests under [dailySleepDTO], or gives as
    [sleepQualityScore], is never used, and a payload without a top-level
    [sleepScore] gets a null score. *)
Theorem get_sleep_score_is_top_level target_date p cs :
  get_sleep_cols target_date (JDict p) = Ok cs ->
  assoc "sleep_score" cs
  = Some (match assoc "sleepScore" p with Some v => v | None => JNull end).
Proof.
  unfold get_sleep_cols. intros H0.
  rbind_inv H0. rename v into daily_sleep.
  rbind_inv H0. rename v into sleep_score. rename Hv0 into Hscore.
  repeat rbind_inv H0. apply Ok_inj in H0. subst cs.
  cbn [assoc String.eqb Ascii.eqb Bool.eqb].
  unfold get_sleep_score in Hscore. cbn in Hscore.
  apply Ok_inj in Hscore. subst sleep_score. reflexivity.
Qed.

Lemma get_sleep_score_is_top_level_witness :
  assoc "sleep_score"
    [("sleep_score", JNull); ("sleep_duration_seconds", JInt 27000);
     ("sleep_duration_minutes", JInt 450); ("deep_sleep_seconds", JNull);
     ("light_sleep_seconds", JNull); ("rem_sleep_seconds", JNull);
     ("awake_seconds", JNull);
     ("full_data",
      JDict [("dailySleepDTO",
              JDict [("sleepTimeSeconds", JInt 27000);
                     ("sleepScores",
                      JDict [("overall", JDict [("value", JInt 82)])])])])]
  = Some (match assoc "sleepScore"
                  [("dailySleepDTO",
                    JDict [("sleepTimeSeconds", JInt 27000);
                           ("sleepScores",
                            JDict [("overall", JDict [("value", JInt 82)])])])]
          with Some v => v | None => JNull end).
Proof.
  apply (get_sleep_score_is_top_level jan15
           [("dailySleepDTO",
             JDict [("sleepTimeSeconds", JInt 27000);
                    ("sleepScores",
                     JDict [("overall", JDict [("value", JInt 82)])])])]).
  vm_compute. reflexivity.
Defined.

(** ** The stress average, and when [get_stress] answers *)










(** ** The provider client *)

Lemma get_garmin_client_credentials {client} (a b : client) login dump :
  get_garmin_client a b TokensUnavailable login dump = Ok b
  \/ exists m, get_garmin_client a b TokensUnavailable login dump
               = Raise (GarminConnectAuthenticationError m).
Proof.
  unfold get_garmin_client.
  destruct login as [[r1 r2]|e]; cbn [rbind fst].
  - assert (Hd : (let* _ := dump in Ok b) = Ok b
                 \/ exists e, (let* _ := dump in Ok b) = Raise e)
      by (destruct dump as [[]|e]; simpl; eauto).
    destruct r1 as [| | | |s| |];
      try (destruct Hd as [-> | [e ->]]; [left; reflexivity|];
           right; destruct e; eexists; reflexivity).
    destruct (String.eqb s "needs_mfa") eqn:Es.
    + apply String.eqb_eq in Es. subst s. right. eexists. reflexivity.
    + assert (Hm : match s with
                   | "needs_mfa"%string =>
                       Raise (GarminConnectAuthenticationError mfa_message)
                   | _ => let* _ := dump in Ok b
                   end = (let* _ := dump in Ok b)).
      { apply String.eqb_neq in Es.
        repeat (match goal with
                | |- context [match ?x with EmptyString => _ | String _ _ => _ end] =>
                    destruct x; try reflexivity
                | |- context [match ?x with Ascii _ _ _ _ _ _ _ _ => _ end] =>
                    destruct x
                | |- context [if ?b then _ else _] =>
                    destruct b; try reflexivity
                end).
        contradiction Es. reflexivity. }
      rewrite Hm.
      destruct Hd as [-> | [e ->]]; [left; reflexivity|].
      right; destruct e; eexists; reflexivity.
  - right. destruct e; eexists; reflexivity.
Qed.

(** X23: once the cached tokens are unavailable, whatever goes wrong while
    logging in with the credentials (the provider unreachable, too many
    requests, a second factor asked for, the tokens not writable) leaves
    [get_garmin_client] as [GarminConnectAuthenticationError], and the sync
    answers such a request 401 without touching the session. *)
Theorem credential_login_failures_answer_401 {S} `{Storage S}
  py_str parse_start_time strptime_date (a b : garmin) login dump
  email date date_obj (s : S) e :
  strptime_date date = Some date_obj ->
  get_garmin_client a b TokensUnavailable login dump = Raise e ->
  (exists m, e = GarminConnectAuthenticationError m)
  /\ sync_date_to_database py_str parse_start_time strptime_date
       (get_garmin_client a b TokensUnavailable login dump)
       email date s
     = (s, SyncError 401).
Proof.
  intros Hd He.
  destruct (get_garmin_client_credentials a b login dump) as [Hok | [m Hm]];
    [congruence|].
  rewrite Hm in He. inversion He; subst e. split; [eauto|].
  unfold sync_date_to_database. rewrite Hd, Hm. reflexivity.
Qed.

Lemma credential_login_failures_answer_401_witness :
  (exists m,
      GarminConnectAuthenticationError
        "Authentication failed: connection refused"
      = GarminConnectAuthenticationError m)
  /\ sync_date_to_database str_of_id no_start_time parse_iso_date
       (get_garmin_client quiet_garmin quiet_garmin TokensUnavailable
          (Raise (GarminConnectConnectionError "connection refused")) (Ok tt))
       someone "2026-01-15" (open_session empty_db)
     = (open_session empty_db, SyncError 401).
Proof.
  apply (credential_login_failures_answer_401 str_of_id no_start_time
           parse_iso_date quiet_garmin quiet_garmin
           (Raise (GarminConnectConnectionError "connection refused")) (Ok tt)
           someone "2026-01-15" jan15 (open_session empty_db));
    reflexivity.
Defined.

(** ** Syncing a day again *)

Lemma insert_all_app_none p q st :
  insert_all p st = None -> insert_all (p ++ q) st = None.
Proof.
  revert st. induction p as [|[t r] p IH]; intros st; [discriminate|].
  cbn [insert_all app]. destruct (existsb (same_key t r) (st t)); [reflexivity|].
  apply IH.
Qed.

Lemma flush_doomed db s :
  doomed db s ->
  doomed db (fst (flush s))
  /\ (snd (flush s) = Ok tt -> fst (flush s) = s /\ inactive s = true).
Proof.
  intros Hd. pose proof Hd as [Hc Hd']. unfold flush.
  destruct (pending s) as [|x p] eqn:Ep.
  - cbn [fst snd]. split; [exact Hd|].
    intros _. split; [reflexivity|].
    destruct Hd' as [Hi | Hn]; [exact Hi | discriminate Hn].
  - destruct (inactive s) eqn:Ei.
    + cbn [fst snd]. split; [exact Hd | discriminate].
    + destruct Hd' as [Hi | Hn]; [discriminate|]. rewrite Hn. cbn [fst snd].
      split; [|discriminate]. split; [exact Hc | left; reflexivity].
Qed.

(** A query on a doomed session raises, and leaves it doomed. *)
Lemma query_doomed {A} db (k : session -> A) s :
  doomed db s ->
  let out := sbind flush (fun _ => sbind require_active
                                     (fun _ s' => (s', Ok (k s')))) s in
  doomed db (fst out) /\ exists e, snd out = Raise e.
Proof.
  intros Hd. cbv zeta. unfold sbind.
  destruct (flush_doomed db s Hd) as [Hf Hok].
  destruct (flush s) as [s1 [[]|e]]; cbn [fst snd] in *.
  - destruct (Hok eq_refl) as [-> Hi]. unfold require_active. rewrite Hi.
    cbn [fst snd]. split; [exact Hd | eexists; reflexivity].
  - split; [exact Hf | eexists; reflexivity].
Qed.

Lemma upsert_doomed db t email d cols s :
  doomed db s -> doomed db (fst (upsert t email d cols s)).
Proof.
  intros Hd. unfold upsert. unfold sbind at 1.
  destruct (query_doomed db (fun s' => find (by_date email d) (stored s' t)) s Hd)
    as [Hq [e He]].
  change (query_first t email d s)
    with (sbind flush (fun _ => sbind require_active
            (fun _ s' => (s', Ok (find (by_date email d) (stored s' t))))) s).
  destruct (sbind flush _ s) as [s1 r]. cbn [fst snd] in *. subst r. exact Hq.
Qed.

Lemma upsert_activity_doomed db email aid d cols s :
  doomed db s -> doomed db (fst (upsert_activity email aid d cols s)).
Proof.
  intros Hd. unfold upsert_activity. unfold sbind at 1.
  destruct (query_doomed db
              (fun s' => find (by_activity email aid) (stored s' ActivityData))
              s Hd) as [Hq [e He]].
  change (query_activity email aid s)
    with (sbind flush (fun _ => sbind require_active
            (fun _ s' => (s', Ok (find (by_activity email aid)
                                    (stored s' ActivityData))))) s).
  destruct (sbind flush _ s) as [s1 r]. cbn [fst snd] in *. subst r. exact Hq.
Qed.

Lemma merge_doomed db t r s :
  doomed db s -> doomed db (fst (session_merge t r s)).
Proof.
  intros Hd.
  change (session_merge t r s)
    with (sbind flush
            (fun _ => modify (fun s => mkSession (stored s) (pending s ++ [(t, r)])
                                         (committed s) (inactive s))) s).
  unfold sbind. destruct (flush_doomed db s Hd) as [Hf Hok].
  destruct (flush s) as [s1 [[]|e]]; cbn [fst snd] in *; [|exact Hf].
  destruct (Hok eq_refl) as [-> Hi]. unfold modify. cbn [fst].
  destruct Hd as [Hc _]. split; [exact Hc | left; exact Hi].
Qed.

Lemma commit_doomed db s :
  doomed db s ->
  exists s' e, session_commit s = (s', Raise e) /\ committed s' = db.
Proof.
  intros Hd.
  destruct (query_doomed db (fun _ => tt) s Hd) as [[Hc _] [e He]].
  change (session_commit s)
    with (sbind flush (fun _ => sbind require_active
            (fun _ => modify (fun s => mkSession (stored s) [] (stored s) false))) s).
  unfold sbind in *. destruct (flush s) as [s1 [[]|e1]]; cbn [fst snd] in *.
  - destruct (require_active s1) as [s2 [[]|e2]]; cbn [fst snd] in *;
      [discriminate He | eauto].
  - eauto.
Qed.

Lemma keeps_on_session_doomed {A} db (c : SR session A) :
  (forall s, doomed db s -> doomed db (fst (c s))) ->
  keeps (world_doomed db) (on_session c).
Proof.
  intros Hc w Hw. unfold on_session, world_doomed in *.
  specialize (Hc (sess w) Hw). destruct (c (sess w)) as [s' r]. exact Hc.
Qed.

Lemma keeps_modify_report db (f : world session -> world session) :
  (forall w, sess (f w) = sess w) -> keeps (world_doomed db) (modify f).
Proof.
  intros Hf w Hw. unfold modify, world_doomed in *. cbn [fst].
  rewrite Hf. exact Hw.
Qed.

Ltac doomed_frame :=
  repeat first
    [ apply keeps_sret
    | apply keeps_lift
    | apply keeps_on_session_doomed; intros;
      first [ apply upsert_doomed | apply upsert_activity_doomed
            | apply merge_doomed ]; assumption
    | apply keeps_modify_report; intros; reflexivity
    | apply keeps_bind; [|intros]
    | apply keeps_try; [|intros]
    | apply keeps_for_fold; intros
    | match goal with
      | |- keeps _ (if ?b then _ else _) => destruct b
      | |- keeps _ (match ?x with _ => _ end) => destruct x
      end ].

Section Resync.
Variable py_str : json -> string.
Variable parse_start_time : json -> json.
Variable strptime_date : string -> option date.

Lemma later_blocks_doomed db g email d :
  Forall (fun b : string * SR (world session) unit =>
            keeps (world_doomed db) (family_block (fst b) (snd b)))
    [("heart_rate", heart_rate_body g email d);
     ("sleep", sleep_body g email d);
     ("stress", stress_body g email d);
     ("body_battery", body_battery_body g email d);
     ("activities", activities_body py_str parse_start_time g email d);
     ("health_metrics", health_metrics_body g email d)].
Proof.
  repeat (apply Forall_cons; [cbn [fst snd]|]); [..|apply Forall_nil];
    unfold family_block, set_status, set_summary,
      heart_rate_body, sleep_body, stress_body, body_battery_body,
      activities_body, activity_turn, health_metrics_body,
      set_status, set_summary;
    doomed_frame.
Qed.

Lemma run_blocks_keeps_doomed db (bs : list (string * SR (world session) unit)) :
  Forall (fun b => keeps (world_doomed db) (family_block (fst b) (snd b))) bs ->
  keeps (world_doomed db) (run_blocks bs).
Proof.
  induction bs as [|b bs IH]; intros Hall w Hw; [exact Hw|].
  rewrite run_blocks_cons. inversion Hall; subst.
  apply IH; [assumption|]. auto.
Qed.

(** X24: once a steps row is stored for a user and a day, syncing that day
    again cannot succeed, whatever the provider returns for the other
    families: the steps block adds a second row for the key, the first
    flush refuses it, and the sync answers 500 with [database_status]
    in error and the database exactly as it was, while the report still
    marks steps as ['success']. *)
Theorem resync_over_stored_steps_fails g email date d db r0
  steps_data user_summary total_steps :
  strptime_date date = Some d ->
  find (by_date email d) (db StepsData) = Some r0 ->
  get_steps_data g = Ok steps_data ->
  get_user_summary g = Ok user_summary ->
  sync_total_steps user_summary = Ok total_steps ->
  exists statuses summaries,
    sync_date_to_database py_str parse_start_time strptime_date (Ok g)
      email date (open_session db)
    = (open_session db, SyncReport 500 statuses summaries false)
    /\ status_of "steps" statuses = Some Success.
Proof.
  intros Hd Hf Hsd Hus Hts.
  unfold sync_date_to_database. rewrite Hd. unfold blocks.
  rewrite run_blocks_cons. cbn [fst snd].
  set (row := new_row email d (steps_cols steps_data user_summary total_steps)).
  assert (Hfirst :
            fst (family_block "steps" (steps_body g email d)
                   (mkWorld (open_session db) [] []))
            = mkWorld (mkSession db [(StepsData, row)] db false)
                [("steps", Success)] [("total_steps", total_steps)]).
  { unfold family_block, try_except, steps_body, sbind, lift.
    rewrite Hsd, Hus, Hts. reflexivity. }
  rewrite Hfirst.
  set (w1 := mkWorld (mkSession db [(StepsData, row)] db false)
               [("steps", Success)] [("total_steps", total_steps)]).
  set (rest := [("heart_rate", heart_rate_body g email d);
                ("sleep", sleep_body g email d);
                ("stress", stress_body g email d);
                ("body_battery", body_battery_body g email d);
                ("activities",
                 activities_body py_str parse_start_time g email d);
                ("health_metrics", health_metrics_body g email d)]).
  assert (Hw1 : world_doomed db w1).
  { unfold world_doomed, doomed. cbn [sess committed w1 inactive pending stored].
    split; [reflexivity|]. right. cbn [insert_all].
    assert (He : existsb (same_key StepsData row) (db StepsData) = true).
    { apply existsb_exists. exists r0. apply find_some in Hf.
      destruct Hf as [Hin Hp]. split; [exact Hin|].
      unfold row. rewrite same_key_by_date by discriminate. exact Hp. }
    rewrite He. reflexivity. }
  pose proof (run_blocks_keeps_doomed db rest (later_blocks_doomed db g email d)
                w1 Hw1) as Hdoomed.
  assert (Hsteps : has_status "steps" (Some Success) (fst (run_blocks rest w1))).
  { apply (run_blocks_keeps "steps" (Some Success) rest).
    - pose proof (blocks_frame py_str parse_start_time g email d) as Hfr.
      unfold blocks in Hfr. inversion Hfr; subst. assumption.
    - cbn. intuition discriminate.
    - reflexivity. }
  destruct (run_blocks rest w1) as [w r]. cbn [fst] in *.
  destruct (commit_doomed db (sess w) Hdoomed) as (s' & e & -> & Hc).
  exists (sync_status w), (summary w). split; [|exact Hsteps].
  unfold session_rollback. cbn. rewrite Hc. reflexivity.
Qed.
End Resync.

Lemma resync_over_stored_steps_fails_witness :
  let db := committed
              (fst (sync_date_to_database str_of_id no_start_time
                      parse_iso_date (Ok (garmin_steps 1000)) someone
                      "2026-01-15" (open_session empty_db))) in
  exists statuses summaries,
    sync_date_to_database str_of_id no_start_time parse_iso_date
      (Ok garmin_hr_down) someone "2026-01-15" (open_session db)
    = (open_session db, SyncReport 500 statuses summaries false)
    /\ status_of "steps" statuses = Some Success.
Proof.
  cbv zeta.
  apply (resync_over_stored_steps_fails str_of_id no_start_time parse_iso_date
           garmin_hr_down someone "2026-01-15" jan15 _
           (mkRow (Some 1) someone jan15 None
              (steps_cols JNull (JDict [("totalSteps", JInt 1000)]) (JInt 1000)))
           (JList []) (JDict [("totalSteps", JInt 1000)]) (JInt 1000));
    reflexivity.
Defined.

(** ** The goal tracker produces its result *)

















(** ** What a sync answers, and what a failed sync leaves *)

Section SyncReports.
Context {S : Type} `{Storage S}.
Variable py_str : json -> string.
Variable parse_start_time : json -> json.
Variable strptime_date : string -> option date.

(** X26: given a client and a date that parses, the sync always answers
    with its report, whatever the provider returns or raises and whatever
    the storage does: the report has a status for each of the seven
    families, and the answer is 200 with the database in order, or 500 with
    the database in error; which one depends on the final commit alone. *)
Theorem sync_always_reports g email date date_obj s :
  strptime_date date = Some date_obj ->
  exists s' code statuses summaries database_ok,
    sync_date_to_database py_str parse_start_time strptime_date
      (Ok g) email date s
    = (s', SyncReport code statuses summaries database_ok)
    /\ (forall family, In family families ->
                       exists st, status_of family statuses = Some st)
    /\ ((code = 200 /\ database_ok = true)
        \/ (code = 500 /\ database_ok = false)).
Proof.
  intros Hd.
  set (bs := blocks py_str parse_start_time g email date_obj).
  set (w0 := mkWorld s [] []).
  assert (Hall : forall family, In family families ->
                   exists st, has_status family (Some st) (fst (run_blocks bs w0))).
  { intros family Hin. unfold bs in Hin.
    rewrite <- (blocks_names py_str parse_start_time g email date_obj) in Hin.
    apply in_map_iff in Hin. destruct Hin as [[f body] [Hf Hin]].
    simpl in Hf. subst f.
    apply in_split in Hin. destruct Hin as [pre [post Hbs]].
    pose proof (run_blocks_status bs pre post family body w0
                  (blocks_frame py_str parse_start_time g email date_obj)
                  (blocks_report py_str parse_start_time g email date_obj))
      as Hst.
    assert (Hnd : NoDup (map fst bs))
      by (unfold bs; rewrite blocks_names; apply families_nodup).
    specialize (Hst Hnd Hbs).
    destruct (snd (body (fst (run_blocks pre w0)))) as [a|e'];
      [destruct Hst as [Hs|Hs]|]; eauto. }
  unfold sync_date_to_database. rewrite Hd. fold bs. fold w0.
  destruct (run_blocks bs w0) as [w r]. cbn [fst] in Hall.
  destruct (session_commit (sess w)) as [s1 [u|e1]].
  - exists s1, 200, (sync_status w), (summary w), true. auto.
  - exists (session_rollback s1), 500, (sync_status w), (summary w), false. auto.
Qed.
End SyncReports.

Lemma sync_always_reports_witness :
  exists s' code statuses summaries database_ok,
    sync_date_to_database str_of_id no_start_time parse_iso_date
      (Ok garmin_hr_down) someone "2026-01-15" (open_session empty_db)
    = (s', SyncReport code statuses summaries database_ok)
    /\ (forall family, In family families ->
                       exists st, status_of family statuses = Some st)
    /\ ((code = 200 /\ database_ok = true)
        \/ (code = 500 /\ database_ok = false)).
Proof.
  apply (sync_always_reports str_of_id no_start_time parse_iso_date
           garmin_hr_down someone "2026-01-15" jan15 (open_session empty_db)).
  reflexivity.
Defined.

Lemma flush_committed s : committed (fst (flush s)) = committed s.
Proof.
  unfold flush. destruct (pending s); [reflexivity|].
  destruct (inactive s); [reflexivity|].
  destruct (insert_all _ _); reflexivity.
Qed.

Lemma query_committed {A} (k : session -> A) s :
  committed (fst (sbind flush (fun _ => sbind require_active
                                          (fun _ s' => (s', Ok (k s')))) s))
  = committed s.
Proof.
  unfold sbind. pose proof (flush_committed s) as Hf.
  destruct (flush s) as [s1 [[]|e]]; cbn [fst] in *; [|exact Hf].
  unfold require_active. destruct (inactive s1); exact Hf.
Qed.

Lemma upsert_committed t email d cols s :
  committed (fst (upsert t email d cols s)) = committed s.
Proof.
  unfold upsert. unfold sbind at 1.
  pose proof (query_committed (fun s' => find (by_date email d) (stored s' t)) s)
    as Hq.
  change (query_first t email d s)
    with (sbind flush (fun _ => sbind require_active
            (fun _ s' => (s', Ok (find (by_date email d) (stored s' t))))) s).
  destruct (sbind flush _ s) as [s1 [existing|e]]; cbn [fst] in *; [|exact Hq].
  destruct existing as [r|].
  - destruct (assign_cols cols r) as [r' res]. exact Hq.
  - unfold sbind, lift. destruct (eval_cols cols); exact Hq.
Qed.

Lemma upsert_activity_committed email aid d cols s :
  committed (fst (upsert_activity email aid d cols s)) = committed s.
Proof.
  unfold upsert_activity. unfold sbind at 1.
  pose proof (query_committed
                (fun s' => find (by_activity email aid) (stored s' ActivityData)) s)
    as Hq.
  change (query_activity email aid s)
    with (sbind flush (fun _ => sbind require_active
            (fun _ s' => (s', Ok (find (by_activity email aid)
                                    (stored s' ActivityData))))) s).
  destruct (sbind flush _ s) as [s1 [existing|e]]; cbn [fst] in *; [|exact Hq].
  destruct existing as [r|].
  - destruct (assign_cols cols (set_date d r)) as [r' res]. exact Hq.
  - unfold sbind, lift. destruct (eval_cols cols); exact Hq.
Qed.

Lemma merge_committed t r s :
  committed (fst (session_merge t r s)) = committed s.
Proof.
  change (session_merge t r s)
    with (sbind flush
            (fun _ => modify (fun s => mkSession (stored s) (pending s ++ [(t, r)])
                                         (committed s) (inactive s))) s).
  unfold sbind. pose proof (flush_committed s) as Hf.
  destruct (flush s) as [s1 [[]|e]]; cbn [fst] in *; exact Hf.
Qed.

Lemma keeps_on_session_uncommitted {A} db (c : SR session A) :
  (forall s, committed (fst (c s)) = committed s) ->
  keeps (uncommitted db) (on_session c).
Proof.
  intros Hc w Hw. unfold on_session, uncommitted in *.
  specialize (Hc (sess w)). destruct (c (sess w)) as [s' r].
  cbn [fst sess] in *. congruence.
Qed.

Lemma keeps_modify_uncommitted db (f : world session -> world session) :
  (forall w, sess (f w) = sess w) -> keeps (uncommitted db) (modify f).
Proof.
  intros Hf w Hw. unfold modify, uncommitted in *. cbn [fst].
  rewrite Hf. exact Hw.
Qed.

Ltac uncommitted_frame :=
  repeat first
    [ apply keeps_sret
    | apply keeps_lift
    | apply keeps_on_session_uncommitted; intros;
      first [ apply upsert_committed | apply upsert_activity_committed
            | apply merge_committed ]
    | apply keeps_modify_uncommitted; intros; reflexivity
    | apply keeps_bind; [|intros]
    | apply keeps_try; [|intros]
    | apply keeps_for_fold; intros
    | match goal with
      | |- keeps _ (if ?b then _ else _) => destruct b
      | |- keeps _ (match ?x with _ => _ end) => destruct x
      end ].

Section Atomic.
Variable py_str : json -> string.
Variable parse_start_time : json -> json.
Variable strptime_date : string -> option date.

Lemma blocks_uncommitted db g email d :
  Forall (fun b : string * SR (world session) unit =>
            keeps (uncommitted db) (family_block (fst b) (snd b)))
    (blocks py_str parse_start_time g email d).
Proof.
  unfold blocks.
  repeat (apply Forall_cons; [cbn [fst snd]|]); [..|apply Forall_nil];
    unfold family_block, set_status, set_summary, steps_body,
      heart_rate_body, sleep_body, stress_body, body_battery_body,
      activities_body, activity_turn, health_metrics_body,
      set_status, set_summary;
    uncommitted_frame.
Qed.

Lemma run_blocks_keeps_uncommitted db
  (bs : list (string * SR (world session) unit)) :
  Forall (fun b => keeps (uncommitted db) (family_block (fst b) (snd b))) bs ->
  keeps (uncommitted db) (run_blocks bs).
Proof.
  induction bs as [|b bs IH]; intros Hall w Hw; [exact Hw|].
  rewrite run_blocks_cons. inversion Hall; subst.
  apply IH; [assumption|]. auto.
Qed.

(** X27: on the list engine a sync commits all or nothing: whenever it is
    not answered 200 (an error answer, or the report with the database in
    error), the session is left exactly as it was opened, with nothing of
    the request stored; the seven blocks never commit by themselves. *)
Theorem failed_sync_changes_nothing client email date db s' answer :
  sync_date_to_database py_str parse_start_time strptime_date client
    email date (open_session db) = (s', answer) ->
  match answer with
  | SyncReport _ _ _ true => True
  | _ => s' = open_session db
  end.
Proof.
  unfold sync_date_to_database. intros H0.
  destruct (strptime_date date) as [d|];
    [|inversion H0; subst; reflexivity].
  destruct client as [g|e].
  2:{ destruct e; inversion H0; subst; reflexivity. }
  pose proof (run_blocks_keeps_uncommitted db _
                (blocks_uncommitted db g email d)
                (mkWorld (open_session db) [] []) eq_refl) as Hk.
  destruct (run_blocks _ _) as [w r]. cbn [fst] in Hk. unfold uncommitted in Hk.
  change (session_commit (sess w))
    with (sbind flush (fun _ => sbind require_active
            (fun _ => modify (fun s => mkSession (stored s) [] (stored s) false)))
            (sess w)) in H0.
  unfold sbind in H0. pose proof (flush_committed (sess w)) as Hf.
  destruct (flush (sess w)) as [s1 [[]|e1]]; cbn [fst] in Hf.
  - unfold require_active in H0. destruct (inactive s1).
    + pose proof (f_equal fst H0) as E1. pose proof (f_equal snd H0) as E2.
      cbn [fst snd] in E1, E2. rewrite <- E1, <- E2.
      unfold session_rollback. cbn. rewrite Hf, Hk. reflexivity.
    + pose proof (f_equal snd H0) as E2. cbn [fst snd modify] in E2.
      rewrite <- E2. exact I.
  - pose proof (f_equal fst H0) as E1. pose proof (f_equal snd H0) as E2.
    cbn [fst snd] in E1, E2. rewrite <- E1, <- E2.
    unfold session_rollback. cbn. rewrite Hf, Hk. reflexivity.
Qed.
End Atomic.

Lemma failed_sync_changes_nothing_witness :
  let db := upd StepsData
              [mkRow (Some 1) someone jan15 None [("total_steps", JInt 1000)]]
              empty_db in
  let out := sync_date_to_database str_of_id no_start_time parse_iso_date
               (Ok (garmin_steps 2000)) someone "2026-01-15"
               (open_session db) in
  match snd out with
  | SyncReport _ _ _ true => True
  | _ => fst out = open_session db
  end.
Proof.
  cbv zeta.
  apply (failed_sync_changes_nothing str_of_id no_start_time parse_iso_date
           (Ok (garmin_steps 2000)) someone "2026-01-15").
  vm_compute. reflexivity.
Defined.
